(** * The per-device core of NetworkManager (NetworkManagerDevice.c)

    A shallow embedding of the device routines: radio control, the best
    access point selector, the scan reconciler and the activation engine,
    together with the properties the specification states about them.

    - One wireless or wired device is modelled at a time, as a [World]:
      the device structure, the process-wide data ([NMData]), a store of
      access-point objects, the kernel's view of the interface and the
      list of externally visible actions taken so far.
    - Access points are objects shared between lists (the device list,
      the Allowed and Invalid lists, the best-AP handle): lists hold
      references into the store, so that a change made through one handle
      is seen through the others, as with the C pointers.
    - What the kernel, the card and the collaborators answer is data of
      the world ([Kernel]) or an explicit observation argument. *)

From stdpp Require Import base numbers list strings.
From Stdlib Require Import ZArith QArith Lia.
From Stdlib.Strings Require Import Byte.

Open Scope Z_scope.

(** ** Enumerations *)

(** Modelled from the spec: the device kinds of NetworkManager.h (the
    header is not part of the sources at hand); the spec's data model lists
    Wired, Wireless and Unknown. *)
Inductive NMDeviceType :=
  | DEVICE_TYPE_DONT_KNOW
  | DEVICE_TYPE_WIRED_ETHERNET
  | DEVICE_TYPE_WIRELESS_ETHERNET.

(** Modelled from the spec: the driver-support classification of
    NetworkManager.h: Unsupported, SemiSupported, FullySupported. *)
Inductive NMDriverSupportLevel :=
  | NM_DRIVER_UNSUPPORTED
  | NM_DRIVER_SEMI_SUPPORTED
  | NM_DRIVER_FULLY_SUPPORTED.

(** Modelled from the spec: the wireless modes of NetworkManager.h:
    Infrastructure, AdHoc, Unknown. *)
Inductive NMNetworkMode :=
  | NETWORK_MODE_UNKNOWN
  | NETWORK_MODE_INFRA
  | NETWORK_MODE_ADHOC.

(** Modelled from the spec: the key types of NetworkManager.h: Unknown,
    Hex, Ascii, Passphrase128. *)
Inductive NMEncKeyType :=
  | NM_ENC_TYPE_UNKNOWN
  | NM_ENC_TYPE_128_BIT_PASSPHRASE
  | NM_ENC_TYPE_ASCII_KEY
  | NM_ENC_TYPE_HEX_KEY.

(** NetworkManagerDevice.h, in declaration order: the C code compares and
    decrements values of this type, so the numbering matters. *)
Inductive NMDeviceAuthMethod :=
  | NM_DEVICE_AUTH_METHOD_UNKNOWN
  | NM_DEVICE_AUTH_METHOD_NONE
  | NM_DEVICE_AUTH_METHOD_OPEN_SYSTEM
  | NM_DEVICE_AUTH_METHOD_SHARED_KEY.

(** Modelled from the spec: the phases carried by DeviceStatusChanged
    (NetworkManagerDbus.h): Activating, NoLongerActive, NowActive. *)
Inductive NMDeviceStatus :=
  | DEVICE_NO_LONGER_ACTIVE
  | DEVICE_NOW_ACTIVE
  | DEVICE_ACTIVATING.

#[global] Instance NMDeviceType_eq_dec : EqDecision NMDeviceType.
Proof. solve_decision. Defined.
#[global] Instance NMDriverSupportLevel_eq_dec : EqDecision NMDriverSupportLevel.
Proof. solve_decision. Defined.
#[global] Instance NMNetworkMode_eq_dec : EqDecision NMNetworkMode.
Proof. solve_decision. Defined.
#[global] Instance NMEncKeyType_eq_dec : EqDecision NMEncKeyType.
Proof. solve_decision. Defined.
#[global] Instance NMDeviceAuthMethod_eq_dec : EqDecision NMDeviceAuthMethod.
Proof. solve_decision. Defined.
#[global] Instance byte_eq_dec' : EqDecision byte := byte_eq_dec.

(** The integer value of an authentication method. *)
Definition auth_to_Z (a : NMDeviceAuthMethod) : Z :=
  match a with
  | NM_DEVICE_AUTH_METHOD_UNKNOWN => 0
  | NM_DEVICE_AUTH_METHOD_NONE => 1
  | NM_DEVICE_AUTH_METHOD_OPEN_SYSTEM => 2
  | NM_DEVICE_AUTH_METHOD_SHARED_KEY => 3
  end.

(** [auth--]. The code only decrements from SharedKey; below Unknown the C
    value would leave the enumeration, which never happens. *)
Definition auth_decr (a : NMDeviceAuthMethod) : NMDeviceAuthMethod :=
  match a with
  | NM_DEVICE_AUTH_METHOD_SHARED_KEY => NM_DEVICE_AUTH_METHOD_OPEN_SYSTEM
  | NM_DEVICE_AUTH_METHOD_OPEN_SYSTEM => NM_DEVICE_AUTH_METHOD_NONE
  | _ => NM_DEVICE_AUTH_METHOD_UNKNOWN
  end.

(** ** Access points *)

(** struct ether_addr: six octets. *)
Abbreviation ether_addr := (list byte) (only parsing).

Record GTimeVal := { tv_sec : Z; tv_usec : Z }.

(** Modelled from the spec: the access-point record of NetworkManagerAP.c,
    with the fields of the spec's data model: ESSID and BSSID (both
    optional), mode, frequency, strength, encrypted flag, key material and
    key type, the flags invalid, artificial, user-created and trusted, and
    the last-seen timestamp. The frequency, a double in C, is only stored
    and compared with zero; it is kept as a rational. *)
Record NMAccessPoint := {
  ap_essid : option string;
  ap_address : option ether_addr;
  ap_mode : NMNetworkMode;
  ap_freq : Q;
  ap_strength : Z;
  ap_encrypted : bool;
  ap_enc_key_source : option string;
  ap_enc_method : NMEncKeyType;
  ap_invalid : bool;
  ap_artificial : bool;
  ap_user_created : bool;
  ap_trusted : bool;
  ap_timestamp : GTimeVal
}.

(** Modelled from the spec: nm_ap_new of NetworkManagerAP.c, a
    zero-filled record. *)
Definition nm_ap_new : NMAccessPoint :=
  {| ap_essid := None; ap_address := None; ap_mode := NETWORK_MODE_UNKNOWN;
     ap_freq := 0%Q; ap_strength := 0; ap_encrypted := false;
     ap_enc_key_source := None; ap_enc_method := NM_ENC_TYPE_UNKNOWN;
     ap_invalid := false; ap_artificial := false; ap_user_created := false;
     ap_trusted := false; ap_timestamp := {| tv_sec := 0; tv_usec := 0 |} |}.

(** A reference to an access-point object: its index in the store. *)
Abbreviation ap_ref := nat (only parsing).

(** An access-point list holds references, in insertion order. *)
Abbreviation NMAccessPointList := (list nat) (only parsing).

(** ** The device *)

(** dev->options.wireless *)
Record NMDeviceWirelessOptions := {
  cur_essid : option string;
  supports_wireless_scan : bool;
  num_frequency : Z;                      (* range_info.num_frequency *)
  scan_ap_list : NMAccessPointList;       (* ap_list *)
  cached_ap_list1 : NMAccessPointList;
  cached_ap_list2 : NMAccessPointList;
  cached_ap_list3 : NMAccessPointList;
  best_ap : option ap_ref;
  freeze_best_ap : bool;
  now_scanning : bool;
  user_key_received : bool
}.

Record NMDevice := {
  test_device : bool;
  test_device_up : bool;
  dev_type : NMDeviceType;
  driver_support_level : NMDriverSupportLevel;
  link_active : bool;
  ip4_address : Z;
  activating : bool;
  quit_activation : bool;
  use_dhcp : bool;                        (* config_info.use_dhcp *)
  wireless : NMDeviceWirelessOptions      (* options.wireless *)
}.

(** The part of NMData the device code reads. *)
Record NMData := {
  starting_up : bool;
  is_active_device : bool;                (* dev == app_data->active_device *)
  allowed_ap_list : NMAccessPointList;
  invalid_ap_list : NMAccessPointList
}.

(** ** The kernel and the card, as the device code sees them *)

Record Kernel := {
  ifr_flags : Z;                 (* interface flags, SIOCGIFFLAGS *)
  sock_fails : bool;             (* no control socket can be opened *)
  gifflags_fails : bool;         (* SIOCGIFFLAGS returns an error *)
  sifflags_fails : bool;         (* SIOCSIFFLAGS returns an error *)
  k_associated : bool;           (* outcome of the SIOCGIWNAME / SIOCGIWAP association test *)
  k_ap_addr : option ether_addr; (* SIOCGIWAP; None when the ioctl fails *)
  k_essid : option string;       (* iw_get_basic_config; None when it fails *)
  k_bitrate : Z;                 (* SIOCGIWRATE *)
  k_wired_link : bool;           (* what the MII registers or HAL report for a wired link *)
  k_scan_supported : bool;       (* iw_scan does not answer EOPNOTSUPP *)
  iw_in_key_full : string -> option string  (* iwlib key parser; None when keylen <= 0 *)
}.

(** Externally visible actions, in the order they were taken. *)
Inductive Event :=
  | EvGetIfFlags                                  (* ioctl SIOCGIFFLAGS *)
  | EvSetIfFlags (flags : Z)                      (* ioctl SIOCSIFFLAGS *)
  | EvSetEssid (e : string)                       (* SIOCSIWESSID *)
  | EvSetEncode (key : option string) (flags : Z) (* SIOCSIWENCODE *)
  | EvSetMode (m : NMNetworkMode)                 (* SIOCSIWMODE *)
  | EvSetBitrate (khz : Z)                        (* SIOCSIWRATE *)
  | EvSetFrequency (f : Q)                        (* SIOCSIWFREQ *)
  | EvSleep (usec : Z)                            (* g_usleep *)
  | EvSignalDeviceStatus (s : NMDeviceStatus)     (* nm_dbus_signal_device_status_change *)
  | EvGetUserKey (e : option string) (attempt : Z) (* nm_dbus_get_user_key_for_network *)
  | EvScheduleFinish (success : bool)             (* nm_device_activation_schedule_finish *)
  | EvThreadCreate                                (* g_thread_create of the worker *)
  | EvMarkStateChanged                            (* nm_data_mark_state_changed *)
  | EvDeleteDefaultRoute
  | EvAutoIP
  | EvDhcpRequest
  | EvStaticIP
  | EvFlushArpCache
  | EvRestartMdns
  | EvNetworkAppeared (r : ap_ref)
  | EvNetworkDisappeared (r : ap_ref).

Record World := {
  w_dev : NMDevice;
  w_data : NMData;
  w_heap : list NMAccessPoint;
  w_kernel : Kernel;
  w_trace : list Event
}.

(** *** Field updates *)

Definition with_dev (f : NMDevice -> NMDevice) (w : World) : World :=
  {| w_dev := f (w_dev w); w_data := w_data w; w_heap := w_heap w;
     w_kernel := w_kernel w; w_trace := w_trace w |}.

Definition with_data (f : NMData -> NMData) (w : World) : World :=
  {| w_dev := w_dev w; w_data := f (w_data w); w_heap := w_heap w;
     w_kernel := w_kernel w; w_trace := w_trace w |}.

Definition with_heap (f : list NMAccessPoint -> list NMAccessPoint) (w : World) : World :=
  {| w_dev := w_dev w; w_data := w_data w; w_heap := f (w_heap w);
     w_kernel := w_kernel w; w_trace := w_trace w |}.

Definition with_kernel (f : Kernel -> Kernel) (w : World) : World :=
  {| w_dev := w_dev w; w_data := w_data w; w_heap := w_heap w;
     w_kernel := f (w_kernel w); w_trace := w_trace w |}.

(** Record one more action. *)
Definition emit (e : Event) (w : World) : World :=
  {| w_dev := w_dev w; w_data := w_data w; w_heap := w_heap w;
     w_kernel := w_kernel w; w_trace := w_trace w ++ [e] |}.

Definition with_wireless (f : NMDeviceWirelessOptions -> NMDeviceWirelessOptions)
    (d : NMDevice) : NMDevice :=
  {| test_device := test_device d; test_device_up := test_device_up d;
     dev_type := dev_type d; driver_support_level := driver_support_level d;
     link_active := link_active d; ip4_address := ip4_address d;
     activating := activating d; quit_activation := quit_activation d;
     use_dhcp := use_dhcp d; wireless := f (wireless d) |}.

Definition set_test_device_up (b : bool) (d : NMDevice) : NMDevice :=
  {| test_device := test_device d; test_device_up := b;
     dev_type := dev_type d; driver_support_level := driver_support_level d;
     link_active := link_active d; ip4_address := ip4_address d;
     activating := activating d; quit_activation := quit_activation d;
     use_dhcp := use_dhcp d; wireless := wireless d |}.

Definition set_link_active (b : bool) (d : NMDevice) : NMDevice :=
  {| test_device := test_device d; test_device_up := test_device_up d;
     dev_type := dev_type d; driver_support_level := driver_support_level d;
     link_active := b; ip4_address := ip4_address d;
     activating := activating d; quit_activation := quit_activation d;
     use_dhcp := use_dhcp d; wireless := wireless d |}.

Definition set_activating (b : bool) (d : NMDevice) : NMDevice :=
  {| test_device := test_device d; test_device_up := test_device_up d;
     dev_type := dev_type d; driver_support_level := driver_support_level d;
     link_active := link_active d; ip4_address := ip4_address d;
     activating := b; quit_activation := quit_activation d;
     use_dhcp := use_dhcp d; wireless := wireless d |}.

Definition set_quit_activation (b : bool) (d : NMDevice) : NMDevice :=
  {| test_device := test_device d; test_device_up := test_device_up d;
     dev_type := dev_type d; driver_support_level := driver_support_level d;
     link_active := link_active d; ip4_address := ip4_address d;
     activating := activating d; quit_activation := b;
     use_dhcp := use_dhcp d; wireless := wireless d |}.

Definition set_cur_essid (e : option string) (o : NMDeviceWirelessOptions) :=
  {| cur_essid := e; supports_wireless_scan := supports_wireless_scan o;
     num_frequency := num_frequency o; scan_ap_list := scan_ap_list o;
     cached_ap_list1 := cached_ap_list1 o; cached_ap_list2 := cached_ap_list2 o;
     cached_ap_list3 := cached_ap_list3 o; best_ap := best_ap o;
     freeze_best_ap := freeze_best_ap o; now_scanning := now_scanning o;
     user_key_received := user_key_received o |}.

Definition set_scan_ap_list (l : NMAccessPointList) (o : NMDeviceWirelessOptions) :=
  {| cur_essid := cur_essid o; supports_wireless_scan := supports_wireless_scan o;
     num_frequency := num_frequency o; scan_ap_list := l;
     cached_ap_list1 := cached_ap_list1 o; cached_ap_list2 := cached_ap_list2 o;
     cached_ap_list3 := cached_ap_list3 o; best_ap := best_ap o;
     freeze_best_ap := freeze_best_ap o; now_scanning := now_scanning o;
     user_key_received := user_key_received o |}.

Definition set_cached_ap_lists (l1 l2 l3 : NMAccessPointList) (o : NMDeviceWirelessOptions) :=
  {| cur_essid := cur_essid o; supports_wireless_scan := supports_wireless_scan o;
     num_frequency := num_frequency o; scan_ap_list := scan_ap_list o;
     cached_ap_list1 := l1; cached_ap_list2 := l2;
     cached_ap_list3 := l3; best_ap := best_ap o;
     freeze_best_ap := freeze_best_ap o; now_scanning := now_scanning o;
     user_key_received := user_key_received o |}.

Definition set_best_ap (b : option ap_ref) (o : NMDeviceWirelessOptions) :=
  {| cur_essid := cur_essid o; supports_wireless_scan := supports_wireless_scan o;
     num_frequency := num_frequency o; scan_ap_list := scan_ap_list o;
     cached_ap_list1 := cached_ap_list1 o; cached_ap_list2 := cached_ap_list2 o;
     cached_ap_list3 := cached_ap_list3 o; best_ap := b;
     freeze_best_ap := freeze_best_ap o; now_scanning := now_scanning o;
     user_key_received := user_key_received o |}.

Definition set_freeze_best_ap (b : bool) (o : NMDeviceWirelessOptions) :=
  {| cur_essid := cur_essid o; supports_wireless_scan := supports_wireless_scan o;
     num_frequency := num_frequency o; scan_ap_list := scan_ap_list o;
     cached_ap_list1 := cached_ap_list1 o; cached_ap_list2 := cached_ap_list2 o;
     cached_ap_list3 := cached_ap_list3 o; best_ap := best_ap o;
     freeze_best_ap := b; now_scanning := now_scanning o;
     user_key_received := user_key_received o |}.

Definition set_now_scanning (b : bool) (o : NMDeviceWirelessOptions) :=
  {| cur_essid := cur_essid o; supports_wireless_scan := supports_wireless_scan o;
     num_frequency := num_frequency o; scan_ap_list := scan_ap_list o;
     cached_ap_list1 := cached_ap_list1 o; cached_ap_list2 := cached_ap_list2 o;
     cached_ap_list3 := cached_ap_list3 o; best_ap := best_ap o;
     freeze_best_ap := freeze_best_ap o; now_scanning := b;
     user_key_received := user_key_received o |}.

Definition set_user_key_received (b : bool) (o : NMDeviceWirelessOptions) :=
  {| cur_essid := cur_essid o; supports_wireless_scan := supports_wireless_scan o;
     num_frequency := num_frequency o; scan_ap_list := scan_ap_list o;
     cached_ap_list1 := cached_ap_list1 o; cached_ap_list2 := cached_ap_list2 o;
     cached_ap_list3 := cached_ap_list3 o; best_ap := best_ap o;
     freeze_best_ap := freeze_best_ap o; now_scanning := now_scanning o;
     user_key_received := b |}.

Definition set_invalid_ap_list (l : NMAccessPointList) (d : NMData) : NMData :=
  {| starting_up := starting_up d; is_active_device := is_active_device d;
     allowed_ap_list := allowed_ap_list d; invalid_ap_list := l |}.

Definition set_ifr_flags (f : Z) (k : Kernel) : Kernel :=
  {| ifr_flags := f; sock_fails := sock_fails k; gifflags_fails := gifflags_fails k;
     sifflags_fails := sifflags_fails k; k_associated := k_associated k;
     k_ap_addr := k_ap_addr k; k_essid := k_essid k; k_bitrate := k_bitrate k;
     k_wired_link := k_wired_link k; k_scan_supported := k_scan_supported k;
     iw_in_key_full := iw_in_key_full k |}.

(** What the card reports once it has had time to associate. *)
Record CardObs := {
  o_associated : bool;
  o_ap_addr : option ether_addr;
  o_essid : option string
}.

Definition set_card (o : CardObs) (k : Kernel) : Kernel :=
  {| ifr_flags := ifr_flags k; sock_fails := sock_fails k; gifflags_fails := gifflags_fails k;
     sifflags_fails := sifflags_fails k; k_associated := o_associated o;
     k_ap_addr := o_ap_addr o; k_essid := o_essid o; k_bitrate := k_bitrate k;
     k_wired_link := k_wired_link k; k_scan_supported := k_scan_supported k;
     iw_in_key_full := iw_in_key_full k |}.

(** Shorthand for the wireless options of the world's device. *)
Definition wopts (w : World) : NMDeviceWirelessOptions := wireless (w_dev w).

(** ** Simple accessors *)

Definition nm_device_is_wireless (d : NMDevice) : bool :=
  bool_decide (dev_type d = DEVICE_TYPE_WIRELESS_ETHERNET).

Definition nm_device_is_wired (d : NMDevice) : bool :=
  bool_decide (dev_type d = DEVICE_TYPE_WIRED_ETHERNET).

Definition nm_device_get_driver_support_level (d : NMDevice) : NMDriverSupportLevel :=
  driver_support_level d.

Definition nm_device_get_link_active (d : NMDevice) : bool := link_active d.

Definition nm_device_get_ip4_address (d : NMDevice) : Z := ip4_address d.

Definition nm_device_config_get_use_dhcp (d : NMDevice) : bool := use_dhcp d.

(** nm_device_get_association_pause_value: 5 for a NULL device (not
    modelled: the device always exists), -1 for a device that is not
    wireless, else by the number of frequencies of the card. *)
Definition nm_device_get_association_pause_value (d : NMDevice) : Z :=
  if negb (nm_device_is_wireless d) then -1
  else if 14 <? num_frequency (wireless d) then 10 else 5.

(** ** Interface state: bring up, bring down, check *)

Definition IFF_UP : Z := 1.

(** nm_device_set_up_down. [flags] is a guint32: ~IFF_UP is 2^32 - 2. *)
Definition nm_device_set_up_down (up : bool) (w : World) : World :=
  let flags := if up then IFF_UP else Z.lnot IFF_UP mod 2 ^ 32 in
  if test_device (w_dev w) then with_dev (set_test_device_up up) w
  else if bool_decide (nm_device_get_driver_support_level (w_dev w) = NM_DRIVER_UNSUPPORTED)
  then w
  else if sock_fails (w_kernel w) then w
  else
    let w1 := emit EvGetIfFlags w in
    if gifflags_fails (w_kernel w) then w1
    else
      let cur := ifr_flags (w_kernel w) in
      if negb (Z.land (Z.lxor cur flags) IFF_UP =? 0) then
        let new := Z.lor (Z.land cur (Z.lnot IFF_UP)) (Z.land IFF_UP flags) in
        let w2 := emit (EvSetIfFlags new) w1 in
        if sifflags_fails (w_kernel w) then w2
        else with_kernel (set_ifr_flags new) w2
      else w1.

Definition nm_device_bring_up (w : World) : World := nm_device_set_up_down true w.

Definition nm_device_bring_down (w : World) : World := nm_device_set_up_down false w.

(** nm_device_is_up: the answer, and the world after the probe. *)
Definition nm_device_is_up (w : World) : bool * World :=
  if test_device (w_dev w) then (test_device_up (w_dev w), w)
  else if sock_fails (w_kernel w) then (false, w)
  else
    let w1 := emit EvGetIfFlags w in
    if gifflags_fails (w_kernel w) then (false, w1)
    else (Z.land (Z.lxor (ifr_flags (w_kernel w)) IFF_UP) IFF_UP =? 0, w1).

(** [if (!nm_device_is_up (dev)) nm_device_bring_up (dev);] *)
Definition bring_up_if_down (w : World) : World :=
  let '(up, w1) := nm_device_is_up w in
  if negb up then nm_device_bring_up w1 else w1.

(** [if (!nm_device_is_up (dev)); nm_device_bring_up (dev);] as it stands
    at the head of the activation worker and of each pseudo-scan round: the
    test is an empty statement, the call follows unconditionally. *)
Definition probe_then_bring_up (w : World) : World :=
  let '(_, w1) := nm_device_is_up w in
  nm_device_bring_up w1.

(** ** The access-point store *)

Definition set_ap_enc_key_source (k : option string) (m : NMEncKeyType)
    (a : NMAccessPoint) : NMAccessPoint :=
  {| ap_essid := ap_essid a; ap_address := ap_address a; ap_mode := ap_mode a;
     ap_freq := ap_freq a; ap_strength := ap_strength a; ap_encrypted := ap_encrypted a;
     ap_enc_key_source := k; ap_enc_method := m;
     ap_invalid := ap_invalid a; ap_artificial := ap_artificial a;
     ap_user_created := ap_user_created a; ap_trusted := ap_trusted a;
     ap_timestamp := ap_timestamp a |}.

Definition set_ap_invalid (b : bool) (a : NMAccessPoint) : NMAccessPoint :=
  {| ap_essid := ap_essid a; ap_address := ap_address a; ap_mode := ap_mode a;
     ap_freq := ap_freq a; ap_strength := ap_strength a; ap_encrypted := ap_encrypted a;
     ap_enc_key_source := ap_enc_key_source a; ap_enc_method := ap_enc_method a;
     ap_invalid := b; ap_artificial := ap_artificial a;
     ap_user_created := ap_user_created a; ap_trusted := ap_trusted a;
     ap_timestamp := ap_timestamp a |}.

Definition set_ap_essid (e : option string) (a : NMAccessPoint) : NMAccessPoint :=
  {| ap_essid := e; ap_address := ap_address a; ap_mode := ap_mode a;
     ap_freq := ap_freq a; ap_strength := ap_strength a; ap_encrypted := ap_encrypted a;
     ap_enc_key_source := ap_enc_key_source a; ap_enc_method := ap_enc_method a;
     ap_invalid := ap_invalid a; ap_artificial := ap_artificial a;
     ap_user_created := ap_user_created a; ap_trusted := ap_trusted a;
     ap_timestamp := ap_timestamp a |}.

Definition set_ap_properties (k : option string) (m : NMEncKeyType) (t : GTimeVal)
    (tr : bool) (a : NMAccessPoint) : NMAccessPoint :=
  {| ap_essid := ap_essid a; ap_address := ap_address a; ap_mode := ap_mode a;
     ap_freq := ap_freq a; ap_strength := ap_strength a; ap_encrypted := ap_encrypted a;
     ap_enc_key_source := k; ap_enc_method := m;
     ap_invalid := ap_invalid a; ap_artificial := ap_artificial a;
     ap_user_created := ap_user_created a; ap_trusted := tr;
     ap_timestamp := t |}.

(** The getters of NetworkManagerAP.c, through a reference. A reference
    that names no object reads as the zero-filled record. *)
Definition deref (h : list NMAccessPoint) (r : ap_ref) : NMAccessPoint :=
  default nm_ap_new (h !! r).

Definition nm_ap_get_essid (h : list NMAccessPoint) (r : ap_ref) : option string :=
  ap_essid (deref h r).
Definition nm_ap_get_encrypted (h : list NMAccessPoint) (r : ap_ref) : bool :=
  ap_encrypted (deref h r).
Definition nm_ap_get_enc_key_source (h : list NMAccessPoint) (r : ap_ref) : option string :=
  ap_enc_key_source (deref h r).
Definition nm_ap_get_enc_method (h : list NMAccessPoint) (r : ap_ref) : NMEncKeyType :=
  ap_enc_method (deref h r).
Definition nm_ap_get_mode (h : list NMAccessPoint) (r : ap_ref) : NMNetworkMode :=
  ap_mode (deref h r).
Definition nm_ap_get_freq (h : list NMAccessPoint) (r : ap_ref) : Q :=
  ap_freq (deref h r).
Definition nm_ap_get_user_created (h : list NMAccessPoint) (r : ap_ref) : bool :=
  ap_user_created (deref h r).
Definition nm_ap_get_trusted (h : list NMAccessPoint) (r : ap_ref) : bool :=
  ap_trusted (deref h r).
Definition nm_ap_get_artificial (h : list NMAccessPoint) (r : ap_ref) : bool :=
  ap_artificial (deref h r).
Definition nm_ap_get_invalid (h : list NMAccessPoint) (r : ap_ref) : bool :=
  ap_invalid (deref h r).
Definition nm_ap_get_timestamp (h : list NMAccessPoint) (r : ap_ref) : GTimeVal :=
  ap_timestamp (deref h r).

(** The setters change the object in place. *)
Definition nm_ap_set_enc_key_source (r : ap_ref) (k : option string) (m : NMEncKeyType)
    (h : list NMAccessPoint) : list NMAccessPoint :=
  alter (set_ap_enc_key_source k m) r h.

Definition nm_ap_set_invalid (r : ap_ref) (b : bool) (h : list NMAccessPoint) :
    list NMAccessPoint :=
  alter (set_ap_invalid b) r h.

(** A new object at the end of the store; its reference. *)
Definition ap_alloc (a : NMAccessPoint) (h : list NMAccessPoint) :
    list NMAccessPoint * ap_ref :=
  (h ++ [a], length h).

(** Modelled from the spec: nm_ap_new_from_ap of NetworkManagerAP.c, a
    new access point that is a copy of the given one. *)
Definition nm_ap_new_from_ap (r : ap_ref) (h : list NMAccessPoint) :
    list NMAccessPoint * ap_ref :=
  ap_alloc (deref h r) h.

(** Modelled from the spec: nm_ap_list_append_ap of NetworkManagerAPList.c,
    the list operation [append]. *)
Definition nm_ap_list_append_ap (l : NMAccessPointList) (r : ap_ref) : NMAccessPointList :=
  l ++ [r].

Definition ap_has_essid (h : list NMAccessPoint) (e : string) (r : ap_ref) : bool :=
  bool_decide (nm_ap_get_essid h r = Some e).

(** Modelled from the spec: nm_ap_list_get_ap_by_essid of
    NetworkManagerAPList.c: "get_by_essid(L, e) returns an AP iff some AP in
    L has ESSID e"; the first one in list order. No ESSID, no access point. *)
Definition nm_ap_list_get_ap_by_essid (h : list NMAccessPoint) (l : NMAccessPointList)
    (e : option string) : option ap_ref :=
  match e with
  | None => None
  | Some s => find (ap_has_essid h s) l
  end.

Definition ap_has_address (h : list NMAccessPoint) (a : ether_addr) (r : ap_ref) : bool :=
  bool_decide (ap_address (deref h r) = Some a).

(** Modelled from the spec: nm_ap_list_get_ap_by_address of
    NetworkManagerAPList.c, the lookup index by BSSID. *)
Definition nm_ap_list_get_ap_by_address (h : list NMAccessPoint) (l : NMAccessPointList)
    (a : ether_addr) : option ap_ref :=
  find (ap_has_address h a) l.

(** Modelled from the spec: nm_null_safe_strcmp of NetworkManagerUtils.c,
    used only as [nm_null_safe_strcmp (a, b) == 0]: both absent, or both
    present and equal. *)
Definition nm_null_safe_strcmp_eq (a b : option string) : bool :=
  bool_decide (a = b).

(** The routines that work on the wireless options return at once, with
    a null or false result, on a device that is not wireless
    ([g_return_if_fail (nm_device_is_wireless (dev))]). The null list reads
    as the empty list. *)
Definition nm_device_ap_list_get (w : World) : NMAccessPointList :=
  if negb (nm_device_is_wireless (w_dev w)) then [] else scan_ap_list (wopts w).

Definition nm_device_ap_list_get_ap_by_essid (w : World) (e : option string) : option ap_ref :=
  if negb (nm_device_is_wireless (w_dev w)) then None
  else nm_ap_list_get_ap_by_essid (w_heap w) (scan_ap_list (wopts w)) e.

Definition nm_device_ap_list_get_ap_by_address (w : World) (a : ether_addr) : option ap_ref :=
  if negb (nm_device_is_wireless (w_dev w)) then None
  else nm_ap_list_get_ap_by_address (w_heap w) (scan_ap_list (wopts w)) a.

(** ** Radio control *)

Definition IW_ESSID_MAX_SIZE : nat := 32.
Definition IW_ENCODING_TOKEN_MAX : nat := 64.
Definition IW_ENCODE_ENABLED : Z := 0x0000.
Definition IW_ENCODE_DISABLED : Z := 0x8000.
Definition IW_ENCODE_RESTRICTED : Z := 0x4000.
Definition IW_ENCODE_OPEN : Z := 0x2000.
Definition IW_ENCODE_NOKEY : Z := 0x0800.

(** [strncpy (dst, s, n); dst[n] = 0]: the first [n] bytes of [s]. *)
Definition strncpy (n : nat) (s : string) : string := String.substring 0 n s.

Definition nm_device_get_best_ap (w : World) : option ap_ref :=
  if negb (nm_device_is_wireless (w_dev w)) then None else best_ap (wopts w).

(** nm_device_get_essid: the ESSID, and the world with the cached value
    refreshed from the card. *)
Definition nm_device_get_essid (w : World) : option string * World :=
  if negb (nm_device_is_wireless (w_dev w)) then (None, w)
  else if test_device (w_dev w) then
    match nm_device_get_best_ap w with
    | Some b => (nm_ap_get_essid (w_heap w) b, w)
    | None => (cur_essid (wopts w), w)
    end
  else if sock_fails (w_kernel w) then (cur_essid (wopts w), w)
  else
    match k_essid (w_kernel w) with
    | Some e => (Some e, with_dev (with_wireless (set_cur_essid (Some e))) w)
    | None => (cur_essid (wopts w), w)
    end.

Definition nm_device_set_essid (essid : option string) (w : World) : World :=
  if negb (nm_device_is_wireless (w_dev w)) then w
  else if test_device (w_dev w) then with_dev (with_wireless (set_cur_essid essid)) w
  else
    let safe_essid :=
      match essid with
      | None => ""%string
      | Some e => strncpy IW_ESSID_MAX_SIZE e
      end in
    if sock_fails (w_kernel w) then w else emit (EvSetEssid safe_essid) w.

(** nm_device_set_enc_key. The key parser of iwlib is an oracle of the
    kernel record; the flags it may add are not tracked. *)
Definition nm_device_set_enc_key (key : option string) (auth_method : NMDeviceAuthMethod)
    (w : World) : World :=
  if negb (nm_device_is_wireless (w_dev w)) then w
  else if test_device (w_dev w) then w
  else
    let safe_key :=
      match key with
      | None => ""%string
      | Some k => strncpy IW_ENCODING_TOKEN_MAX k
      end in
    if sock_fails (w_kernel w) then w
    else if bool_decide (safe_key = ""%string) then
      emit (EvSetEncode None
              (Z.lor IW_ENCODE_ENABLED (Z.lor IW_ENCODE_DISABLED IW_ENCODE_NOKEY))) w
    else
      match iw_in_key_full (w_kernel w) safe_key with
      | Some parsed_key =>
          let flags :=
            match auth_method with
            | NM_DEVICE_AUTH_METHOD_OPEN_SYSTEM => Z.lor IW_ENCODE_ENABLED IW_ENCODE_OPEN
            | NM_DEVICE_AUTH_METHOD_SHARED_KEY => Z.lor IW_ENCODE_ENABLED IW_ENCODE_RESTRICTED
            | _ => Z.lor IW_ENCODE_ENABLED IW_ENCODE_RESTRICTED
            end in
          emit (EvSetEncode (Some parsed_key) flags) w
      | None => w
      end.

(** nm_device_set_mode; the modelled callers ignore the result. *)
Definition nm_device_set_mode (mode : NMNetworkMode) (w : World) : World :=
  if negb (nm_device_is_wireless (w_dev w)) then w
  else if negb (bool_decide (mode = NETWORK_MODE_INFRA) || bool_decide (mode = NETWORK_MODE_ADHOC))
  then w
  else if sock_fails (w_kernel w) then w
  else emit (EvSetMode mode) w.

Definition nm_device_set_bitrate (KHz : Z) (w : World) : World :=
  if negb (nm_device_is_wireless (w_dev w)) then w
  else if test_device (w_dev w) then w
  else if sock_fails (w_kernel w) then w
  else emit (EvSetBitrate (if negb (KHz =? 0) then KHz * 1000 else -1)) w.

Definition nm_device_get_bitrate (w : World) : Z :=
  if negb (nm_device_is_wireless (w_dev w)) then 0
  else if test_device (w_dev w) then 11
  else if sock_fails (w_kernel w) then 0
  else Z.quot (k_bitrate (w_kernel w)) 1000.

Definition nm_device_set_frequency (f : Q) (w : World) : World :=
  if negb (nm_device_is_wireless (w_dev w)) then w
  else if test_device (w_dev w) then w
  else if sock_fails (w_kernel w) then w
  else emit (EvSetFrequency f) w.

Definition g_usleep (usec : Z) (w : World) : World := emit (EvSleep usec) w.

Definition G_USEC_PER_SEC : Z := 1000000.

(** *** The access point the card is associated with *)

Definition good_addr : ether_addr := [x70; x37; x03; x70; x37; x03].
Definition bad_addr : ether_addr := [x00; x00; x00; x00; x00; x00].

(** The automatic variables of nm_device_get_ap_address. [wrq] is never
    written before it is read on the test-device path, so its content is
    whatever the stack holds: an input of the model. *)
Record ap_address_frame := {
  f_addr : ether_addr;        (* the caller's buffer, *addr *)
  f_good_addr : ether_addr;
  f_bad_addr : ether_addr;
  f_wrq_sa_data : ether_addr  (* wrq.u.ap_addr.sa_data *)
}.

(** [memcpy (dst, src, sizeof (struct ether_addr))] into one of the two
    local addresses. *)
Definition memcpy_local (to_good : bool) (src : ether_addr) (f : ap_address_frame) :
    ap_address_frame :=
  if to_good then
    {| f_addr := f_addr f; f_good_addr := src; f_bad_addr := f_bad_addr f;
       f_wrq_sa_data := f_wrq_sa_data f |}
  else
    {| f_addr := f_addr f; f_good_addr := f_good_addr f; f_bad_addr := src;
       f_wrq_sa_data := f_wrq_sa_data f |}.

Definition memcpy_addr (src : ether_addr) (f : ap_address_frame) : ap_address_frame :=
  {| f_addr := src; f_good_addr := f_good_addr f; f_bad_addr := f_bad_addr f;
     f_wrq_sa_data := f_wrq_sa_data f |}.

(** nm_device_get_ap_address, on its frame: [addr] is the content of the
    caller's buffer at entry, [wrq] the indeterminate content of the
    request structure. The frame at return is the result. *)
Definition nm_device_get_ap_address_frame (w : World) (addr wrq : ether_addr) :
    ap_address_frame :=
  let f := {| f_addr := addr; f_good_addr := good_addr; f_bad_addr := bad_addr;
              f_wrq_sa_data := wrq |} in
  if negb (nm_device_is_wireless (w_dev w)) then f
  else if test_device (w_dev w) then
    let link := nm_device_get_link_active (w_dev w) in
    (* memcpy ((link ? &good_addr : &bad_addr), &(wrq.u.ap_addr.sa_data), ...) *)
    memcpy_local link (f_wrq_sa_data f) f
  else if sock_fails (w_kernel w) then memcpy_addr bad_addr f
  else
    match k_ap_addr (w_kernel w) with
    | Some a => memcpy_addr a f
    | None => memcpy_addr bad_addr f      (* memset (addr, 0, ...) *)
    end.

(** What the caller finds in its buffer afterwards. *)
Definition nm_device_get_ap_address (w : World) (addr wrq : ether_addr) : ether_addr :=
  f_addr (nm_device_get_ap_address_frame w addr wrq).

(** ** Link state *)

(** nm_device_wireless_is_associated *)
Definition nm_device_wireless_is_associated (w : World) : bool :=
  if test_device (w_dev w) then nm_device_get_link_active (w_dev w)
  else if sock_fails (w_kernel w) then false
  else k_associated (w_kernel w).

(** nm_device_need_ap_switch *)
Definition nm_device_need_ap_switch (w : World) : bool * World :=
  if negb (nm_device_is_wireless (w_dev w)) then (false, w) else
  let ap := nm_device_get_best_ap w in
  let '(essid, w1) := nm_device_get_essid w in
  (negb (nm_null_safe_strcmp_eq essid
           (match ap with Some b => nm_ap_get_essid (w_heap w) b | None => None end)),
   w1).

(** nm_device_wireless_link_active *)
Definition nm_device_wireless_link_active (w : World) : bool * World :=
  if test_device (w_dev w) then (nm_device_get_link_active (w_dev w), w)
  else if negb (nm_device_wireless_is_associated w) then (false, w)
  else
    match nm_device_get_best_ap w with
    | Some _ =>
        let '(need_switch, w1) := nm_device_need_ap_switch w in
        (negb need_switch, w1)
    | None => (false, w)
    end.

(** nm_device_wired_link_active; the MII and HAL probes are the kernel
    record's [k_wired_link]. *)
Definition nm_device_wired_link_active (w : World) : bool :=
  if test_device (w_dev w) then nm_device_get_link_active (w_dev w)
  else k_wired_link (w_kernel w).

(** nm_device_update_link_active, as far as the World goes. The call of
    nm_device_update_signal_strength on the wireless path writes the
    signal fields only (strength, noise, max_quality and the counter of
    invalid readings), which the World does not carry;
    nm_device_update_link_active_signal pairs the two. *)
Definition nm_device_update_link_active (w : World) : World :=
  let '(link, w1) :=
    match dev_type (w_dev w) with
    | DEVICE_TYPE_WIRELESS_ETHERNET => nm_device_wireless_link_active w
    | DEVICE_TYPE_WIRED_ETHERNET => (nm_device_wired_link_active w, w)
    | DEVICE_TYPE_DONT_KNOW => (nm_device_get_link_active (w_dev w), w)
    end in
  if negb (bool_decide (link = nm_device_get_link_active (w_dev w1))) then
    emit EvMarkStateChanged (with_dev (set_link_active link) w1)
  else w1.

(** ** The best access point *)

Definition nm_device_freeze_best_ap (w : World) : World :=
  if negb (nm_device_is_wireless (w_dev w)) then w
  else with_dev (with_wireless (set_freeze_best_ap true)) w.

Definition nm_device_unfreeze_best_ap (w : World) : World :=
  if negb (nm_device_is_wireless (w_dev w)) then w
  else with_dev (with_wireless (set_freeze_best_ap false)) w.

Definition nm_device_is_best_ap_frozen (w : World) : bool :=
  if negb (nm_device_is_wireless (w_dev w)) then false else freeze_best_ap (wopts w).

(** nm_device_set_best_ap: the handle is replaced and the freeze flag
    cleared. *)
Definition nm_device_set_best_ap (ap : option ap_ref) (w : World) : World :=
  if negb (nm_device_is_wireless (w_dev w)) then w
  else nm_device_unfreeze_best_ap (with_dev (with_wireless (set_best_ap ap)) w).

(** The variables of the selection loop of nm_device_update_best_ap; the
    store is among them because the loop writes key material into it. *)
Record best_ap_scan := {
  s_heap : list NMAccessPoint;
  trusted_best_ap : option ap_ref;
  untrusted_best_ap : option ap_ref;
  trusted_latest_timestamp : GTimeVal;
  untrusted_latest_timestamp : GTimeVal
}.

(** One round of [while ((scan_ap = nm_ap_list_iter_next (iter)))]. *)
Definition best_ap_round (d : NMData) (s : best_ap_scan) (scan_ap : ap_ref) : best_ap_scan :=
  let essid := nm_ap_get_essid (s_heap s) scan_ap in
  match nm_ap_list_get_ap_by_essid (s_heap s) (invalid_ap_list d) essid with
  | Some _ => s                                     (* continue *)
  | None =>
      match nm_ap_list_get_ap_by_essid (s_heap s) (allowed_ap_list d) essid with
      | Some tmp_ap =>
          let curtime := nm_ap_get_timestamp (s_heap s) tmp_ap in
          if nm_ap_get_trusted (s_heap s) tmp_ap
             && (tv_sec (trusted_latest_timestamp s) <? tv_sec curtime) then
            {| s_heap := nm_ap_set_enc_key_source scan_ap
                           (nm_ap_get_enc_key_source (s_heap s) tmp_ap)
                           (nm_ap_get_enc_method (s_heap s) tmp_ap) (s_heap s);
               trusted_best_ap := Some scan_ap;
               untrusted_best_ap := untrusted_best_ap s;
               trusted_latest_timestamp := curtime;
               untrusted_latest_timestamp := untrusted_latest_timestamp s |}
          else if negb (nm_ap_get_trusted (s_heap s) tmp_ap)
                  && (tv_sec (untrusted_latest_timestamp s) <? tv_sec curtime) then
            {| s_heap := nm_ap_set_enc_key_source scan_ap
                           (nm_ap_get_enc_key_source (s_heap s) tmp_ap)
                           (nm_ap_get_enc_method (s_heap s) tmp_ap) (s_heap s);
               trusted_best_ap := trusted_best_ap s;
               untrusted_best_ap := Some scan_ap;
               trusted_latest_timestamp := trusted_latest_timestamp s;
               untrusted_latest_timestamp := curtime |}
          else s
      | None => s
      end
  end.

Definition best_ap_scan_init (h : list NMAccessPoint) : best_ap_scan :=
  {| s_heap := h; trusted_best_ap := None; untrusted_best_ap := None;
     trusted_latest_timestamp := {| tv_sec := 0; tv_usec := 0 |};
     untrusted_latest_timestamp := {| tv_sec := 0; tv_usec := 0 |} |}.

Definition best_ap_loop (d : NMData) (h : list NMAccessPoint) (l : NMAccessPointList) :
    best_ap_scan :=
  fold_left (best_ap_round d) l (best_ap_scan_init h).

(** The part of nm_device_update_best_ap after the freeze test: the
    selection loop, the new handle, and the radio reset when nothing is
    left to use. *)
Definition recompute_best_ap (w : World) : World :=
  let s := best_ap_loop (w_data w) (w_heap w) (nm_device_ap_list_get w) in
  let best_ap :=
    match trusted_best_ap s with
    | Some t => Some t
    | None => untrusted_best_ap s
    end in
  let w1 := nm_device_set_best_ap best_ap (with_heap (fun _ => s_heap s) w) in
  match best_ap with
  | None =>
      nm_device_bring_up
        (nm_device_set_enc_key None NM_DEVICE_AUTH_METHOD_NONE
           (nm_device_set_essid (Some " "%string) w1))
  | Some _ => w1
  end.

(** The freeze test: the two reasons to keep the current best AP. *)
Definition keep_frozen_best_ap (w : World) (best : ap_ref) : bool :=
  let essid := nm_ap_get_essid (w_heap w) best in
  (negb (bool_decide (is_Some (nm_ap_list_get_ap_by_essid (w_heap w)
                                 (invalid_ap_list (w_data w)) essid)))
   && bool_decide (is_Some (nm_device_ap_list_get_ap_by_essid w essid)))
  || nm_ap_get_user_created (w_heap w) best.

(** nm_device_update_best_ap. The device list of a wireless device is
    allocated when the device is created and is never a null pointer in
    the model, so the two early returns on a missing list or iterator are
    not reachable. *)
Definition nm_device_update_best_ap (w : World) : World :=
  if negb (nm_device_is_wireless (w_dev w)) then w
  else if nm_device_is_best_ap_frozen w then
    match nm_device_get_best_ap w with
    | Some best =>
        if keep_frozen_best_ap w best then w
        else recompute_best_ap (nm_device_unfreeze_best_ap w)
    | None => recompute_best_ap (nm_device_unfreeze_best_ap w)
    end
  else recompute_best_ap w.

(** ** The user's key *)

(** [strncmp (s1, s2, n) == 0] on C strings: the bytes agree up to the
    first of: [n] bytes compared, or the end of both strings. *)
Fixpoint strncmp_eq (s1 s2 : string) (n : nat) : bool :=
  match n with
  | O => true
  | S n' =>
      match s1, s2 with
      | EmptyString, EmptyString => true
      | String a s1', String b s2' => Ascii.eqb a b && strncmp_eq s1' s2' n'
      | _, _ => false
      end
  end.

Definition cancel_message : string := "***canceled***".

(** nm_device_set_user_key_for_network. [invalid_list] tells whether the
    caller passed the Invalid list or a null pointer. *)
Definition nm_device_set_user_key_for_network (invalid_list : bool) (network key : string)
    (enc_method : NMEncKeyType) (w : World) : World :=
  if negb (nm_device_is_wireless (w_dev w)) then w
  else
    let w1 :=
      if strncmp_eq key cancel_message (String.length cancel_message) then
        let w2 :=
          match nm_device_ap_list_get_ap_by_essid w (Some network) with
          | Some ap =>
              let '(h, invalid_ap) := nm_ap_new_from_ap ap (w_heap w) in
              let w3 := with_heap (fun _ => h) w in
              if invalid_list then
                with_data (set_invalid_ap_list
                             (nm_ap_list_append_ap (invalid_ap_list (w_data w3)) invalid_ap)) w3
              else w3
          | None => w
          end in
        nm_device_update_best_ap w2
      else
        match nm_device_get_best_ap w with
        | Some best =>
            if nm_null_safe_strcmp_eq (Some network) (nm_ap_get_essid (w_heap w) best) then
              with_heap (nm_ap_set_enc_key_source best (Some key) enc_method) w
            else w
        | None => w
        end in
    with_dev (with_wireless (set_user_key_received true)) w1.

(** ** Starting an activation *)

Definition nm_device_activation_schedule_finish (success : bool) (w : World) : World :=
  emit (EvScheduleFinish success) w.

(** nm_device_activation_begin. [thread_ok] tells whether g_thread_create
    manages to start the worker. *)
Definition nm_device_activation_begin (thread_ok : bool) (w : World) : bool * World :=
  if activating (w_dev w) then (true, w)
  else
    let w1 := with_dev (set_quit_activation false) (with_dev (set_activating true) w) in
    let w2 :=
      if nm_device_is_wireless (w_dev w1) then
        with_dev (with_wireless (set_user_key_received false))
          (with_dev (with_wireless (set_now_scanning false)) w1)
      else w1 in
    if bool_decide (nm_device_get_driver_support_level (w_dev w2) = NM_DRIVER_UNSUPPORTED)
    then (false, with_dev (set_activating false) w2)
    else if starting_up (w_data w2) && nm_device_is_wired (w_dev w2)
            && negb (nm_device_get_ip4_address (w_dev w2) =? 0)
    then (true, nm_device_activation_schedule_finish true (with_dev (set_activating false) w2))
    else if negb thread_ok then (false, with_dev (set_activating false) w2)
    else (true, emit (EvSignalDeviceStatus DEVICE_ACTIVATING) (emit EvThreadCreate w2)).

(** nm_device_activation_handle_cancel *)
Definition nm_device_activation_handle_cancel (w : World) : bool * World :=
  if quit_activation (w_dev w) then
    (true, with_dev (set_quit_activation false) (with_dev (set_activating false) w))
  else (false, w).

(** ** The association pause *)

(** [g_usleep (G_USEC_PER_SEC * nm_device_get_association_pause_value (dev))]:
    while the engine sleeps the card tries to associate; [card] is what it
    reports afterwards. *)
Definition association_pause (card : CardObs) (w : World) : World :=
  with_kernel (set_card card)
    (g_usleep (G_USEC_PER_SEC * nm_device_get_association_pause_value (w_dev w)) w).

(** ** Results of a driver scan (iwlib's wireless_scan) *)

Record iw_quality := { q_qual : Z; q_level : Z; q_noise : Z; q_updated : Z }.

Record wireless_scan := {
  has_essid : bool;
  essid : string;                 (* b.essid, a character array *)
  has_key : bool;
  key_flags : Z;
  has_ap_addr : bool;
  ap_addr : ether_addr;
  has_mode : bool;
  mode : Z;
  qual : iw_quality;              (* stats.qual *)
  has_freq : bool;
  freq : Q
}.

Definition IW_MODE_ADHOC : Z := 1.
Definition IW_MODE_INFRA : Z := 2.

(** The state of the probing loop of nm_device_wireless_network_exists. *)
Record probe_state := {
  p_world : World;
  p_success : bool;
  p_encrypted : bool;             (* *encrypted *)
  p_ap_addr : ether_addr          (* *ap_addr *)
}.

(** The state of the conversion loop of nm_device_process_scan_results. *)
Record convert_state := {
  c_heap : list NMAccessPoint;
  c_list : NMAccessPointList;     (* cached_ap_list1 *)
  have_blank_essids : bool
}.

Section Reconciler.

(** Routines of this program whose sources are not at hand
    (NetworkManagerAPList.c, NetworkManagerWireless.c,
    NetworkManagerUtils.c, NetworkManagerAP.c): the device code is
    embedded over any implementation of them. The list routines take the
    store, since they create or change access-point objects. *)
Variable nm_ap_list_combine :
  list NMAccessPoint -> NMAccessPointList -> NMAccessPointList ->
  list NMAccessPoint * NMAccessPointList.
Variable nm_ap_list_copy_essids_by_address :
  list NMAccessPoint -> NMAccessPointList -> NMAccessPointList -> list NMAccessPoint.
Variable nm_ap_list_copy_properties :
  list NMAccessPoint -> NMAccessPointList -> NMAccessPointList -> list NMAccessPoint.
Variable nm_ap_list_diff :
  list NMAccessPoint -> NMAccessPointList -> NMAccessPointList -> list Event.
Variable nm_wireless_qual_to_percent : NMDevice -> iw_quality -> Z.
Variable nm_ethernet_address_is_valid : ether_addr -> bool.
Variable nm_ap_get_enc_key_hashed : NMAccessPoint -> option string.
Variable nm_wireless_128bit_key_from_passphrase : string -> string.
Variable nm_wireless_64bit_ascii_to_hex : string -> string.
Variable nm_wireless_128bit_ascii_to_hex : string -> string.

(** *** Does a network exist? *)

(** The order in which the authentication methods are tried. *)
Definition probe_auths (h : list NMAccessPoint) (ap : option ap_ref) :
    list NMDeviceAuthMethod :=
  match ap with
  | Some a =>
      if negb (nm_ap_get_encrypted h a) then
        [NM_DEVICE_AUTH_METHOD_NONE; NM_DEVICE_AUTH_METHOD_SHARED_KEY;
         NM_DEVICE_AUTH_METHOD_OPEN_SYSTEM]
      else
        [NM_DEVICE_AUTH_METHOD_SHARED_KEY; NM_DEVICE_AUTH_METHOD_OPEN_SYSTEM;
         NM_DEVICE_AUTH_METHOD_NONE]
  | None =>
      [NM_DEVICE_AUTH_METHOD_SHARED_KEY; NM_DEVICE_AUTH_METHOD_OPEN_SYSTEM;
       NM_DEVICE_AUTH_METHOD_NONE]
  end.

(** [temp_enc] for an authentication method. *)
Definition temp_enc_of (a : NMDeviceAuthMethod) : bool :=
  match a with
  | NM_DEVICE_AUTH_METHOD_SHARED_KEY | NM_DEVICE_AUTH_METHOD_OPEN_SYSTEM => true
  | _ => false
  end.

(** The key handed to the card for an encrypted probe. *)
Definition probe_key (key : option string) (key_type : NMEncKeyType) : option string :=
  match key with
  | Some k =>
      if negb (bool_decide (key_type = NM_ENC_TYPE_UNKNOWN)) then
        match key_type with
        | NM_ENC_TYPE_128_BIT_PASSPHRASE => Some (nm_wireless_128bit_key_from_passphrase k)
        | NM_ENC_TYPE_ASCII_KEY =>
            if (String.length k <=? 5)%nat then Some (nm_wireless_64bit_ascii_to_hex k)
            else Some (nm_wireless_128bit_ascii_to_hex k)
        | NM_ENC_TYPE_HEX_KEY | NM_ENC_TYPE_UNKNOWN => Some k
        end
      else Some "11111111111111111111111111"%string
  | None => Some "11111111111111111111111111"%string
  end.

(** One round of [for (i = 0; i < 3; i++)]: [auth] is [auths[i]], [card]
    what the card reports after the pause of this round, [wrq] the
    indeterminate request structure of nm_device_get_ap_address. *)
Definition network_exists_probe (network : string) (key : option string)
    (key_type : NMEncKeyType) (wrq : ether_addr) (card : CardObs)
    (st : probe_state) (auth : NMDeviceAuthMethod) : probe_state :=
  let temp_enc := temp_enc_of auth in
  let w1 :=
    if temp_enc then nm_device_set_enc_key (probe_key key key_type) auth (p_world st)
    else nm_device_set_enc_key None auth (p_world st) in
  let w2 := nm_device_set_essid (Some network) w1 in
  let w3 := association_pause card w2 in
  let w4 := nm_device_update_link_active w3 in
  let '(essid, w5) := nm_device_get_essid w4 in
  if nm_device_wireless_is_associated w4 && bool_decide (is_Some essid) then
    {| p_world := w5; p_success := true; p_encrypted := temp_enc;
       p_ap_addr := nm_device_get_ap_address w5 (p_ap_addr st) wrq |}
  else
    {| p_world := (if nm_device_wireless_is_associated w4 then w5 else w4);
       p_success := p_success st; p_encrypted := p_encrypted st;
       p_ap_addr := p_ap_addr st |}.

Fixpoint network_exists_loop (network : string) (key : option string)
    (key_type : NMEncKeyType) (wrq : ether_addr) (card : nat -> CardObs)
    (i : nat) (auths : list NMDeviceAuthMethod) (st : probe_state) : probe_state :=
  match auths with
  | [] => st
  | auth :: rest =>
      network_exists_loop network key key_type wrq card (S i) rest
        (network_exists_probe network key key_type wrq (card i) st auth)
  end.

(** nm_device_wireless_network_exists. [ap_addr] and [encrypted] are the
    contents of the two output locations at entry; the result carries
    their contents at return. [card i] is what the card reports after
    the pause of round [i]. *)
Definition nm_device_wireless_network_exists (network : string) (key : option string)
    (key_type : NMEncKeyType) (ap_addr : ether_addr) (encrypted : bool)
    (wrq : ether_addr) (card : nat -> CardObs) (w : World) : probe_state :=
  if bool_decide (network = ""%string) then
    {| p_world := w; p_success := false; p_encrypted := encrypted; p_ap_addr := ap_addr |}
  else
    let w1 := g_usleep (G_USEC_PER_SEC * 4) (nm_device_bring_up w) in
    let ap := nm_ap_list_get_ap_by_essid (w_heap w1) (nm_device_ap_list_get w1)
                (Some network) in
    let mode :=
      match ap with
      | Some a => nm_ap_get_mode (w_heap w1) a
      | None => NETWORK_MODE_INFRA
      end in
    let auths := probe_auths (w_heap w1) ap in
    let st0 := {| p_world := w1; p_success := false; p_encrypted := false;
                  p_ap_addr := ap_addr |} in
    let st1 :=
      match mode with
      | NETWORK_MODE_ADHOC =>
          {| p_world := w1; p_success := bool_decide (is_Some ap);
             p_encrypted := false; p_ap_addr := ap_addr |}
      | NETWORK_MODE_INFRA =>
          network_exists_loop network key key_type wrq card 0%nat auths
            {| p_world := nm_device_set_mode mode w1; p_success := false;
               p_encrypted := false; p_ap_addr := ap_addr |}
      | NETWORK_MODE_UNKNOWN => st0
      end in
    match ap with
    | Some a =>
        {| p_world := p_world st1; p_success := p_success st1;
           p_encrypted := nm_ap_get_encrypted (w_heap w1) a;
           p_ap_addr := p_ap_addr st1 |}
    | None => st1
    end.

(** *** The pseudo-scan of cards that cannot scan *)

(** nm_device_get_ap_address into a fresh local buffer: on a card that
    exists the result does not depend on what the buffer held. *)
Definition current_ap_address (w : World) : ether_addr :=
  nm_device_get_ap_address w bad_addr bad_addr.

(** The rounds of the loop over the Allowed list; [card i] is what the
    card reports after the pause of round [i]. *)
Fixpoint pseudo_scan_loop (card : nat -> CardObs) (i : nat)
    (aps : NMAccessPointList) (w : World) : World :=
  match aps with
  | [] => w
  | ap :: rest =>
      let w1 := probe_then_bring_up w in
      let save_ap_addr := current_ap_address w1 in
      let w2 :=
        match nm_ap_get_enc_key_source (w_heap w1) ap with
        | Some _ =>
            nm_device_set_enc_key (nm_ap_get_enc_key_hashed (deref (w_heap w1) ap))
              NM_DEVICE_AUTH_METHOD_SHARED_KEY w1
        | None => nm_device_set_enc_key None NM_DEVICE_AUTH_METHOD_NONE w1
        end in
      let w3 := nm_device_set_essid (nm_ap_get_essid (w_heap w2) ap) w2 in
      let w4 := association_pause (card i) w3 in
      let cur_ap_addr := current_ap_address w4 in
      let valid :=
        nm_ethernet_address_is_valid cur_ap_addr
        && negb (bool_decide (save_ap_addr = cur_ap_addr)) in
      if valid then emit EvMarkStateChanged (nm_device_set_best_ap (Some ap) w4)
      else pseudo_scan_loop card (S i) rest w4
  end.

(** nm_device_do_pseudo_scan; test devices do not get here. *)
Definition nm_device_do_pseudo_scan (card : nat -> CardObs) (w : World) : World :=
  if test_device (w_dev w) then w
  else
    pseudo_scan_loop card 0%nat (allowed_ap_list (w_data w))
      (nm_device_set_essid (Some ""%string) w).

(** *** Processing the results of a scan *)

(** nm_device_supports_wireless_scan: asked of the driver each time. *)
Definition nm_device_supports_wireless_scan (w : World) : bool :=
  if negb (nm_device_is_wireless (w_dev w)) then false
  else if test_device (w_dev w) then true
  else k_scan_supported (w_kernel w).

Definition fake_aps : list (string * ether_addr * Z * Q * bool) :=
  [ ("green"%string, [x70; x37; x03; x70; x37; x03], 150, 3.1416%Q, false);
    ("bay"%string, [x12; x34; x56; x78; x90; xab], 26, 4.1416%Q, true);
    ("packers"%string, [xcd; xef; x12; x34; x56; x78], 200, 5.1415%Q, false);
    ("rule"%string, [x90; xab; xcd; xef; x12; x34], 100, 6.1415%Q, true) ].

(** One round of the loop of nm_device_fake_ap_list. *)
Definition fake_ap_round (d : NMData) (st : list NMAccessPoint * NMAccessPointList)
    (f : string * ether_addr * Z * Q * bool) : list NMAccessPoint * NMAccessPointList :=
  let '(h, l) := st in
  let '(fake_essid, fake_addr, fake_quality, fake_freq, fake_enc) := f in
  let list_ap := nm_ap_list_get_ap_by_essid h (allowed_ap_list d) (Some fake_essid) in
  let nm_ap :=
    {| ap_essid := Some fake_essid; ap_address := Some fake_addr;
       ap_mode := ap_mode nm_ap_new; ap_freq := fake_freq; ap_strength := fake_quality;
       ap_encrypted := (if fake_enc then false else true);
       ap_enc_key_source :=
         match list_ap with
         | Some a => nm_ap_get_enc_key_source h a
         | None => None
         end;
       ap_enc_method :=
         match list_ap with
         | Some a => nm_ap_get_enc_method h a
         | None => ap_enc_method nm_ap_new
         end;
       ap_invalid := false; ap_artificial := false; ap_user_created := false;
       ap_trusted := false;
       ap_timestamp :=
         match list_ap with
         | Some a => nm_ap_get_timestamp h a
         | None => ap_timestamp nm_ap_new
         end |} in
  let '(h', r) := ap_alloc nm_ap h in
  (h', nm_ap_list_append_ap l r).

(** nm_device_fake_ap_list *)
Definition nm_device_fake_ap_list (w : World) : World :=
  let old_ap_list := nm_device_ap_list_get w in
  let '(h, l) := fold_left (fake_ap_round (w_data w)) fake_aps (w_heap w, []) in
  let w1 := with_dev (with_wireless (set_scan_ap_list l)) (with_heap (fun _ => h) w) in
  if is_active_device (w_data w1) then
    fold_left (fun acc e => emit e acc) (nm_ap_list_diff h old_ap_list l) w1
  else w1.

(** The driver record carries an ESSID or an address. *)
Definition scan_record_usable (tmp_ap : wireless_scan) : bool :=
  has_essid tmp_ap || has_ap_addr tmp_ap.

(** The driver record carries no ESSID to speak of. *)
Definition scan_record_blank (tmp_ap : wireless_scan) : bool :=
  negb (has_essid tmp_ap)
  || bool_decide (essid tmp_ap = ""%string)
  || bool_decide (essid tmp_ap = "<hidden>"%string).

(** The access point made from a driver record. *)
Definition nm_ap_of_scan_record (d : NMDevice) (tmp_ap : wireless_scan) : NMAccessPoint :=
  {| ap_essid := (if scan_record_blank tmp_ap then None else Some (essid tmp_ap));
     ap_address := (if has_ap_addr tmp_ap then Some (ap_addr tmp_ap) else None);
     ap_mode :=
       (if has_mode tmp_ap then
          if mode tmp_ap =? IW_MODE_INFRA then NETWORK_MODE_INFRA
          else if mode tmp_ap =? IW_MODE_ADHOC then NETWORK_MODE_ADHOC
          else NETWORK_MODE_INFRA
        else NETWORK_MODE_INFRA);
     ap_freq := (if has_freq tmp_ap then freq tmp_ap else ap_freq nm_ap_new);
     ap_strength := nm_wireless_qual_to_percent d (qual tmp_ap);
     ap_encrypted :=
       (if has_key tmp_ap && negb (Z.land (key_flags tmp_ap) IW_ENCODE_DISABLED =? 0)
        then false else true);
     ap_enc_key_source := None; ap_enc_method := NM_ENC_TYPE_UNKNOWN;
     ap_invalid := false; ap_artificial := false; ap_user_created := false;
     ap_trusted := false; ap_timestamp := ap_timestamp nm_ap_new |}.

(** One round of the conversion loop: a driver record becomes an
    access point of the newest snapshot. *)
Definition convert_round (d : NMDevice) (st : convert_state) (tmp_ap : wireless_scan) :
    convert_state :=
  if scan_record_usable tmp_ap then
    let '(h, r) := ap_alloc (nm_ap_of_scan_record d tmp_ap) (c_heap st) in
    {| c_heap := h; c_list := nm_ap_list_append_ap (c_list st) r;
       have_blank_essids := have_blank_essids st || scan_record_blank tmp_ap |}
  else st.

(** The artificial access points of the old list that are kept: those
    carrying the ESSID the card uses now. *)
Definition kept_artificial_aps (h : list NMAccessPoint) (essid : option string)
    (old_ap_list : NMAccessPointList) : NMAccessPointList :=
  match essid with
  | Some e =>
      filter (fun r => nm_ap_get_essid h r = Some e /\ nm_ap_get_artificial h r = true)
        old_ap_list
  | None => []
  end.

(** nm_device_process_scan_results. [results] is None for a null
    pointer, else the records of [results->result]; [card] is used by the
    pseudo-scan only. *)
Definition nm_device_process_scan_results (results : option (list wireless_scan))
    (card : nat -> CardObs) (w : World) : World :=
  match results with
  | None => w
  | Some result =>
      if test_device (w_dev w) then nm_device_fake_ap_list w
      else if negb (nm_device_supports_wireless_scan w) then nm_device_do_pseudo_scan card w
      else
        (* Shift all previous cached scan results *)
        let earliest_scan := cached_ap_list3 (wopts w) in
        let list3 := cached_ap_list2 (wopts w) in
        let list2 := cached_ap_list1 (wopts w) in
        let cs := fold_left (convert_round (w_dev w)) result
                    {| c_heap := w_heap w; c_list := []; have_blank_essids := false |} in
        let list1 := c_list cs in
        (* Compose the current list from the past two scans *)
        let old_ap_list := nm_device_ap_list_get w in
        let '(h1, new_list) := nm_ap_list_combine (c_heap cs) list1 list2 in
        let h2 :=
          if have_blank_essids cs then
            nm_ap_list_copy_essids_by_address
              (nm_ap_list_copy_essids_by_address h1 new_list old_ap_list)
              new_list (allowed_ap_list (w_data w))
          else h1 in
        let h3 := nm_ap_list_copy_properties h2 new_list (allowed_ap_list (w_data w)) in
        let w1 :=
          with_dev (with_wireless (set_scan_ap_list new_list))
            (with_dev (with_wireless (set_cached_ap_lists list1 list2 list3))
               (with_heap (fun _ => h3) w)) in
        (* Keep the artificial access point the card is associated with *)
        let '(essid, w2) := nm_device_get_essid w1 in
        let w3 :=
          with_dev (with_wireless
                      (set_scan_ap_list
                         (new_list ++ kept_artificial_aps h3 essid old_ap_list))) w2 in
        (* The old list, from the 3rd and 4th oldest scans; then the diff *)
        let '(h4, old_list) := nm_ap_list_combine h3 list3 earliest_scan in
        let w4 := with_heap (fun _ => h4) w3 in
        fold_left (fun acc e => emit e acc)
          (nm_ap_list_diff h4 old_list (nm_device_ap_list_get w4)) w4
  end.

End Reconciler.

(** ** The activation engine *)

(** What the IP collaborators answer: AutoIP, the DHCP client ("bound" or
    not) and the static configuration. *)
Record IpObs := {
  o_autoip : bool;
  o_dhcp_bound : bool;
  o_static : bool
}.

(** What the outside world answers during one step of the engine. *)
Record Obs := {
  obs_card : CardObs;
  obs_ip : IpObs
}.

(** The automatic variables of nm_device_activate_wireless that live
    across its jumps; [attempt] is a guint8. *)
Record aw_locals := {
  attempt : Z;
  last_essid : string
}.

(** Where nm_device_activate_wireless stands between two blocking calls. *)
Inductive aw_pc :=
  | AW_entry
  | AW_get_ap                                       (* label get_ap *)
  | AW_poll_ap                                      (* while (!(best_ap = ...)) *)
  | AW_unencrypted (best : ap_ref)
  | AW_need_key (best : ap_ref) (auth : NMDeviceAuthMethod) (need_key : bool)
                                                    (* label need_key *)
  | AW_wait_key (best : ap_ref)                     (* while (!user_key_received ...) *)
  | AW_auth (best : ap_ref) (auth : NMDeviceAuthMethod)
                                                    (* while (auth > NONE) *)
  | AW_return (success : bool)
  | AW_fault.                                       (* strcmp on a null ESSID *)

Record aw_config := {
  aw_at : aw_pc;
  aw_vars : aw_locals;
  aw_world : World
}.

(** How the activation worker goes on after bringing the device up. *)
Inductive worker_path :=
  | WP_create_network (best : ap_ref)   (* nm_device_activate_wireless_adhoc *)
  | WP_activate_wireless                (* nm_device_activate_wireless *)
  | WP_configure_wired                  (* nm_device_activation_configure_ip (dev, FALSE) *)
  | WP_none.

Section Engine.

(** nm_ap_get_enc_key_hashed of NetworkManagerAP.c, whose source is not
    at hand: the key to hand to the card for an access point. *)
Variable nm_ap_get_enc_key_hashed : NMAccessPoint -> option string.

(** nm_device_set_wireless_config; [card] is what the card reports after
    the association pause. *)
Definition nm_device_set_wireless_config (ap : ap_ref) (auth : NMDeviceAuthMethod)
    (card : CardObs) (w : World) : bool * World :=
  if negb (nm_device_is_wireless (w_dev w)) then (false, w)
  else
    match nm_ap_get_essid (w_heap w) ap with
    | None => (false, w)
    | Some essid =>
        let h := w_heap w in
        let w1 := nm_device_bring_down w in
        let w2 := g_usleep (G_USEC_PER_SEC * 4) w1 in
        let w3 := nm_device_bring_up w2 in
        let w4 := g_usleep (G_USEC_PER_SEC * 2) w3 in
        let w5 := nm_device_set_mode NETWORK_MODE_INFRA w4 in
        let w6 := nm_device_set_essid (Some " "%string) w5 in
        let w7 := nm_device_set_mode (nm_ap_get_mode h ap) w6 in
        let w8 := nm_device_set_bitrate 0 w7 in
        let w9 :=
          if nm_ap_get_user_created h ap
             || (negb (Qeq_bool (nm_ap_get_freq h ap) 0)
                 && bool_decide (nm_ap_get_mode h ap = NETWORK_MODE_ADHOC))
          then nm_device_set_frequency (nm_ap_get_freq h ap) w8
          else w8 in
        let w10 := nm_device_set_enc_key None NM_DEVICE_AUTH_METHOD_NONE w9 in
        let w11 :=
          if nm_ap_get_encrypted h ap && bool_decide (is_Some (nm_ap_get_enc_key_source h ap))
          then nm_device_set_enc_key (nm_ap_get_enc_key_hashed (deref h ap)) auth w10
          else w10 in
        let w12 := nm_device_set_essid (Some essid) w11 in
        let w13 := association_pause card w12 in
        let w14 :=
          if bool_decide (nm_ap_get_mode h ap = NETWORK_MODE_ADHOC)
             && (nm_device_get_bitrate w13 <=? 0)
          then nm_device_set_bitrate 11000 w13
          else w13 in
        (true, nm_device_update_link_active w14)
    end.

(** nm_device_activation_configure_ip *)
Definition nm_device_activation_configure_ip (do_only_autoip : bool) (ip : IpObs)
    (w : World) : bool * World :=
  let w1 := emit EvDeleteDefaultRoute w in
  let '(success, w2) :=
    if do_only_autoip then (o_autoip ip, emit EvAutoIP w1)
    else if nm_device_config_get_use_dhcp (w_dev w1) then
      let w3 := emit EvDhcpRequest w1 in
      if o_dhcp_bound ip then (true, w3)
      else
        let w4 :=
          if nm_device_is_wireless (w_dev w3) then
            nm_device_set_enc_key None NM_DEVICE_AUTH_METHOD_NONE
              (nm_device_set_essid (Some ""%string) w3)
          else w3 in
        (false, bring_up_if_down w4)
    else (o_static ip, emit EvStaticIP w1) in
  if success then (true, emit EvRestartMdns (emit EvFlushArpCache w2))
  else (false, w2).

Definition AP_NEED_KEY (h : list NMAccessPoint) (ap : ap_ref) : bool :=
  let len :=
    match nm_ap_get_enc_key_source h ap with
    | Some s => String.length s
    | None => O
    end in
  nm_ap_get_encrypted h ap
  && (negb (bool_decide (is_Some (nm_ap_get_enc_key_source h ap)))
      || bool_decide (len = O)).

Definition HAVE_LINK (w : World) : bool :=
  if negb (nm_device_is_wireless (w_dev w)) then false
  else nm_device_get_link_active (w_dev w).

(** [out:] of nm_device_activate_wireless. *)
Definition aw_out (success : bool) (v : aw_locals) (w : World) : aw_config :=
  {| aw_at := AW_return success; aw_vars := v;
     aw_world := with_dev (with_wireless (set_now_scanning false)) w |}.

(** The current best access point cannot be used: it is marked, put on
    the Invalid list, and another one is looked for. *)
Definition invalidate_best_ap (best : ap_ref) (w : World) : World :=
  let w1 := with_heap (nm_ap_set_invalid best true) w in
  let w2 := with_data (set_invalid_ap_list
                         (nm_ap_list_append_ap (invalid_ap_list (w_data w1)) best)) w1 in
  nm_device_update_best_ap w2.

(** One step of nm_device_activate_wireless: from one blocking point to
    the next. *)
Definition aw_step (o : Obs) (c : aw_config) : aw_config :=
  let v := aw_vars c in
  let w := aw_world c in
  match aw_at c with
  | AW_entry =>
      {| aw_at := AW_get_ap; aw_vars := v;
         aw_world := g_usleep G_USEC_PER_SEC (bring_up_if_down w) |}
  | AW_get_ap =>
      let '(cancelled, w1) := nm_device_activation_handle_cancel w in
      if cancelled then aw_out false v w1
      else {| aw_at := AW_poll_ap; aw_vars := v; aw_world := w1 |}
  | AW_poll_ap =>
      match nm_device_get_best_ap w with
      | None =>
          let w1 := with_dev (with_wireless (set_now_scanning true)) w in
          let w2 := g_usleep (G_USEC_PER_SEC * 2) w1 in
          let '(cancelled, w3) := nm_device_activation_handle_cancel w2 in
          if cancelled then aw_out false v w3
          else {| aw_at := AW_poll_ap; aw_vars := v; aw_world := w3 |}
      | Some best =>
          let w1 := with_dev (with_wireless (set_now_scanning false)) w in
          if negb (nm_ap_get_encrypted (w_heap w1) best) then
            {| aw_at := AW_unencrypted best; aw_vars := v; aw_world := w1 |}
          else
            {| aw_at := AW_need_key best NM_DEVICE_AUTH_METHOD_SHARED_KEY
                          (AP_NEED_KEY (w_heap w1) best);
               aw_vars := v; aw_world := w1 |}
      end
  | AW_unencrypted best =>
      let '(_, w1) :=
        nm_device_set_wireless_config best NM_DEVICE_AUTH_METHOD_NONE (obs_card o) w in
      if bool_decide (nm_ap_get_mode (w_heap w1) best = NETWORK_MODE_ADHOC) then
        let '(success, w2) := nm_device_activation_configure_ip true (obs_ip o) w1 in
        aw_out success v w2
      else if negb (HAVE_LINK w1) then
        {| aw_at := AW_get_ap; aw_vars := v; aw_world := invalidate_best_ap best w1 |}
      else
        let '(ip_success, w2) := nm_device_activation_configure_ip false (obs_ip o) w1 in
        if negb ip_success then
          {| aw_at := AW_get_ap; aw_vars := v; aw_world := invalidate_best_ap best w2 |}
        else aw_out true v w2
  | AW_need_key best auth need_key =>
      if need_key then
        match nm_ap_get_essid (w_heap w) best with
        | None => {| aw_at := AW_fault; aw_vars := v; aw_world := w |}
        | Some essid =>
            let attempt1 :=
              if negb (bool_decide (essid = last_essid v)) then 1 else attempt v in
            let w1 := with_dev (with_wireless (set_user_key_received false)) w in
            let w2 := emit (EvGetUserKey (Some essid) attempt1) w1 in
            {| aw_at := AW_wait_key best;
               aw_vars := {| attempt := (attempt1 + 1) mod 256;
                             last_essid := strncpy 49 essid |};
               aw_world := w2 |}
        end
      else {| aw_at := AW_auth best auth; aw_vars := v; aw_world := w |}
  | AW_wait_key best =>
      if negb (user_key_received (wopts w)) && negb (quit_activation (w_dev w)) then
        {| aw_at := AW_wait_key best; aw_vars := v;
           aw_world := g_usleep (G_USEC_PER_SEC / 2) w |}
      else
        let '(cancelled, w1) := nm_device_activation_handle_cancel w in
        if cancelled then aw_out false v w1
        else {| aw_at := AW_get_ap; aw_vars := v; aw_world := w1 |}
  | AW_auth best auth =>
      if negb (auth_to_Z NM_DEVICE_AUTH_METHOD_NONE <? auth_to_Z auth) then aw_out false v w
      else
        let '(cancelled, w0) := nm_device_activation_handle_cancel w in
        if cancelled then aw_out false v w0
        else
          let '(_, w1) := nm_device_set_wireless_config best auth (obs_card o) w0 in
          match nm_ap_get_mode (w_heap w1) best with
          | NETWORK_MODE_ADHOC =>
              let '(_, w2) := nm_device_activation_configure_ip true (obs_ip o) w1 in
              aw_out true v w2
          | NETWORK_MODE_INFRA =>
              if negb (HAVE_LINK w1)
                 && bool_decide (auth = NM_DEVICE_AUTH_METHOD_SHARED_KEY) then
                {| aw_at := AW_auth best (auth_decr auth); aw_vars := v; aw_world := w1 |}
              else if negb (HAVE_LINK w1) then
                {| aw_at := AW_get_ap; aw_vars := v;
                   aw_world := invalidate_best_ap best w1 |}
              else
                let '(ip_success, w2) :=
                  nm_device_activation_configure_ip false (obs_ip o) w1 in
                if negb ip_success
                   && bool_decide (auth = NM_DEVICE_AUTH_METHOD_SHARED_KEY) then
                  {| aw_at := AW_auth best (auth_decr auth); aw_vars := v; aw_world := w2 |}
                else if negb ip_success then
                  {| aw_at := AW_need_key best auth true; aw_vars := v; aw_world := w2 |}
                else aw_out true v w2
          | NETWORK_MODE_UNKNOWN => aw_out true v w1
          end
  | AW_return _ => c
  | AW_fault => c
  end.

(** nm_device_activate_wireless at entry: [attempt = 1], [last_essid]
    empty. *)
Definition nm_device_activate_wireless_init (w : World) : aw_config :=
  {| aw_at := AW_entry; aw_vars := {| attempt := 1; last_essid := ""%string |};
     aw_world := w |}.

(** What the rest of the program does to the device between two steps
    of the worker. *)
Inductive env_action :=
  | EnvNothing
  | EnvCancel                               (* quit_activation = TRUE *)
  | EnvUserKey (network key : string) (enc_method : NMEncKeyType).
                                            (* the reply to the key request *)

Definition env_apply (a : env_action) (w : World) : World :=
  match a with
  | EnvNothing => w
  | EnvCancel => with_dev (set_quit_activation true) w
  | EnvUserKey network key enc_method =>
      nm_device_set_user_key_for_network true network key enc_method w
  end.

(** A run of the engine: before each step the rest of the program acts,
    then the engine moves, observing [Obs]. *)
Fixpoint aw_run (script : list (env_action * Obs)) (c : aw_config) : aw_config :=
  match script with
  | [] => c
  | (a, o) :: rest =>
      aw_run rest
        (aw_step o {| aw_at := aw_at c; aw_vars := aw_vars c;
                      aw_world := env_apply a (aw_world c) |})
  end.

(** The head of nm_device_activation_worker: the device is brought up,
    then the worker takes one of its paths. *)
Definition nm_device_activation_worker_begin (w : World) : worker_path * World :=
  let w1 := probe_then_bring_up w in
  if nm_device_is_wireless (w_dev w1) then
    match nm_device_get_best_ap w1 with
    | Some best =>
        if nm_ap_get_user_created (w_heap w1) best then (WP_create_network best, w1)
        else (WP_activate_wireless, w1)
    | None => (WP_activate_wireless, w1)
    end
  else if nm_device_is_wired (w_dev w1) then (WP_configure_wired, w1)
  else (WP_none, w1).

End Engine.

(** ** Sample worlds *)

Definition sample_wireless_options : NMDeviceWirelessOptions :=
  {| cur_essid := None; supports_wireless_scan := true; num_frequency := 11;
     scan_ap_list := []; cached_ap_list1 := []; cached_ap_list2 := [];
     cached_ap_list3 := []; best_ap := None; freeze_best_ap := false;
     now_scanning := false; user_key_received := false |}.

(** A wireless card with eleven channels, supported, down. *)
Definition sample_wireless_device : NMDevice :=
  {| test_device := false; test_device_up := false;
     dev_type := DEVICE_TYPE_WIRELESS_ETHERNET;
     driver_support_level := NM_DRIVER_FULLY_SUPPORTED;
     link_active := false; ip4_address := 0; activating := false;
     quit_activation := false; use_dhcp := true;
     wireless := sample_wireless_options |}.

(** A wired card that already carries 192.0.2.5. *)
Definition sample_wired_device : NMDevice :=
  {| test_device := false; test_device_up := false;
     dev_type := DEVICE_TYPE_WIRED_ETHERNET;
     driver_support_level := NM_DRIVER_FULLY_SUPPORTED;
     link_active := true; ip4_address := 0xC0000205; activating := false;
     quit_activation := false; use_dhcp := true;
     wireless := sample_wireless_options |}.

Definition sample_kernel : Kernel :=
  {| ifr_flags := 0; sock_fails := false; gifflags_fails := false;
     sifflags_fails := false; k_associated := false; k_ap_addr := None;
     k_essid := None; k_bitrate := 0; k_wired_link := false;
     k_scan_supported := true; iw_in_key_full := fun k => Some k |}.

Definition sample_data : NMData :=
  {| starting_up := false; is_active_device := true;
     allowed_ap_list := []; invalid_ap_list := [] |}.

Definition sample_world : World :=
  {| w_dev := sample_wireless_device; w_data := sample_data; w_heap := [];
     w_kernel := sample_kernel; w_trace := [] |}.

(** A test device whose link is active. *)
Definition sample_test_world : World :=
  with_dev (fun d =>
    {| test_device := true; test_device_up := true; dev_type := dev_type d;
       driver_support_level := driver_support_level d; link_active := true;
       ip4_address := ip4_address d; activating := activating d;
       quit_activation := quit_activation d; use_dhcp := use_dhcp d;
       wireless := wireless d |}) sample_world.


(** ** Vocabulary of the statements *)

Definition is_set_flags (e : Event) : bool :=
  match e with
  | EvSetIfFlags _ => true
  | _ => false
  end.

(** Going from [w] to [w'] raised (or lowered) the interface: the up flag
    of a test device or the kernel's interface flags changed, or a
    SIOCSIFFLAGS request was issued. *)
Definition changes_interface_state (w w' : World) : Prop :=
  test_device_up (w_dev w') <> test_device_up (w_dev w)
  \/ ifr_flags (w_kernel w') <> ifr_flags (w_kernel w)
  \/ exists f, In (EvSetIfFlags f) (drop (length (w_trace w)) (w_trace w')).

(** Going from [w] to [w'] left alone everything the up/down routines
    depend on, and issued no SIOCSIFFLAGS. *)
Definition same_iface (w w' : World) : Prop :=
  test_device (w_dev w') = test_device (w_dev w)
  /\ test_device_up (w_dev w') = test_device_up (w_dev w)
  /\ driver_support_level (w_dev w') = driver_support_level (w_dev w)
  /\ ifr_flags (w_kernel w') = ifr_flags (w_kernel w)
  /\ sock_fails (w_kernel w') = sock_fails (w_kernel w)
  /\ gifflags_fails (w_kernel w') = gifflags_fails (w_kernel w)
  /\ sifflags_fails (w_kernel w') = sifflags_fails (w_kernel w)
  /\ exists new, w_trace w' = w_trace w ++ new /\ forallb (fun e => negb (is_set_flags e)) new = true.

(** A wired card already configured, met while the program starts. *)
Definition sample_startup_world : World :=
  {| w_dev := sample_wired_device;
     w_data := {| starting_up := true; is_active_device := false;
                  allowed_ap_list := []; invalid_ap_list := [] |};
     w_heap := []; w_kernel := sample_kernel; w_trace := [] |}.

(** The same card, with a driver that is not supported. *)
Definition sample_startup_world_unsupported : World :=
  with_dev (fun d =>
    {| test_device := test_device d; test_device_up := test_device_up d;
       dev_type := dev_type d; driver_support_level := NM_DRIVER_UNSUPPORTED;
       link_active := link_active d; ip4_address := ip4_address d;
       activating := activating d; quit_activation := quit_activation d;
       use_dhcp := use_dhcp d; wireless := wireless d |}) sample_startup_world.

(** C5 as the claim has it: at start-up, on any wired device that has an
    IPv4 address, nm_device_activation_begin succeeds at once and schedules
    the final success. *)
Definition startup_shortcut_as_stated : Prop :=
  forall (thread_ok : bool) (w : World),
    starting_up (w_data w) = true ->
    nm_device_is_wired (w_dev w) = true ->
    ip4_address (w_dev w) <> 0 ->
    fst (nm_device_activation_begin thread_ok w) = true
    /\ w_trace (snd (nm_device_activation_begin thread_ok w))
       = w_trace w ++ [EvScheduleFinish true].

(** The frozen AP is still seen: an access point of the device list has
    its ESSID. *)
Definition still_visible (w : World) (best : ap_ref) : Prop :=
  exists e r, nm_ap_get_essid (w_heap w) best = Some e
              /\ In r (nm_device_ap_list_get w)
              /\ nm_ap_get_essid (w_heap w) r = Some e.

(** The frozen AP is ruled out: an access point of the Invalid list has
    its ESSID. *)
Definition in_invalid_list (w : World) (best : ap_ref) : Prop :=
  exists e r, nm_ap_get_essid (w_heap w) best = Some e
              /\ In r (invalid_ap_list (w_data w))
              /\ nm_ap_get_essid (w_heap w) r = Some e.

(** The reasons to keep a frozen best AP, in the words of the claim. *)
Definition frozen_ap_holds (w : World) : Prop :=
  exists best, nm_device_get_best_ap w = Some best
               /\ ((still_visible w best /\ ~ in_invalid_list w best)
                   \/ nm_ap_get_user_created (w_heap w) best = true).

(** *** The candidates of the best-AP selection *)

(** The Allowed entry an access point of the device list may use: the
    first Allowed access point with its ESSID, unless that ESSID is on the
    Invalid list. *)
Definition usable_allowed_entry (h : list NMAccessPoint) (d : NMData) (r : ap_ref) :
    option ap_ref :=
  if decide (is_Some (nm_ap_list_get_ap_by_essid h (invalid_ap_list d) (nm_ap_get_essid h r)))
  then None
  else nm_ap_list_get_ap_by_essid h (allowed_ap_list d) (nm_ap_get_essid h r).

(** The timestamp (in seconds) that counts for [r] among the trusted, or
    among the untrusted, candidates: that of its Allowed entry. *)
Definition candidate_timestamp (h : list NMAccessPoint) (d : NMData) (trusted : bool)
    (r : ap_ref) : option Z :=
  match usable_allowed_entry h d r with
  | Some t =>
      if bool_decide (nm_ap_get_trusted h t = trusted)
      then Some (tv_sec (nm_ap_get_timestamp h t))
      else None
  | None => None
  end.

(** [r] is the candidate with the highest timestamp in the list [l], as
    the claim has it. *)
Definition highest_candidate (h : list NMAccessPoint) (d : NMData) (l : NMAccessPointList)
    (trusted : bool) (r : ap_ref) : Prop :=
  exists i ts,
    l !! i = Some r /\ candidate_timestamp h d trusted r = Some ts
    /\ forall j r' ts',
         l !! j = Some r' -> candidate_timestamp h d trusted r' = Some ts' -> ts' <= ts.

(** [r] is the candidate the code tracks: its timestamp is positive and
    the highest, and it comes first among those that share it. *)
Definition best_candidate (h : list NMAccessPoint) (d : NMData) (l : NMAccessPointList)
    (trusted : bool) (r : ap_ref) : Prop :=
  exists i ts,
    l !! i = Some r /\ candidate_timestamp h d trusted r = Some ts /\ 0 < ts
    /\ forall j r' ts',
         l !! j = Some r' -> candidate_timestamp h d trusted r' = Some ts' ->
         ts' <= ts /\ (ts' = ts -> (i <= j)%nat).

(** No access point of the list is a candidate with a positive timestamp. *)
Definition no_candidate (h : list NMAccessPoint) (d : NMData) (l : NMAccessPointList)
    (trusted : bool) : Prop :=
  forall j r ts,
    l !! j = Some r -> candidate_timestamp h d trusted r = Some ts -> ts <= 0.

(** C2 as the claim has it, for the choice itself: when a trusted
    candidate exists the new best AP is the trusted candidate with the
    highest timestamp. *)
Definition best_ap_choice_as_stated : Prop :=
  forall (w : World),
    nm_device_is_wireless (w_dev w) = true ->
    nm_device_is_best_ap_frozen w = false ->
    (exists r, highest_candidate (w_heap w) (w_data w) (nm_device_ap_list_get w) true r) ->
    exists r, nm_device_get_best_ap (nm_device_update_best_ap w) = Some r
              /\ highest_candidate (w_heap w) (w_data w) (nm_device_ap_list_get w) true r.

(** The access-point record without its key material. *)
Definition strip_key (a : NMAccessPoint) : NMAccessPoint :=
  set_ap_enc_key_source None NM_ENC_TYPE_UNKNOWN a.

Definition best_of (b : bool) (s : best_ap_scan) : option ap_ref :=
  if b then trusted_best_ap s else untrusted_best_ap s.

Definition latest_of (b : bool) (s : best_ap_scan) : Z :=
  tv_sec (if b then trusted_latest_timestamp s else untrusted_latest_timestamp s).

(** What the selection loop maintains for the trusted ([b = true]) and for
    the untrusted candidates, after the access points [p] of the list. *)
Definition sel_inv (h0 : list NMAccessPoint) (d : NMData) (p : NMAccessPointList)
    (b : bool) (s : best_ap_scan) : Prop :=
  match best_of b s with
  | None => latest_of b s = 0 /\ no_candidate h0 d p b
  | Some r =>
      (exists i,
         p !! i = Some r /\ candidate_timestamp h0 d b r = Some (latest_of b s)
         /\ 0 < latest_of b s
         /\ forall j r' ts',
              p !! j = Some r' -> candidate_timestamp h0 d b r' = Some ts' ->
              ts' <= latest_of b s /\ (ts' = latest_of b s -> (i <= j)%nat))
      /\ exists t,
           usable_allowed_entry h0 d r = Some t
           /\ nm_ap_get_enc_key_source (s_heap s) r = nm_ap_get_enc_key_source h0 t
           /\ nm_ap_get_enc_method (s_heap s) r = nm_ap_get_enc_method h0 t
  end.

Definition loop_inv (h0 : list NMAccessPoint) (d : NMData) (p : NMAccessPointList)
    (s : best_ap_scan) : Prop :=
  strip_key <$> s_heap s = strip_key <$> h0
  /\ (forall e t, nm_ap_list_get_ap_by_essid h0 (allowed_ap_list d) e = Some t ->
                  s_heap s !! t = h0 !! t)
  /\ sel_inv h0 d p true s
  /\ sel_inv h0 d p false s
  /\ (best_of true s = None -> best_of false s = None -> s_heap s = h0).

(** The record the loop writes when [x] becomes the best of its kind. *)
Definition select_candidate (b : bool) (x t : ap_ref) (s : best_ap_scan) : best_ap_scan :=
  let h := nm_ap_set_enc_key_source x (nm_ap_get_enc_key_source (s_heap s) t)
             (nm_ap_get_enc_method (s_heap s) t) (s_heap s) in
  if b then
    {| s_heap := h; trusted_best_ap := Some x; untrusted_best_ap := untrusted_best_ap s;
       trusted_latest_timestamp := nm_ap_get_timestamp (s_heap s) t;
       untrusted_latest_timestamp := untrusted_latest_timestamp s |}
  else
    {| s_heap := h; trusted_best_ap := trusted_best_ap s; untrusted_best_ap := Some x;
       trusted_latest_timestamp := trusted_latest_timestamp s;
       untrusted_latest_timestamp := nm_ap_get_timestamp (s_heap s) t |}.

(** *** Sample access points *)

(** An access point as a scan reports it. *)
Definition scanned_ap (e : string) (enc : bool) : NMAccessPoint :=
  {| ap_essid := Some e; ap_address := None; ap_mode := NETWORK_MODE_INFRA;
     ap_freq := 0%Q; ap_strength := 50; ap_encrypted := enc;
     ap_enc_key_source := None; ap_enc_method := NM_ENC_TYPE_UNKNOWN;
     ap_invalid := false; ap_artificial := false; ap_user_created := false;
     ap_trusted := false; ap_timestamp := {| tv_sec := 0; tv_usec := 0 |} |}.

(** An entry of the Allowed list. *)
Definition allowed_ap (e : string) (enc : bool) (k : option string) (tr : bool) (sec : Z) :
    NMAccessPoint :=
  {| ap_essid := Some e; ap_address := None; ap_mode := NETWORK_MODE_INFRA;
     ap_freq := 0%Q; ap_strength := 0; ap_encrypted := enc;
     ap_enc_key_source := k; ap_enc_method := NM_ENC_TYPE_HEX_KEY;
     ap_invalid := false; ap_artificial := false; ap_user_created := false;
     ap_trusted := tr; ap_timestamp := {| tv_sec := sec; tv_usec := 0 |} |}.

(** The sample wireless card with a device list, a best AP and a freeze
    flag. *)
Definition wireless_world (heap : list NMAccessPoint) (visible allowed invalid : list nat)
    (best : option nat) (frozen : bool) : World :=
  {| w_dev :=
       with_wireless (fun o => set_freeze_best_ap frozen
                                 (set_best_ap best (set_scan_ap_list visible o)))
         sample_wireless_device;
     w_data := {| starting_up := false; is_active_device := true;
                  allowed_ap_list := allowed; invalid_ap_list := invalid |};
     w_heap := heap; w_kernel := sample_kernel; w_trace := [] |}.

(** "lab" is visible and frozen as the best AP. *)
Definition sample_frozen_world : World :=
  wireless_world [scanned_ap "lab" false] [0%nat] [] [] (Some 0%nat) true.

(** "home" is visible and allowed (trusted, last used at second 100, with a
    key); "cafe" is visible and allowed, not trusted, used later. *)
Definition sample_selection_world : World :=
  wireless_world
    [scanned_ap "cafe" false; scanned_ap "home" true;
     allowed_ap "home" true (Some "deadbeef01") true 100;
     allowed_ap "cafe" false None false 200]
    [0%nat; 1%nat] [2%nat; 3%nat] [] None false.

(** The selection is frozen on "lab", which is seen no more; "home" and
    "cafe" are visible and allowed as in the world above. *)
Definition sample_frozen_gone_world : World :=
  wireless_world
    [scanned_ap "cafe" false; scanned_ap "home" true;
     allowed_ap "home" true (Some "deadbeef01") true 100;
     allowed_ap "cafe" false None false 200;
     scanned_ap "lab" false]
    [0%nat; 1%nat] [2%nat; 3%nat] [] (Some 4%nat) true.

(** "home" is visible and allowed and trusted, but its Allowed entry has
    the zero timestamp of an entry that was never used. *)
Definition sample_zero_timestamp_world : World :=
  wireless_world
    [scanned_ap "home" false; allowed_ap "home" false None true 0]
    [0%nat] [1%nat] [] None false.

(** *** The key reply *)

(** C4 as the claim has it, for the Invalid list: a reply that is not the
    exact sentinel is no cancellation, so it leaves the Invalid list as it
    is. *)
Definition cancel_only_on_exact_sentinel_as_stated : Prop :=
  forall (invalid_list : bool) (network key : string) (m : NMEncKeyType) (w : World),
    nm_device_is_wireless (w_dev w) = true ->
    key <> cancel_message ->
    invalid_ap_list (w_data (nm_device_set_user_key_for_network invalid_list network key m w))
    = invalid_ap_list (w_data w).

(** "wifi" is visible, encrypted, and the best AP; no key yet. *)
Definition sample_key_world : World :=
  wireless_world [scanned_ap "wifi" true] [0%nat] [] [] (Some 0%nat) false.

(** The world once a copy of the access point [ap] has been put on the
    Invalid list (when the caller passed one). *)
Definition with_invalid_copy (invalid_list : bool) (ap : nat) (w : World) : World :=
  let w1 := with_heap (fun h => h ++ [deref h ap]) w in
  if invalid_list then
    with_data (set_invalid_ap_list (invalid_ap_list (w_data w) ++ [length (w_heap w)])) w1
  else w1.

(** *** Probing for a network *)

(** Going from [w] to [w'] left the kind of card, the working of its
    sockets, the store, the shared lists and the device list as they were. *)
Definition keeps_card (w w' : World) : Prop :=
  test_device (w_dev w') = test_device (w_dev w)
  /\ dev_type (w_dev w') = dev_type (w_dev w)
  /\ sock_fails (w_kernel w') = sock_fails (w_kernel w)
  /\ w_heap w' = w_heap w
  /\ w_data w' = w_data w
  /\ scan_ap_list (wopts w') = scan_ap_list (wopts w).

(** The access point of the device list that carries the ESSID probed
    for, if there is one. *)
Definition known_ap (w : World) (network : string) : option nat :=
  nm_ap_list_get_ap_by_essid (w_heap w) (nm_device_ap_list_get w) (Some network).

(** The network is probed as an infrastructure network: it is not in the
    device list, or it is there in infrastructure mode. *)
Definition probed_as_infrastructure (w : World) (network : string) : Prop :=
  match known_ap w network with
  | Some a => nm_ap_get_mode (w_heap w) a = NETWORK_MODE_INFRA
  | None => True
  end.






(** A card that hears nothing. *)
Definition card_silent : CardObs :=
  {| o_associated := false; o_ap_addr := None; o_essid := Some " "%string |}.

(** A card associated to the base station 00:0f:66:12:34:56 of [e]. *)
Definition card_associated (e : string) : CardObs :=
  {| o_associated := true; o_ap_addr := Some [x00; x0f; x66; x12; x34; x56];
     o_essid := Some e |}.

(** The card associates only in round [n]. *)
Definition card_only_in_round (n : nat) (e : string) (i : nat) : CardObs :=
  if (i =? n)%nat then card_associated e else card_silent.

(** "corp" is in the device list, encrypted. *)
Definition sample_corp_world : World :=
  wireless_world [scanned_ap "corp" true] [0%nat] [] [] None false.

(** The card associates in every round, each time to another base
    station: 00:0f:66:00:00:00, :01, :02. *)
Definition card_every_round (e : string) (i : nat) : CardObs :=
  {| o_associated := true;
     o_ap_addr := Some [x00; x0f; x66; x00; x00;
                        match i with O => x00 | S O => x01 | _ => x02 end];
     o_essid := Some e |}.

(** No access point is known to the device. *)
Definition sample_empty_world : World := wireless_world [] [] [] [] None false.

(** The requests that set the ESSID or the key of the card. *)
Definition is_essid_or_key_request (e : Event) : bool :=
  match e with
  | EvSetEssid _ | EvSetEncode _ _ => true
  | _ => false
  end.

(** *** The list routines, for the examples *)

(** Two records name the same access point: "set semantics by BSSID when
    present, else by ESSID". *)
Definition ap_collide (a b : NMAccessPoint) : bool :=
  match ap_address a, ap_address b with
  | Some x, Some y => bool_decide (x = y)
  | None, None => bool_decide (ap_essid a = ap_essid b)
  | _, _ => false
  end.

(** [b] joins the records [acc]: on a collision the newer timestamp
    wins. *)
Fixpoint combine_insert (acc : list NMAccessPoint) (b : NMAccessPoint) :
    list NMAccessPoint :=
  match acc with
  | [] => [b]
  | a :: rest =>
      if ap_collide a b then
        (if tv_sec (ap_timestamp a) <? tv_sec (ap_timestamp b) then b else a) :: rest
      else a :: combine_insert rest b
  end.

(** Modelled from the spec: nm_ap_list_combine of NetworkManagerAPList.c:
    "combine(a, b): union with newest-timestamp-wins on collision". The
    result is a list of new objects (an access point is "owned by exactly
    one AP list at a time"). *)
Definition nm_ap_list_combine_model (h : list NMAccessPoint) (l1 l2 : list nat) :
    list NMAccessPoint * list nat :=
  let recs := fold_left combine_insert (deref h <$> l2)
                (fold_left combine_insert (deref h <$> l1) []) in
  (h ++ recs, seq (length h) (length recs)).

(** Modelled from the spec: nm_ap_list_copy_properties: "copies keys,
    timestamps, trusted flag for matching ESSIDs". *)
Definition nm_ap_list_copy_properties_model (h : list NMAccessPoint) (dst src : list nat) :
    list NMAccessPoint :=
  fold_left
    (fun acc r =>
       match nm_ap_list_get_ap_by_essid acc src (nm_ap_get_essid acc r) with
       | Some t =>
           alter (set_ap_properties (nm_ap_get_enc_key_source acc t)
                    (nm_ap_get_enc_method acc t) (nm_ap_get_timestamp acc t)
                    (nm_ap_get_trusted acc t)) r acc
       | None => acc
       end)
    dst h.

(** Modelled from the spec: nm_ap_list_copy_essids_by_address: "fills in
    blank ESSIDs in dst when BSSIDs match". *)
Definition nm_ap_list_copy_essids_by_address_model (h : list NMAccessPoint)
    (dst src : list nat) : list NMAccessPoint :=
  fold_left
    (fun acc r =>
       match nm_ap_get_essid acc r, ap_address (deref acc r) with
       | None, Some a =>
           match nm_ap_list_get_ap_by_address acc src a with
           | Some t => alter (set_ap_essid (nm_ap_get_essid acc t)) r acc
           | None => acc
           end
       | _, _ => acc
       end)
    dst h.

(** Modelled from the spec: nm_ap_list_diff: "diff(a, b): (added,
    removed)", forwarded as WirelessNetworkAppeared and
    WirelessNetworkDisappeared; access points are told apart by ESSID. *)
Definition nm_ap_list_diff_model (h : list NMAccessPoint) (old new : list nat) :
    list Event :=
  (EvNetworkDisappeared <$>
     List.filter (fun r => negb (bool_decide (is_Some (nm_ap_list_get_ap_by_essid h new
                                                         (nm_ap_get_essid h r))))) old)
  ++ (EvNetworkAppeared <$>
        List.filter (fun r => negb (bool_decide (is_Some (nm_ap_list_get_ap_by_essid h old
                                                            (nm_ap_get_essid h r))))) new).

(** The conversion of a scan into the newest snapshot. *)
Definition converted_scan (qual_to_percent : NMDevice -> iw_quality -> Z)
    (result : list wireless_scan) (w : World) : convert_state :=
  fold_left (convert_round qual_to_percent (w_dev w)) result
    {| c_heap := w_heap w; c_list := []; have_blank_essids := false |}.

(** C7 as the claim has it, for the visible list: after a scan cycle on a
    card that exists and can scan, the device list is combine (S1, S2). *)
Definition visible_list_is_combine_as_stated : Prop :=
  forall (qual_to_percent : NMDevice -> iw_quality -> Z) (is_valid : list byte -> bool)
         (key_hashed : NMAccessPoint -> option string)
         (result : list wireless_scan) (card : nat -> CardObs) (w : World),
    test_device (w_dev w) = false ->
    nm_device_is_wireless (w_dev w) = true ->
    k_scan_supported (w_kernel w) = true ->
    scan_ap_list
      (wopts (nm_device_process_scan_results nm_ap_list_combine_model
                nm_ap_list_copy_essids_by_address_model nm_ap_list_copy_properties_model
                nm_ap_list_diff_model qual_to_percent is_valid key_hashed
                (Some result) card w))
    = snd (nm_ap_list_combine_model (c_heap (converted_scan qual_to_percent result w))
             (c_list (converted_scan qual_to_percent result w))
             (cached_ap_list1 (wopts w))).

(** A cloaked network "hq" the user pointed the card at: the access point
    is artificial, it is in the device list, and the card uses its ESSID. *)
Definition artificial_ap (e : string) : NMAccessPoint :=
  {| ap_essid := Some e; ap_address := Some [x00; x0f; x66; x12; x34; x56];
     ap_mode := NETWORK_MODE_INFRA; ap_freq := 0%Q; ap_strength := 0;
     ap_encrypted := false; ap_enc_key_source := None;
     ap_enc_method := NM_ENC_TYPE_UNKNOWN; ap_invalid := false;
     ap_artificial := true; ap_user_created := false; ap_trusted := false;
     ap_timestamp := {| tv_sec := 0; tv_usec := 0 |} |}.

Definition sample_cloaked_world : World :=
  with_kernel (set_card (card_associated "hq"))
    (wireless_world [artificial_ap "hq"] [0%nat] [] [] (Some 0%nat) true).

(** A driver record for an open access point on channel 6. *)
Definition sample_scan_record (e : string) : wireless_scan :=
  {| has_essid := true; essid := e; has_key := true; key_flags := IW_ENCODE_DISABLED;
     has_ap_addr := true; ap_addr := [x00; x11; x22; x33; x44; x55];
     has_mode := true; mode := IW_MODE_INFRA;
     qual := {| q_qual := 40; q_level := 0; q_noise := 0; q_updated := 0 |};
     has_freq := true; freq := 2.437%Q |}.

(** An encrypted access point "corp" of mode [m] whose key is known. *)
Definition keyed_ap (m : NMNetworkMode) : NMAccessPoint :=
  {| ap_essid := Some "corp"%string; ap_address := None; ap_mode := m;
     ap_freq := 0%Q; ap_strength := 50; ap_encrypted := true;
     ap_enc_key_source := Some "deadbeef01"%string; ap_enc_method := NM_ENC_TYPE_HEX_KEY;
     ap_invalid := false; ap_artificial := false; ap_user_created := false;
     ap_trusted := true; ap_timestamp := {| tv_sec := 100; tv_usec := 0 |} |}.

(** The sample card with "corp" as its best access point. *)
Definition sample_keyed_world (m : NMNetworkMode) : World :=
  wireless_world [keyed_ap m] [0%nat] [] [] (Some 0%nat) false.

Definition ip_fails : IpObs :=
  {| o_autoip := false; o_dhcp_bound := false; o_static := false |}.

(** The card associates with nothing and no address is obtained. *)
Definition obs_no_link : Obs := {| obs_card := card_silent; obs_ip := ip_fails |}.

(** The card associates with "corp" and no address is obtained. *)
Definition obs_link_no_ip : Obs :=
  {| obs_card := card_associated "corp"; obs_ip := ip_fails |}.

(** The engine at [pc] with the automatic variables [v] over [w]. *)
Definition aw_at_pc (pc : aw_pc) (v : aw_locals) (w : World) : aw_config :=
  {| aw_at := pc; aw_vars := v; aw_world := w |}.

(** C1 as the claim has it, for the first fallback: for every encrypted
    access point that has a key, no link under SharedKey sends the engine
    to the same access point with OpenSystem. *)
Definition shared_key_fallback_as_stated : Prop :=
  forall (key_hashed : NMAccessPoint -> option string) (o : Obs) (v : aw_locals)
         (w : World) (best : nat),
    nm_device_get_best_ap w = Some best ->
    quit_activation (w_dev w) = false ->
    nm_ap_get_encrypted (w_heap w) best = true ->
    AP_NEED_KEY (w_heap w) best = false ->
    HAVE_LINK (snd (nm_device_set_wireless_config key_hashed best
                      NM_DEVICE_AUTH_METHOD_SHARED_KEY (obs_card o) w)) = false ->
    aw_at (aw_step key_hashed o (aw_at_pc (AW_auth best NM_DEVICE_AUTH_METHOD_SHARED_KEY) v w))
    = AW_auth best NM_DEVICE_AUTH_METHOD_OPEN_SYSTEM.

(** The sample wireless card, already up. *)
Definition sample_up_world : World := with_kernel (set_ifr_flags IFF_UP) sample_world.

(** ** Vocabulary for the traces *)

(** Requests to the wireless extensions of the card. *)
Definition is_radio_request (e : Event) : bool :=
  match e with
  | EvSetEssid _ | EvSetEncode _ _ | EvSetMode _ | EvSetBitrate _ | EvSetFrequency _ => true
  | _ => false
  end.

(** Reads and writes of the interface flags. *)
Definition is_flag_request (e : Event) : bool :=
  match e with
  | EvGetIfFlags | EvSetIfFlags _ => true
  | _ => false
  end.

(** Requests that tune the card: mode, bit rate, frequency. *)
Definition is_tuning_request (e : Event) : bool :=
  match e with
  | EvSetMode _ | EvSetBitrate _ | EvSetFrequency _ => true
  | _ => false
  end.

Definition is_sleep (e : Event) : bool :=
  match e with EvSleep _ => true | _ => false end.

Definition is_encode_request (e : Event) : bool :=
  match e with EvSetEncode _ _ => true | _ => false end.

Definition is_essid_request (e : Event) : bool :=
  match e with EvSetEssid _ => true | _ => false end.

(** What the radio and interface primitives may add to the trace. *)
Definition is_device_request (e : Event) : bool :=
  is_radio_request e || is_flag_request e.

(** Going from [w] to [w'] added events to the trace, all of them
    satisfying [P], and removed none. *)
Definition appends_only (P : Event -> bool) (w w' : World) : Prop :=
  exists new, w_trace w' = w_trace w ++ new /\ forallb P new = true.

(** The time spent in g_usleep, in microseconds. *)
Definition total_sleep (l : list Event) : Z :=
  fold_right (fun e acc => match e with EvSleep u => u + acc | _ => acc end) 0 l.

(** The flags of the request that switches encryption off. *)
Definition encode_disabled_flags : Z :=
  Z.lor IW_ENCODE_ENABLED (Z.lor IW_ENCODE_DISABLED IW_ENCODE_NOKEY).

Definition is_ip_request (e : Event) : bool :=
  match e with EvAutoIP | EvDhcpRequest | EvStaticIP => true | _ => false end.

(** A wireless card that exists, with a control socket to talk to it. *)
Definition real_wireless_card (w : World) : bool :=
  nm_device_is_wireless (w_dev w) && negb (test_device (w_dev w))
  && negb (sock_fails (w_kernel w)).

(** Going from [w] to [w'] left the best access point, its freeze flag
    and the four access-point lists of the device as they were. *)
Definition keeps_selection (w w' : World) : Prop :=
  best_ap (wopts w') = best_ap (wopts w)
  /\ freeze_best_ap (wopts w') = freeze_best_ap (wopts w)
  /\ scan_ap_list (wopts w') = scan_ap_list (wopts w)
  /\ cached_ap_list1 (wopts w') = cached_ap_list1 (wopts w)
  /\ cached_ap_list2 (wopts w') = cached_ap_list2 (wopts w)
  /\ cached_ap_list3 (wopts w') = cached_ap_list3 (wopts w).

(** The BSSID a real card reports, all zeros when it reports none. *)
Definition card_address (k : Kernel) : ether_addr := default bad_addr (k_ap_addr k).

(** ** The device list *)

Section DeviceList.

(** The device record of this development carries neither the UDI nor
    the interface name; the two searches are embedded over any
    representation [Dev] of a device pointer with the two accessors. An
    element of the list whose data pointer is null is [None]. *)
Variable Dev : Type.
Variable nm_device_get_udi : Dev -> option string.
Variable nm_device_get_iface : Dev -> option string.

(** The loop of nm_get_device_by_udi; [dev] is the local variable, which
    every round overwrites with the data of the element. *)
Fixpoint get_device_by_udi_loop (udi : string) (element : list (option Dev))
    (dev : option Dev) : option Dev :=
  match element with
  | [] => dev
  | data :: next =>
      match data with
      | Some d =>
          if nm_null_safe_strcmp_eq (nm_device_get_udi d) (Some udi) then Some d  (* break *)
          else get_device_by_udi_loop udi next (Some d)
      | None => get_device_by_udi_loop udi next None
      end
  end.

(** nm_get_device_by_udi: [return (dev)]. *)
Definition nm_get_device_by_udi (dev_list : list (option Dev)) (udi : string) : option Dev :=
  get_device_by_udi_loop udi dev_list None.

(** nm_get_device_by_iface: [found_dev] is set only on a match. *)
Fixpoint nm_get_device_by_iface (dev_list : list (option Dev)) (iface : string) :
    option Dev :=
  match dev_list with
  | [] => None
  | data :: next =>
      match data with
      | Some d =>
          if nm_null_safe_strcmp_eq (nm_device_get_iface d) (Some iface) then Some d
          else nm_get_device_by_iface next iface
      | None => nm_get_device_by_iface next iface
      end
  end.

End DeviceList.

(** ** Signal strength *)

(** The fields of dev->options.wireless that hold the signal data. Their
    widths are fixed by a header that is not at hand: a field holds the
    value assigned to it, and the narrowing is done where the value is
    read out, by nm_device_get_signal_strength, which returns a gint8.
    For a strength field of eight bits or more, signed or not, what the
    getter returns is the same. *)
Record SignalState := {
  strength : Z;
  noise : Z;
  max_quality : Z;
  invalid_strength_counter : Z
}.

(** What iw_get_stats and iw_get_range_info give: the level of
    range.max_qual, the noise of stats.qual, and the percentage
    nm_wireless_qual_to_percent makes of stats.qual. *)
Record SignalObs := {
  s_max_qual_level : Z;
  s_noise : Z;
  s_percent : Z
}.

(** nm_device_update_signal_strength; [stats] is None when iw_get_stats
    fails. *)
Definition nm_device_update_signal_strength (stats : option SignalObs) (w : World)
    (s : SignalState) : SignalState :=
  if negb (nm_device_is_wireless (w_dev w)) then s
  else if negb (is_active_device (w_data w)) then
    {| strength := -1; noise := noise s; max_quality := max_quality s;
       invalid_strength_counter := invalid_strength_counter s |}
  else if test_device (w_dev w) then
    {| strength := 75; noise := noise s; max_quality := max_quality s;
       invalid_strength_counter := invalid_strength_counter s |}
  else
    let max_quality1 := match stats with Some o => s_max_qual_level o | None => -1 end in
    let noise1 := match stats with Some o => s_noise o | None => -1 end in
    let percent := match stats with Some o => s_percent o | None => -1 end in
    if percent =? -1 then
      (* ++dev->options.wireless.invalid_strength_counter <= 3 *)
      let counter1 := invalid_strength_counter s + 1 in
      if counter1 <=? 3 then
        {| strength := strength s; noise := noise1; max_quality := max_quality1;
           invalid_strength_counter := counter1 |}
      else
        {| strength := percent; noise := noise1; max_quality := max_quality1;
           invalid_strength_counter := 0 |}
    else
      {| strength := percent; noise := noise1; max_quality := max_quality1;
         invalid_strength_counter := 0 |}.

(** The conversion of an integer to gint8. *)
Definition to_gint8 (z : Z) : Z := (z + 128) mod 256 - 128.

(** nm_device_get_signal_strength, a gint8. *)
Definition nm_device_get_signal_strength (w : World) (s : SignalState) : Z :=
  if negb (nm_device_is_wireless (w_dev w)) then -1 else to_gint8 (strength s).

(** nm_device_update_link_active together with the signal fields, which
    the World leaves out: on the wireless path the signal strength is
    updated right after the link has been looked at, before the link state
    is stored. [stats] is what iw_get_stats gives at that moment. *)
Definition nm_device_update_link_active_signal (stats : option SignalObs)
    (ws : World * SignalState) : World * SignalState :=
  let '(w, s) := ws in
  let s1 :=
    match dev_type (w_dev w) with
    | DEVICE_TYPE_WIRELESS_ETHERNET =>
        nm_device_update_signal_strength stats (snd (nm_device_wireless_link_active w)) s
    | _ => s
    end in
  (nm_device_update_link_active w, s1).

(** The percentage a reading gives, -1 when there is none. *)
Definition reading_percent (stats : option SignalObs) : Z :=
  match stats with Some o => s_percent o | None => -1 end.

(** Successive calls of nm_device_update_signal_strength, one for each
    reading of the list. *)
Definition signal_readings (w : World) (l : list (option SignalObs)) (s : SignalState) :
    SignalState :=
  fold_left (fun s stats => nm_device_update_signal_strength stats w s) l s.

(** ** The link of a wired card, from its MII registers *)

(** mdio_read: the register as a guint16, or [(guint16) -1] when the
    request fails. *)
Definition mdio_read (reg : option Z) : Z :=
  match reg with
  | Some v => v mod 2 ^ 16
  | None => (-1) mod 2 ^ 16
  end.

(** mii_get_link. [sock_ok]: the socket could be opened; [phy_new] and
    [phy_old]: the request for the PHY address succeeds under the new
    (0x8947) or the old (SIOCDEVPRIVATE) number; [read1], [read2]: what the
    two reads of register 1 give. *)
Definition mii_get_link (sock_ok phy_new phy_old : bool) (read1 read2 : option Z) : bool :=
  if negb sock_ok then false
  else if negb phy_new && negb phy_old then false
  else
    let status_word := mdio_read read1 in
    let status_word := mdio_read read2 in
    Z.land status_word 0x0016 =? 0x0004.

(** ** The end of the activation worker *)

(** nm_device_activation_worker from the return of the activation proper
    ([success]) to the point where it either ends or stays to look after
    the DHCP lease; [has_dhcp_iface] tells whether dev->dhcp_iface is set.
    The answer is TRUE when the worker stays. *)
Definition nm_device_activation_worker_finish (success has_dhcp_iface : bool) (w : World) :
    bool * World :=
  let '(cancelled, w1) := nm_device_activation_handle_cancel w in
  if cancelled then (false, w1)
  else
    let w2 := with_dev (set_quit_activation false) (with_dev (set_activating false) w1) in
    if negb success then (false, w2)
    else
      let '(cancelled2, w3) := nm_device_activation_handle_cancel w2 in
      if cancelled2 then (false, w3)
      else
        let w4 := nm_device_activation_schedule_finish success w3 in
        if negb (nm_device_config_get_use_dhcp (w_dev w4)) || negb has_dhcp_iface
        then (false, w4)
        else (true, w4).

(** ** Creating an ad-hoc network *)

Definition set_ap_freq (f : Q) (a : NMAccessPoint) : NMAccessPoint :=
  {| ap_essid := ap_essid a; ap_address := ap_address a; ap_mode := ap_mode a;
     ap_freq := f; ap_strength := ap_strength a; ap_encrypted := ap_encrypted a;
     ap_enc_key_source := ap_enc_key_source a; ap_enc_method := ap_enc_method a;
     ap_invalid := ap_invalid a; ap_artificial := ap_artificial a;
     ap_user_created := ap_user_created a; ap_trusted := ap_trusted a;
     ap_timestamp := ap_timestamp a |}.

Definition nm_ap_set_freq (r : nat) (f : Q) (h : list NMAccessPoint) : list NMAccessPoint :=
  alter (set_ap_freq f) r h.

(** One round of the loop over the device list: the frequency of
    [tmp_ap], if it has one, is struck out of the table. *)
Definition adhoc_strike_out (h : list NMAccessPoint) (card_freqs : list Q) (tmp_ap : nat) :
    list Q :=
  let ap_freq := nm_ap_get_freq h tmp_ap in
  if Qeq_bool ap_freq 0 then card_freqs
  else (fun f => if Qeq_bool f ap_freq then 0%Q else f) <$> card_freqs.

(** The first frequency left in the table that lies in the 802.11b
    channels 1 to 14; zero when there is none. *)
Definition adhoc_first_free (iw_freq_to_channel : Q -> Z) (card_freqs : list Q) : Q :=
  default 0%Q
    (find (fun f => negb (Qeq_bool f 0) && (0 <? iw_freq_to_channel f)
                    && (iw_freq_to_channel f <? 15)) card_freqs).

Section AdHoc.

Variable nm_ap_get_enc_key_hashed : NMAccessPoint -> option string.
(** iwlib's conversions between frequencies and channels, for the range
    of the card, and what random () returns. *)
Variable iw_freq_to_channel : Q -> Z.
Variable iw_channel_to_freq : Z -> option Q.
Variable random : Z.

(** The frequency nm_device_activate_wireless_adhoc settles on;
    [card_freqs] is the table of the card's frequencies, as long as
    MIN (num_frequency, IW_MAX_FREQUENCIES). *)
Definition adhoc_freq_to_use (card_freqs : list Q) (w : World) : Q :=
  let table := fold_left (adhoc_strike_out (w_heap w)) (nm_device_ap_list_get w) card_freqs in
  let freq_to_use := adhoc_first_free iw_freq_to_channel table in
  if Qeq_bool freq_to_use 0 then
    (* no free channel in 802.11b space: one more or less at random *)
    match iw_channel_to_freq (Z.rem random 14) with
    | Some pfreq => pfreq
    | None => 0%Q
    end
  else freq_to_use.

(** nm_device_activate_wireless_adhoc *)
Definition nm_device_activate_wireless_adhoc (card_freqs : list Q) (ap : nat)
    (o : Obs) (w : World) : bool * World :=
  let auth :=
    if nm_ap_get_encrypted (w_heap w) ap then NM_DEVICE_AUTH_METHOD_SHARED_KEY
    else NM_DEVICE_AUTH_METHOD_NONE in
  let freq_to_use := adhoc_freq_to_use card_freqs w in
  if negb (Qeq_bool freq_to_use 0) then
    let w1 := with_heap (nm_ap_set_freq ap freq_to_use) w in
    let '(success, w2) :=
      nm_device_set_wireless_config nm_ap_get_enc_key_hashed ap auth (obs_card o) w1 in
    if success then nm_device_activation_configure_ip true (obs_ip o) w2
    else (false, w2)
  else (false, w).

End AdHoc.

(** *** A network to create *)

(** "party" is the network the user asks to create; "lab" is visible on
    channel 1. *)
Definition created_ap : NMAccessPoint :=
  {| ap_essid := Some "party"%string; ap_address := None; ap_mode := NETWORK_MODE_ADHOC;
     ap_freq := 0%Q; ap_strength := 0; ap_encrypted := false;
     ap_enc_key_source := None; ap_enc_method := NM_ENC_TYPE_UNKNOWN;
     ap_invalid := false; ap_artificial := false; ap_user_created := true;
     ap_trusted := true; ap_timestamp := {| tv_sec := 0; tv_usec := 0 |} |}.

Definition sample_adhoc_world : World :=
  wireless_world [set_ap_freq (2412 # 1000) (scanned_ap "lab" false); created_ap]
    [0%nat] [] [] (Some 1%nat) false.

(** Channels 1, 6 and 11 of 802.11b and channel 36 of 802.11a. *)
Definition sample_channel (f : Q) : Z :=
  if Qeq_bool f (2412 # 1000) then 1
  else if Qeq_bool f (2437 # 1000) then 6
  else if Qeq_bool f (2462 # 1000) then 11
  else if Qeq_bool f (5180 # 1000) then 36
  else -1.

(** * Properties *)

(** ** The association pause (C8) *)

(** C8. For every wireless device the association pause is 10 seconds
    when the card's range information lists more than 14 frequencies, and
    5 seconds otherwise. *)
Theorem association_pause_value_by_frequencies (d : NMDevice) :
  nm_device_is_wireless d = true ->
  (14 < num_frequency (wireless d) -> nm_device_get_association_pause_value d = 10)
  /\ (num_frequency (wireless d) <= 14 -> nm_device_get_association_pause_value d = 5).
Proof.
  intros Hw. unfold nm_device_get_association_pause_value. rewrite Hw. simpl.
  split; intros H.
  - apply Z.ltb_lt in H. now rewrite H.
  - apply Z.ltb_ge in H. now rewrite H.
Qed.

Lemma association_pause_value_by_frequencies_witness :
  nm_device_get_association_pause_value sample_wireless_device = 5.
Proof.
  apply (association_pause_value_by_frequencies sample_wireless_device).
  - reflexivity.
  - simpl. lia.
Defined.

(** The engine sleeps for that many seconds at the pause. *)
Lemma association_pause_trace (card : CardObs) (w : World) :
  w_trace (association_pause card w)
  = w_trace w ++ [EvSleep (G_USEC_PER_SEC * nm_device_get_association_pause_value (w_dev w))].
Proof. reflexivity. Qed.

(** ** The address of the associated access point on a test device (C10) *)

(** C10, as the code has it. On a test device nm_device_get_ap_address
    copies the indeterminate request structure over one of its own two
    local addresses and returns: the caller's buffer keeps what it held,
    whatever the link state (on a device that is not wireless the routine
    returns before it does anything). *)
Theorem get_ap_address_test_device_keeps_buffer (w : World) (addr wrq : ether_addr) :
  test_device (w_dev w) = true ->
  nm_device_get_ap_address w addr wrq = addr.
Proof.
  intros Ht. unfold nm_device_get_ap_address, nm_device_get_ap_address_frame.
  rewrite Ht. unfold memcpy_local.
  destruct (nm_device_is_wireless (w_dev w)), (nm_device_get_link_active (w_dev w));
    reflexivity.
Qed.

Lemma get_ap_address_test_device_keeps_buffer_witness :
  nm_device_get_ap_address sample_test_world bad_addr bad_addr = bad_addr
  /\ nm_device_get_link_active (w_dev sample_test_world) = true
  /\ bad_addr <> good_addr.
Proof.
  split; [| split].
  - apply (get_ap_address_test_device_keeps_buffer sample_test_world). reflexivity.
  - reflexivity.
  - discriminate.
Defined.


(** ** Bringing the device up (C9) *)

Lemma same_iface_refl (w : World) : same_iface w w.
Proof.
  unfold same_iface. repeat split; try reflexivity.
  exists []. split; [now rewrite app_nil_r | reflexivity].
Qed.

Lemma same_iface_trans (w1 w2 w3 : World) :
  same_iface w1 w2 -> same_iface w2 w3 -> same_iface w1 w3.
Proof.
  unfold same_iface.
  intros (A1 & A2 & A3 & A4 & A5 & A6 & A7 & n1 & T1 & F1)
         (B1 & B2 & B3 & B4 & B5 & B6 & B7 & n2 & T2 & F2).
  repeat split; try congruence.
  exists (n1 ++ n2). split.
  - rewrite T2, T1. now rewrite app_assoc.
  - rewrite forallb_app, F1, F2. reflexivity.
Qed.

Lemma same_iface_emit (e : Event) (w : World) :
  is_set_flags e = false -> same_iface w (emit e w).
Proof.
  intros He. unfold same_iface, emit; simpl. repeat split; try reflexivity.
  exists [e]. split; [reflexivity | simpl; now rewrite He].
Qed.

Lemma same_iface_with_wireless f (w : World) :
  same_iface w (with_dev (with_wireless f) w).
Proof.
  unfold same_iface; simpl. repeat split; try reflexivity.
  exists []. split; [now rewrite app_nil_r | reflexivity].
Qed.

Lemma same_iface_with_heap f (w : World) : same_iface w (with_heap f w).
Proof.
  unfold same_iface; simpl. repeat split; try reflexivity.
  exists []. split; [now rewrite app_nil_r | reflexivity].
Qed.

Lemma same_iface_with_data f (w : World) : same_iface w (with_data f w).
Proof.
  unfold same_iface; simpl. repeat split; try reflexivity.
  exists []. split; [now rewrite app_nil_r | reflexivity].
Qed.

Lemma same_iface_set_card o (w : World) : same_iface w (with_kernel (set_card o) w).
Proof.
  unfold same_iface; simpl. repeat split; try reflexivity.
  exists []. split; [now rewrite app_nil_r | reflexivity].
Qed.

Create HintDb iface.
#[local] Hint Resolve same_iface_refl same_iface_emit same_iface_with_wireless
  same_iface_with_heap same_iface_with_data same_iface_set_card : iface.

Lemma same_iface_set_essid e (w : World) : same_iface w (nm_device_set_essid e w).
Proof. unfold nm_device_set_essid. repeat case_match; auto with iface. Qed.

Lemma same_iface_set_enc_key k a (w : World) : same_iface w (nm_device_set_enc_key k a w).
Proof. unfold nm_device_set_enc_key. repeat case_match; auto with iface. Qed.

Lemma same_iface_association_pause o (w : World) : same_iface w (association_pause o w).
Proof.
  unfold association_pause, g_usleep.
  eapply same_iface_trans; [apply same_iface_emit | apply same_iface_set_card]. reflexivity.
Qed.

Lemma same_iface_set_best_ap b (w : World) : same_iface w (nm_device_set_best_ap b w).
Proof.
  unfold nm_device_set_best_ap, nm_device_unfreeze_best_ap.
  repeat case_match; auto with iface.
  eapply same_iface_trans; apply same_iface_with_wireless.
Qed.

#[local] Hint Resolve same_iface_set_essid same_iface_set_enc_key
  same_iface_association_pause same_iface_set_best_ap : iface.

(** The answer of nm_device_is_up depends on the interface state only. *)
Lemma same_iface_is_up (w w' : World) :
  same_iface w w' -> fst (nm_device_is_up w') = fst (nm_device_is_up w).
Proof.
  intros (A1 & A2 & A3 & A4 & A5 & A6 & A7 & _).
  unfold nm_device_is_up. rewrite A1, A2, A4, A5, A6.
  repeat case_match; reflexivity.
Qed.

Lemma same_iface_probe (w : World) : same_iface w (snd (nm_device_is_up w)).
Proof. unfold nm_device_is_up. repeat case_match; simpl; auto with iface. Qed.

Lemma set_test_device_up_id (d : NMDevice) :
  set_test_device_up (test_device_up d) d = d.
Proof. destruct d; reflexivity. Qed.

(** Bringing up a device that is up changes nothing and asks the kernel
    for nothing but the flags. *)
Lemma bring_up_when_up (w : World) :
  fst (nm_device_is_up w) = true -> same_iface w (nm_device_bring_up w).
Proof.
  unfold nm_device_is_up, nm_device_bring_up, nm_device_set_up_down.
  destruct (test_device (w_dev w)) eqn:Ht; simpl.
  - intros Hup. unfold same_iface; simpl. rewrite Hup. repeat split; auto.
    exists []. split; [now rewrite app_nil_r | reflexivity].
  - destruct (sock_fails (w_kernel w)); simpl; [discriminate |].
    destruct (gifflags_fails (w_kernel w)); simpl; [discriminate |].
    intros Hup. case_bool_decide; [auto with iface |].
    rewrite Hup. simpl. auto with iface.
Qed.

(** The head of the worker and of a pseudo-scan round, on a device that is
    up: nothing changes. *)
Lemma probe_then_bring_up_when_up (w : World) :
  fst (nm_device_is_up w) = true -> same_iface w (probe_then_bring_up w).
Proof.
  intros Hup. unfold probe_then_bring_up.
  destruct (nm_device_is_up w) as [up w1] eqn:E.
  assert (H1 : same_iface w w1) by (pose proof (same_iface_probe w) as P; now rewrite E in P).
  eapply same_iface_trans; [exact H1 |].
  apply bring_up_when_up. rewrite (same_iface_is_up _ _ H1), E. exact Hup.
Qed.

Lemma same_iface_unchanged (w w' : World) :
  same_iface w w' -> ~ changes_interface_state w w'.
Proof.
  intros (A1 & A2 & A3 & A4 & A5 & A6 & A7 & new & T & F) [H | [H | [f H]]].
  - now apply H.
  - now apply H.
  - rewrite T, drop_app_length in H.
    rewrite forallb_forall in F. apply F in H. discriminate.
Qed.

(** With or without the test in front, the call leaves the same device
    and the same kernel state: the routine that sets the flag looks at the
    flag itself before it writes. *)
Lemma probe_then_bring_up_as_guarded (w : World) :
  w_dev (probe_then_bring_up w) = w_dev (bring_up_if_down w)
  /\ w_kernel (probe_then_bring_up w) = w_kernel (bring_up_if_down w)
  /\ filter (fun e => is_set_flags e = true) (w_trace (probe_then_bring_up w))
     = filter (fun e => is_set_flags e = true) (w_trace (bring_up_if_down w)).
Proof.
  unfold probe_then_bring_up, bring_up_if_down.
  destruct (nm_device_is_up w) as [up w1] eqn:E.
  destruct up; simpl; [| auto].
  assert (H1 : same_iface w w1) by (pose proof (same_iface_probe w) as P; now rewrite E in P).
  assert (Hup : fst (nm_device_is_up w1) = true).
  { rewrite (same_iface_is_up _ _ H1), E. reflexivity. }
  revert Hup. clear.
  unfold nm_device_is_up, nm_device_bring_up, nm_device_set_up_down.
  destruct (test_device (w_dev w1)) eqn:Ht; simpl.
  - intros Hup. rewrite <- Hup. unfold with_dev; simpl.
    rewrite set_test_device_up_id. auto.
  - destruct (sock_fails (w_kernel w1)); simpl; [discriminate |].
    destruct (gifflags_fails (w_kernel w1)); simpl; [discriminate |].
    intros Hup. case_bool_decide; [auto |].
    rewrite Hup. simpl. repeat split; auto.
    rewrite filter_app.
    replace (filter (fun e => is_set_flags e = true) [EvGetIfFlags]) with (@nil Event)
      by reflexivity.
    now rewrite app_nil_r.
Qed.

Section PseudoScan.

Variable nm_ethernet_address_is_valid : ether_addr -> bool.
Variable nm_ap_get_enc_key_hashed : NMAccessPoint -> option string.

(** A pseudo-scan that starts on a device that is up never touches the
    interface flags, however many rounds it takes. *)
Lemma pseudo_scan_loop_when_up (card : nat -> CardObs) (aps : NMAccessPointList) :
  forall (i : nat) (w : World),
    fst (nm_device_is_up w) = true ->
    same_iface w
      (pseudo_scan_loop nm_ethernet_address_is_valid nm_ap_get_enc_key_hashed card i aps w).
Proof.
  induction aps as [| ap rest IH]; intros i w Hup; simpl.
  - apply same_iface_refl.
  - set (w1 := probe_then_bring_up w).
    assert (H1 : same_iface w w1) by now apply probe_then_bring_up_when_up.
    match goal with
    | |- context [association_pause ?o (nm_device_set_essid ?e ?wk)] =>
        set (w2 := wk); set (w4 := association_pause o (nm_device_set_essid e wk))
    end.
    assert (H2 : same_iface w1 w2) by (subst w2; case_match; auto with iface).
    assert (H4 : same_iface w w4).
    { eapply same_iface_trans; [exact H1 |]. eapply same_iface_trans; [exact H2 |].
      subst w4.
      eapply same_iface_trans; [apply same_iface_set_essid | apply same_iface_association_pause]. }
    case_match.
    + eapply same_iface_trans; [exact H4 |].
      eapply same_iface_trans; [apply same_iface_set_best_ap |].
      apply same_iface_emit. reflexivity.
    + eapply same_iface_trans; [exact H4 |].
      apply IH. etransitivity; [apply (same_iface_is_up _ _ H4) | exact Hup].
Qed.

(** C9. At the start of the activation worker, and in the rounds of the
    pseudo-scan, the device is brought up only if it is not already up:
    whenever one of them changes the interface state (the up flag of a
    test device, the kernel's interface flags, or a SIOCSIFFLAGS request),
    the device was not up before. The call to nm_device_bring_up is made
    in every case; on a device that is up it finds the flag set and writes
    nothing. *)
Theorem brought_up_only_if_not_up (card : nat -> CardObs) (w : World) :
  (changes_interface_state w (snd (nm_device_activation_worker_begin w)) ->
   fst (nm_device_is_up w) = false)
  /\ (forall i aps,
        changes_interface_state w
          (pseudo_scan_loop nm_ethernet_address_is_valid nm_ap_get_enc_key_hashed
             card i aps w) ->
        fst (nm_device_is_up w) = false)
  /\ (changes_interface_state w
        (nm_device_do_pseudo_scan nm_ethernet_address_is_valid nm_ap_get_enc_key_hashed
           card w) ->
      fst (nm_device_is_up w) = false).
Proof.
  split; [| split].
  - intros Hc. destruct (fst (nm_device_is_up w)) eqn:Hup; [exfalso | reflexivity].
    revert Hc. apply same_iface_unchanged.
    replace (snd (nm_device_activation_worker_begin w)) with (probe_then_bring_up w).
    + now apply probe_then_bring_up_when_up.
    + unfold nm_device_activation_worker_begin. repeat case_match; reflexivity.
  - intros i aps Hc. destruct (fst (nm_device_is_up w)) eqn:Hup; [exfalso | reflexivity].
    revert Hc. apply same_iface_unchanged. now apply pseudo_scan_loop_when_up.
  - intros Hc. destruct (fst (nm_device_is_up w)) eqn:Hup; [exfalso | reflexivity].
    revert Hc. apply same_iface_unchanged.
    unfold nm_device_do_pseudo_scan. case_match; [apply same_iface_refl |].
    eapply same_iface_trans; [apply same_iface_set_essid |].
    apply pseudo_scan_loop_when_up.
    rewrite (same_iface_is_up _ _ (same_iface_set_essid _ w)). exact Hup.
Qed.

End PseudoScan.

Lemma brought_up_only_if_not_up_witness :
  changes_interface_state sample_world (snd (nm_device_activation_worker_begin sample_world))
  /\ fst (nm_device_is_up sample_world) = false.
Proof.
  assert (Hc : changes_interface_state sample_world
                 (snd (nm_device_activation_worker_begin sample_world))).
  { right; left. vm_compute. discriminate. }
  split; [exact Hc |].
  exact (proj1 (brought_up_only_if_not_up (fun _ => true) ap_enc_key_source
                  (fun _ => card_silent) sample_world) Hc).
Defined.

(** On a card that is up the worker still makes the call: the flags are
    read twice, once by the test and once by nm_device_set_up_down, and
    nothing is written. *)
Lemma worker_begin_on_up_device :
  w_trace (snd (nm_device_activation_worker_begin sample_up_world))
  = [EvGetIfFlags; EvGetIfFlags]
  /\ w_kernel (snd (nm_device_activation_worker_begin sample_up_world))
     = w_kernel sample_up_world.
Proof. split; reflexivity. Qed.

(** ** Starting an activation while the program starts (C5) *)

(** C5, amended. If nm_device_activation_begin is called while the process
    is starting up, on a wired device that already has a non-zero IPv4
    address, whose driver is supported and which is not activating
    already, activation completes at once as a success: no worker thread is
    started, the kernel is not touched, no DeviceStatusChanged(Activating)
    is emitted; the only action is the scheduling of the final success. *)
Theorem activation_begin_startup_shortcut (thread_ok : bool) (w : World) :
  activating (w_dev w) = false ->
  driver_support_level (w_dev w) <> NM_DRIVER_UNSUPPORTED ->
  starting_up (w_data w) = true ->
  nm_device_is_wired (w_dev w) = true ->
  ip4_address (w_dev w) <> 0 ->
  fst (nm_device_activation_begin thread_ok w) = true
  /\ w_trace (snd (nm_device_activation_begin thread_ok w))
     = w_trace w ++ [EvScheduleFinish true]
  /\ w_kernel (snd (nm_device_activation_begin thread_ok w)) = w_kernel w
  /\ activating (w_dev (snd (nm_device_activation_begin thread_ok w))) = false.
Proof.
  intros Hact Hsup Hstart Hwired Hip.
  destruct w as [d dt h k t]. destruct d, dt. simpl in *.
  apply bool_decide_eq_true in Hwired. simpl in Hwired. subst.
  unfold nm_device_activation_begin, nm_device_is_wireless, nm_device_is_wired,
    nm_device_get_driver_support_level, nm_device_get_ip4_address. simpl.
  rewrite bool_decide_eq_false_2 by exact Hsup.
  assert (Hz : (ip4_address0 =? 0) = false) by now apply Z.eqb_neq.
  rewrite Hz. simpl. repeat split; reflexivity.
Qed.

Lemma activation_begin_startup_shortcut_witness :
  fst (nm_device_activation_begin true sample_startup_world) = true
  /\ w_trace (snd (nm_device_activation_begin true sample_startup_world))
     = [EvScheduleFinish true].
Proof.
  pose proof (activation_begin_startup_shortcut true sample_startup_world) as H.
  destruct H as (H1 & H2 & _).
  - reflexivity.
  - simpl. discriminate.
  - reflexivity.
  - reflexivity.
  - simpl. lia.
  - split; [exact H1 | exact H2].
Defined.

(** C5 as stated fails on a device whose driver is not supported: the
    call is refused, and nothing is scheduled. *)
Lemma startup_shortcut_as_stated_fails : ~ startup_shortcut_as_stated.
Proof.
  intros H.
  destruct (H true sample_startup_world_unsupported) as [H1 _].
  - reflexivity.
  - reflexivity.
  - simpl. lia.
  - vm_compute in H1. discriminate.
Qed.

(** What the code does there. *)
Lemma activation_begin_unsupported_refused :
  nm_device_activation_begin true sample_startup_world_unsupported
  = (false, sample_startup_world_unsupported).
Proof. reflexivity. Qed.

(** ** Lookups by ESSID *)

(** "get_by_essid(L, e) returns an AP iff some AP in L has ESSID e". *)
Lemma get_ap_by_essid_is_Some (h : list NMAccessPoint) (l : NMAccessPointList)
    (e : option string) :
  is_Some (nm_ap_list_get_ap_by_essid h l e)
  <-> exists s r, e = Some s /\ In r l /\ nm_ap_get_essid h r = Some s.
Proof.
  unfold nm_ap_list_get_ap_by_essid. destruct e as [s |].
  - split.
    + intros [r Hr]. apply find_some in Hr as [Hin Hm].
      apply bool_decide_eq_true in Hm. eauto.
    + intros (s' & r & Hs & Hin & He). injection Hs as <-.
      destruct (find (ap_has_essid h s) l) eqn:Hf; [eauto |].
      exfalso. eapply find_none in Hf; [| exact Hin].
      apply bool_decide_eq_false in Hf. contradiction.
  - split.
    + intros [r Hr]. discriminate.
    + intros (s & r & Hs & _). discriminate.
Qed.

Lemma get_ap_by_essid_found (h : list NMAccessPoint) (l : NMAccessPointList)
    (e : option string) (r : ap_ref) :
  nm_ap_list_get_ap_by_essid h l e = Some r ->
  In r l /\ nm_ap_get_essid h r = e /\ is_Some e.
Proof.
  unfold nm_ap_list_get_ap_by_essid. destruct e as [s |]; [| discriminate].
  intros Hr. apply find_some in Hr as [Hin Hm].
  apply bool_decide_eq_true in Hm. eauto.
Qed.

Lemma device_get_ap_by_essid_unfold (w : World) (e : option string) :
  nm_device_ap_list_get_ap_by_essid w e
  = nm_ap_list_get_ap_by_essid (w_heap w) (nm_device_ap_list_get w) e.
Proof.
  unfold nm_device_ap_list_get_ap_by_essid, nm_device_ap_list_get.
  destruct (nm_device_is_wireless (w_dev w)); simpl; [reflexivity |].
  destruct e; reflexivity.
Qed.

(** ** A frozen best access point (C3) *)

Lemma keep_frozen_best_ap_spec (w : World) (best : ap_ref) :
  keep_frozen_best_ap w best = true
  <-> (still_visible w best /\ ~ in_invalid_list w best)
      \/ nm_ap_get_user_created (w_heap w) best = true.
Proof.
  unfold keep_frozen_best_ap, still_visible, in_invalid_list.
  rewrite device_get_ap_by_essid_unfold.
  rewrite orb_true_iff, andb_true_iff, negb_true_iff, bool_decide_eq_false,
    bool_decide_eq_true, !get_ap_by_essid_is_Some.
  split.
  - intros [[Hni Hv] | Hu]; [left | now right]. split.
    + destruct Hv as (s & r & He & Hin & Hr). eauto.
    + intros (e & r & He & Hin & Hr). apply Hni. eauto.
  - intros [[Hv Hni] | Hu]; [left | now right]. split.
    + intros (s & r & He & Hin & Hr). apply Hni. eauto.
    + destruct Hv as (e & r & He & Hin & Hr). eauto.
Qed.

Lemma dev_type_set_up_down (up : bool) (w : World) :
  dev_type (w_dev (nm_device_set_up_down up w)) = dev_type (w_dev w).
Proof. unfold nm_device_set_up_down. repeat case_match; reflexivity. Qed.

Lemma dev_type_set_enc_key k a (w : World) :
  dev_type (w_dev (nm_device_set_enc_key k a w)) = dev_type (w_dev w).
Proof. unfold nm_device_set_enc_key. repeat case_match; reflexivity. Qed.

Lemma dev_type_set_essid e (w : World) :
  dev_type (w_dev (nm_device_set_essid e w)) = dev_type (w_dev w).
Proof. unfold nm_device_set_essid. repeat case_match; reflexivity. Qed.

Lemma freeze_flag_set_up_down (up : bool) (w : World) :
  wireless (w_dev (nm_device_set_up_down up w)) = wireless (w_dev w).
Proof. unfold nm_device_set_up_down. repeat case_match; reflexivity. Qed.

Lemma freeze_flag_set_enc_key k a (w : World) :
  wireless (w_dev (nm_device_set_enc_key k a w)) = wireless (w_dev w).
Proof. unfold nm_device_set_enc_key. repeat case_match; reflexivity. Qed.

Lemma freeze_flag_set_essid e (w : World) :
  freeze_best_ap (wopts (nm_device_set_essid e w)) = freeze_best_ap (wopts w)
  /\ best_ap (wopts (nm_device_set_essid e w)) = best_ap (wopts w).
Proof. unfold nm_device_set_essid. repeat case_match; split; reflexivity. Qed.

(** After a recomputation the selection is not frozen. *)
Lemma set_best_ap_unfrozen (b : option nat) (w : World) :
  nm_device_is_best_ap_frozen (nm_device_set_best_ap b w) = false.
Proof.
  unfold nm_device_is_best_ap_frozen, nm_device_set_best_ap, nm_device_unfreeze_best_ap.
  destruct (nm_device_is_wireless (w_dev w)) eqn:Hw; simpl.
  - unfold nm_device_is_wireless in *. simpl. rewrite Hw. simpl. rewrite Hw. reflexivity.
  - now rewrite Hw.
Qed.

Lemma frozen_after_reset (w : World) :
  nm_device_is_best_ap_frozen
    (nm_device_bring_up
       (nm_device_set_enc_key None NM_DEVICE_AUTH_METHOD_NONE
          (nm_device_set_essid (Some " "%string) w)))
  = nm_device_is_best_ap_frozen w.
Proof.
  unfold nm_device_is_best_ap_frozen, nm_device_is_wireless, wopts, nm_device_bring_up.
  rewrite !dev_type_set_up_down, !dev_type_set_enc_key, !dev_type_set_essid.
  rewrite freeze_flag_set_up_down, freeze_flag_set_enc_key.
  fold (wopts (nm_device_set_essid (Some " "%string) w)).
  rewrite (proj1 (freeze_flag_set_essid _ _)). reflexivity.
Qed.

Lemma recompute_best_ap_unfrozen (w : World) :
  nm_device_is_best_ap_frozen (recompute_best_ap w) = false.
Proof.
  unfold recompute_best_ap.
  set (s := best_ap_loop (w_data w) (w_heap w) (nm_device_ap_list_get w)).
  destruct (match trusted_best_ap s with Some t => Some t | None => untrusted_best_ap s end).
  - apply set_best_ap_unfrozen.
  - rewrite frozen_after_reset. apply set_best_ap_unfrozen.
Qed.

(** ** Choosing the best access point (C2) *)

Lemma strip_key_deref (h h' : list NMAccessPoint) (r : ap_ref) :
  strip_key <$> h = strip_key <$> h' -> strip_key (deref h r) = strip_key (deref h' r).
Proof.
  intros H. assert (E : (strip_key <$> h) !! r = (strip_key <$> h') !! r) by now rewrite H.
  rewrite !list_lookup_fmap in E. unfold deref.
  destruct (h !! r), (h' !! r); simpl in *; congruence.
Qed.

Lemma strip_key_essid (h h' : list NMAccessPoint) (r : ap_ref) :
  strip_key <$> h = strip_key <$> h' -> nm_ap_get_essid h r = nm_ap_get_essid h' r.
Proof.
  intros H. apply (strip_key_deref _ _ r) in H. unfold nm_ap_get_essid.
  change (ap_essid (strip_key (deref h r)) = ap_essid (strip_key (deref h' r))).
  now rewrite H.
Qed.

Lemma strip_key_trusted (h h' : list NMAccessPoint) (r : ap_ref) :
  strip_key <$> h = strip_key <$> h' -> nm_ap_get_trusted h r = nm_ap_get_trusted h' r.
Proof.
  intros H. apply (strip_key_deref _ _ r) in H. unfold nm_ap_get_trusted.
  change (ap_trusted (strip_key (deref h r)) = ap_trusted (strip_key (deref h' r))).
  now rewrite H.
Qed.

Lemma strip_key_timestamp (h h' : list NMAccessPoint) (r : ap_ref) :
  strip_key <$> h = strip_key <$> h' -> nm_ap_get_timestamp h r = nm_ap_get_timestamp h' r.
Proof.
  intros H. apply (strip_key_deref _ _ r) in H. unfold nm_ap_get_timestamp.
  change (ap_timestamp (strip_key (deref h r)) = ap_timestamp (strip_key (deref h' r))).
  now rewrite H.
Qed.

Lemma strip_key_get_by_essid (h h' : list NMAccessPoint) (l : NMAccessPointList)
    (e : option string) :
  strip_key <$> h = strip_key <$> h' ->
  nm_ap_list_get_ap_by_essid h l e = nm_ap_list_get_ap_by_essid h' l e.
Proof.
  intros H. unfold nm_ap_list_get_ap_by_essid. destruct e as [s |]; [| reflexivity].
  induction l as [| r l IH]; [reflexivity |]. simpl.
  unfold ap_has_essid at 1 3. rewrite (strip_key_essid h h' r H).
  destruct (bool_decide (nm_ap_get_essid h' r = Some s)); [reflexivity | exact IH].
Qed.

Lemma strip_key_usable_entry (h h' : list NMAccessPoint) (d : NMData) (r : ap_ref) :
  strip_key <$> h = strip_key <$> h' ->
  usable_allowed_entry h d r = usable_allowed_entry h' d r.
Proof.
  intros H. unfold usable_allowed_entry.
  rewrite (strip_key_essid h h' r H), !(strip_key_get_by_essid h h' _ _ H). reflexivity.
Qed.

Lemma strip_key_set_enc_key_source (h : list NMAccessPoint) (r : ap_ref) k m :
  strip_key <$> nm_ap_set_enc_key_source r k m h = strip_key <$> h.
Proof.
  unfold nm_ap_set_enc_key_source.
  rewrite (list_fmap_alter strip_key (set_ap_enc_key_source k m) id).
  - apply list_alter_id. reflexivity.
  - apply Forall_forall. intros a _. reflexivity.
Qed.

Lemma set_ap_enc_key_source_id (a : NMAccessPoint) :
  set_ap_enc_key_source (ap_enc_key_source a) (ap_enc_method a) a = a.
Proof. destruct a; reflexivity. Qed.

(** An access point with an ESSID is an object of the store. *)
Lemma essid_in_store (h : list NMAccessPoint) (r : ap_ref) (e : string) :
  nm_ap_get_essid h r = Some e -> exists a, h !! r = Some a.
Proof.
  unfold nm_ap_get_essid, deref. destruct (h !! r) as [a |]; [eauto | discriminate].
Qed.

(** An Allowed entry is its own entry. *)
Lemma allowed_entry_fixpoint (h : list NMAccessPoint) (l : NMAccessPointList)
    (e : option string) (t : ap_ref) :
  nm_ap_list_get_ap_by_essid h l e = Some t ->
  nm_ap_list_get_ap_by_essid h l (nm_ap_get_essid h t) = Some t.
Proof.
  intros H. destruct (get_ap_by_essid_found _ _ _ _ H) as (_ & He & _).
  now rewrite He.
Qed.

Lemma usable_entry_found (h : list NMAccessPoint) (d : NMData) (r t : ap_ref) :
  usable_allowed_entry h d r = Some t ->
  nm_ap_list_get_ap_by_essid h (allowed_ap_list d) (nm_ap_get_essid h r) = Some t
  /\ exists e, nm_ap_get_essid h r = Some e.
Proof.
  unfold usable_allowed_entry. case_decide; [discriminate |].
  intros Hf. split; [exact Hf |].
  destruct (get_ap_by_essid_found _ _ _ _ Hf) as (_ & _ & [e He]). eauto.
Qed.

(** One round, told the same way for the trusted and the untrusted. *)
Lemma best_ap_round_unfold (d : NMData) (s : best_ap_scan) (x : ap_ref) :
  best_ap_round d s x
  = match usable_allowed_entry (s_heap s) d x with
    | None => s
    | Some t =>
        let b := nm_ap_get_trusted (s_heap s) t in
        if latest_of b s <? tv_sec (nm_ap_get_timestamp (s_heap s) t)
        then select_candidate b x t s else s
    end.
Proof.
  unfold best_ap_round, usable_allowed_entry, select_candidate, latest_of.
  destruct (nm_ap_list_get_ap_by_essid (s_heap s) (invalid_ap_list d)
              (nm_ap_get_essid (s_heap s) x)) as [i |] eqn:Ei.
  - rewrite decide_True by eauto. reflexivity.
  - rewrite decide_False by (intros [? ?]; discriminate).
    destruct (nm_ap_list_get_ap_by_essid (s_heap s) (allowed_ap_list d)
                (nm_ap_get_essid (s_heap s) x)) as [t |]; [| reflexivity].
    destruct (nm_ap_get_trusted (s_heap s) t); simpl;
      repeat case_match; reflexivity.
Qed.

Section SelectionLoop.

Variable h0 : list NMAccessPoint.
Variable d : NMData.

Lemma sel_inv_latest_nonneg p b s : sel_inv h0 d p b s -> 0 <= latest_of b s.
Proof.
  unfold sel_inv. destruct (best_of b s).
  - intros [(i & _ & _ & H & _) _]. lia.
  - intros [H _]. lia.
Qed.

(** The next access point is no candidate of this kind. *)
Lemma sel_inv_snoc_other p b s s' x :
  sel_inv h0 d p b s ->
  candidate_timestamp h0 d b x = None ->
  best_of b s' = best_of b s ->
  latest_of b s' = latest_of b s ->
  (forall r, best_of b s = Some r ->
             nm_ap_get_enc_key_source (s_heap s') r = nm_ap_get_enc_key_source (s_heap s) r
             /\ nm_ap_get_enc_method (s_heap s') r = nm_ap_get_enc_method (s_heap s) r) ->
  sel_inv h0 d (p ++ [x]) b s'.
Proof.
  unfold sel_inv. intros Hs Hc Hb Hl Hk. rewrite Hb, Hl.
  destruct (best_of b s) as [r |].
  - destruct Hs as [(i & Hi & Hci & Hpos & Hmax) (t & Ht & Hk1 & Hk2)].
    destruct (Hk r eq_refl) as [Hk3 Hk4]. split.
    + exists i. split; [now apply lookup_app_l_Some |]. split; [exact Hci |].
      split; [exact Hpos |]. intros j r' ts' Hj Hc'.
      apply lookup_snoc_Some in Hj as [[_ Hj] | [_ <-]]; [eauto | congruence].
    + exists t. rewrite Hk3, Hk4. auto.
  - destruct Hs as [H0 Hn]. split; [exact H0 |]. intros j r ts Hj Hc'.
    apply lookup_snoc_Some in Hj as [[_ Hj] | [_ <-]]; [eauto | congruence].
Qed.

(** The next access point is a candidate, not later than the best so far. *)
Lemma sel_inv_snoc_le p b s x ts :
  sel_inv h0 d p b s ->
  candidate_timestamp h0 d b x = Some ts ->
  ts <= latest_of b s ->
  sel_inv h0 d (p ++ [x]) b s.
Proof.
  unfold sel_inv. intros Hs Hc Hle.
  destruct (best_of b s) as [r |].
  - destruct Hs as [(i & Hi & Hci & Hpos & Hmax) Hk]. split; [| exact Hk].
    exists i. split; [now apply lookup_app_l_Some |]. split; [exact Hci |].
    split; [exact Hpos |]. intros j r' ts' Hj Hc'.
    apply lookup_snoc_Some in Hj as [[_ Hj] | [Hj <-]]; [eauto |].
    assert (ts' = ts) by congruence. subst ts'. split; [exact Hle |].
    intros _. apply lookup_lt_Some in Hi. lia.
  - destruct Hs as [H0 Hn]. split; [exact H0 |]. intros j r ts' Hj Hc'.
    apply lookup_snoc_Some in Hj as [[_ Hj] | [_ <-]]; [eauto |].
    assert (ts' = ts) by congruence. lia.
Qed.

(** The next access point is a later candidate: it becomes the best. *)
Lemma sel_inv_snoc_new p b s s' x ts :
  sel_inv h0 d p b s ->
  candidate_timestamp h0 d b x = Some ts ->
  latest_of b s < ts ->
  best_of b s' = Some x ->
  latest_of b s' = ts ->
  (exists t, usable_allowed_entry h0 d x = Some t
             /\ nm_ap_get_enc_key_source (s_heap s') x = nm_ap_get_enc_key_source h0 t
             /\ nm_ap_get_enc_method (s_heap s') x = nm_ap_get_enc_method h0 t) ->
  sel_inv h0 d (p ++ [x]) b s'.
Proof.
  intros Hs Hc Hlt Hb Hl Hk. pose proof (sel_inv_latest_nonneg _ _ _ Hs) as Hnn.
  unfold sel_inv in *. rewrite Hb, Hl. split; [| exact Hk].
  exists (length p). split; [apply list_lookup_middle; reflexivity |].
  split; [exact Hc |]. split; [lia |]. intros j r' ts' Hj Hc'.
  apply lookup_snoc_Some in Hj as [[Hlen Hj] | [Hj <-]].
  - destruct (best_of b s) as [r |].
    + destruct Hs as [(i & Hi & Hci & Hpos & Hmax) _].
      destruct (Hmax _ _ _ Hj Hc'). split; lia.
    + destruct Hs as [H0 Hn]. specialize (Hn _ _ _ Hj Hc'). split; lia.
  - assert (ts' = ts) by congruence. split; lia.
Qed.

Lemma candidate_timestamp_of_entry x t :
  usable_allowed_entry h0 d x = Some t ->
  candidate_timestamp h0 d (nm_ap_get_trusted h0 t) x
  = Some (tv_sec (nm_ap_get_timestamp h0 t))
  /\ candidate_timestamp h0 d (negb (nm_ap_get_trusted h0 t)) x = None.
Proof.
  intros Hu. unfold candidate_timestamp. rewrite Hu. split.
  - now rewrite bool_decide_eq_true_2.
  - rewrite bool_decide_eq_false_2; [reflexivity |].
    destruct (nm_ap_get_trusted h0 t); discriminate.
Qed.

Lemma candidate_timestamp_no_entry b x :
  usable_allowed_entry h0 d x = None -> candidate_timestamp h0 d b x = None.
Proof. intros Hu. unfold candidate_timestamp. now rewrite Hu. Qed.

Lemma best_of_select b x t s : best_of b (select_candidate b x t s) = Some x.
Proof. destruct b; reflexivity. Qed.

Lemma best_of_select_other b x t s :
  best_of (negb b) (select_candidate b x t s) = best_of (negb b) s.
Proof. destruct b; reflexivity. Qed.

Lemma latest_of_select b x t s :
  latest_of b (select_candidate b x t s) = tv_sec (nm_ap_get_timestamp (s_heap s) t).
Proof. destruct b; reflexivity. Qed.

Lemma latest_of_select_other b x t s :
  latest_of (negb b) (select_candidate b x t s) = latest_of (negb b) s.
Proof. destruct b; reflexivity. Qed.

Lemma s_heap_select b x t s :
  s_heap (select_candidate b x t s)
  = nm_ap_set_enc_key_source x (nm_ap_get_enc_key_source (s_heap s) t)
      (nm_ap_get_enc_method (s_heap s) t) (s_heap s).
Proof. destruct b; reflexivity. Qed.

(** Reading the key material after it was written on [x]. *)
Lemma get_key_after_set h x k m r :
  nm_ap_get_enc_key_source (nm_ap_set_enc_key_source x k m h) r
  = (if decide (x = r) then
       match h !! r with Some _ => k | None => None end
     else nm_ap_get_enc_key_source h r)
  /\ nm_ap_get_enc_method (nm_ap_set_enc_key_source x k m h) r
     = (if decide (x = r) then
          match h !! r with Some _ => m | None => NM_ENC_TYPE_UNKNOWN end
        else nm_ap_get_enc_method h r).
Proof.
  unfold nm_ap_get_enc_key_source, nm_ap_get_enc_method, nm_ap_set_enc_key_source, deref.
  case_decide as Hx.
  - subst r. rewrite list_lookup_alter_eq. destruct (h !! x); split; reflexivity.
  - rewrite list_lookup_alter_ne by exact Hx. split; reflexivity.
Qed.

(** One round keeps what the loop maintains. *)
Lemma loop_inv_step p s x :
  loop_inv h0 d p s -> loop_inv h0 d (p ++ [x]) (best_ap_round d s x).
Proof.
  intros (Hst & Hent & Ht & Hu & Hnone).
  assert (Hsel : forall b, sel_inv h0 d p b s) by (intros [|]; assumption).
  rewrite best_ap_round_unfold, (strip_key_usable_entry _ h0 d x Hst).
  destruct (usable_allowed_entry h0 d x) as [t |] eqn:Eu.
  - cbv zeta.
    rewrite (strip_key_trusted _ h0 t Hst), (strip_key_timestamp _ h0 t Hst).
    destruct (candidate_timestamp_of_entry x t Eu) as [Hc Hcn].
    remember (nm_ap_get_trusted h0 t) as b eqn:Eb.
    remember (tv_sec (nm_ap_get_timestamp h0 t)) as ts eqn:Ets.
    destruct (usable_entry_found _ _ _ _ Eu) as [Hfind [e He]].
    assert (Hentry_t : s_heap s !! t = h0 !! t) by (eapply Hent; exact Hfind).
    destruct (essid_in_store _ _ _ He) as [a Ha].
    assert (Hsx : exists a', s_heap s !! x = Some a').
    { apply (essid_in_store _ _ e). now rewrite (strip_key_essid _ h0 x Hst). }
    destruct Hsx as [a' Ha'].
    destruct (latest_of b s <? ts) eqn:Elt.
    + apply Z.ltb_lt in Elt.
      set (s' := select_candidate b x t s).
      assert (Hkey_t :
        nm_ap_get_enc_key_source (s_heap s) t = nm_ap_get_enc_key_source h0 t
        /\ nm_ap_get_enc_method (s_heap s) t = nm_ap_get_enc_method h0 t).
      { unfold nm_ap_get_enc_key_source, nm_ap_get_enc_method, deref.
        now rewrite Hentry_t. }
      assert (Hsel' : forall b', sel_inv h0 d (p ++ [x]) b' s').
      { intros b'. destruct (decide (b' = b)) as [-> | Hne].
        - eapply sel_inv_snoc_new; eauto.
          + apply best_of_select.
          + subst s'. rewrite latest_of_select.
            now rewrite (strip_key_timestamp _ h0 t Hst).
          + exists t. split; [exact Eu |]. subst s'. rewrite s_heap_select.
            destruct (get_key_after_set (s_heap s) x
                        (nm_ap_get_enc_key_source (s_heap s) t)
                        (nm_ap_get_enc_method (s_heap s) t) x) as [K1 K2].
            rewrite K1, K2. rewrite !decide_True by reflexivity.
            rewrite Ha'. exact Hkey_t.
        - assert (b' = negb b) by (destruct b', b; simpl; congruence). subst b'.
          eapply sel_inv_snoc_other; eauto.
          + apply best_of_select_other.
          + apply latest_of_select_other.
          + intros r Hr. subst s'. rewrite s_heap_select.
            destruct (get_key_after_set (s_heap s) x
                        (nm_ap_get_enc_key_source (s_heap s) t)
                        (nm_ap_get_enc_method (s_heap s) t) r) as [K1 K2].
            rewrite K1, K2. rewrite !decide_False; [auto | |].
            all: intros ->; specialize (Hsel (negb b)); unfold sel_inv in Hsel;
              rewrite Hr in Hsel; destruct Hsel as [(i & _ & Hci & _) _]; congruence. }
      unfold loop_inv. split; [| split; [| split; [| split]]].
      * subst s'. rewrite s_heap_select, strip_key_set_enc_key_source. exact Hst.
      * intros e' t' Hf'. subst s'. rewrite s_heap_select.
        unfold nm_ap_set_enc_key_source.
        destruct (decide (x = t')) as [<- | Hne].
        -- rewrite list_lookup_alter_eq, <- (Hent _ _ Hf'), Ha'. simpl. f_equal.
           assert (t = x).
           { apply allowed_entry_fixpoint in Hf'. congruence. }
           subst t. unfold nm_ap_get_enc_key_source, nm_ap_get_enc_method, deref.
           rewrite Ha'. simpl. apply set_ap_enc_key_source_id.
        -- rewrite list_lookup_alter_ne by exact Hne. eauto.
      * apply Hsel'.
      * apply Hsel'.
      * intros H1 H2. exfalso. subst s'. destruct b.
        -- rewrite (best_of_select true) in H1. discriminate.
        -- rewrite (best_of_select false) in H2. discriminate.
    + apply Z.ltb_ge in Elt.
      assert (Hsel' : forall b', sel_inv h0 d (p ++ [x]) b' s).
      { intros b'. destruct (decide (b' = b)) as [-> | Hne].
        - eapply sel_inv_snoc_le; eauto.
        - assert (b' = negb b) by (destruct b', b; simpl; congruence). subst b'.
          eapply sel_inv_snoc_other; eauto. }
      unfold loop_inv. repeat split; auto.
  - assert (Hsel' : forall b', sel_inv h0 d (p ++ [x]) b' s).
    { intros b'. eapply sel_inv_snoc_other; eauto.
      now apply candidate_timestamp_no_entry. }
    unfold loop_inv. repeat split; auto.
Qed.

Lemma loop_inv_init : loop_inv h0 d [] (best_ap_scan_init h0).
Proof.
  unfold loop_inv, sel_inv, no_candidate. simpl.
  repeat split; auto; intros j r ts Hj; discriminate.
Qed.

(** The loop, over the whole list. *)
Lemma loop_inv_loop l : loop_inv h0 d l (best_ap_loop d h0 l).
Proof.
  unfold best_ap_loop. induction l as [| x l IH] using rev_ind.
  - apply loop_inv_init.
  - rewrite fold_left_app. simpl. now apply loop_inv_step.
Qed.

End SelectionLoop.

Lemma with_heap_same (w : World) : with_heap (fun _ => w_heap w) w = w.
Proof. destruct w; reflexivity. Qed.

Lemma best_ap_after_reset (w : World) :
  nm_device_get_best_ap
    (nm_device_bring_up
       (nm_device_set_enc_key None NM_DEVICE_AUTH_METHOD_NONE
          (nm_device_set_essid (Some " "%string) w)))
  = nm_device_get_best_ap w.
Proof.
  unfold nm_device_get_best_ap, nm_device_is_wireless, wopts, nm_device_bring_up.
  rewrite !dev_type_set_up_down, !dev_type_set_enc_key, !dev_type_set_essid.
  rewrite freeze_flag_set_up_down, freeze_flag_set_enc_key.
  fold (wopts (nm_device_set_essid (Some " "%string) w)).
  rewrite (proj2 (freeze_flag_set_essid _ _)). reflexivity.
Qed.

Lemma get_best_ap_set_best_ap (b : option nat) (w : World) :
  nm_device_is_wireless (w_dev w) = true ->
  nm_device_get_best_ap (nm_device_set_best_ap b w) = b
  /\ w_heap (nm_device_set_best_ap b w) = w_heap w.
Proof.
  intros Hw.
  unfold nm_device_get_best_ap, nm_device_set_best_ap, nm_device_unfreeze_best_ap.
  rewrite Hw. simpl. unfold nm_device_is_wireless in *. simpl. rewrite Hw. simpl.
  rewrite Hw. split; reflexivity.
Qed.

Lemma sel_inv_best_candidate h0 d l b s r :
  sel_inv h0 d l b s -> best_of b s = Some r ->
  best_candidate h0 d l b r
  /\ exists t, usable_allowed_entry h0 d r = Some t
               /\ nm_ap_get_enc_key_source (s_heap s) r = nm_ap_get_enc_key_source h0 t
               /\ nm_ap_get_enc_method (s_heap s) r = nm_ap_get_enc_method h0 t.
Proof.
  unfold sel_inv. intros Hs Hb. rewrite Hb in Hs.
  destruct Hs as [(i & Hi & Hc & Hpos & Hmax) Hk]. split; [| exact Hk].
  exists i, (latest_of b s). auto.
Qed.

Lemma sel_inv_no_candidate h0 d l b s :
  sel_inv h0 d l b s -> best_of b s = None -> no_candidate h0 d l b.
Proof. unfold sel_inv. intros Hs Hb. rewrite Hb in Hs. apply Hs. Qed.

Lemma usable_entry_not_invalid h d r t :
  usable_allowed_entry h d r = Some t ->
  nm_ap_list_get_ap_by_essid h (invalid_ap_list d) (nm_ap_get_essid h r) = None.
Proof.
  unfold usable_allowed_entry. case_decide as Hi; [discriminate |]. intros _.
  destruct (nm_ap_list_get_ap_by_essid h (invalid_ap_list d) (nm_ap_get_essid h r));
    [exfalso; apply Hi; eauto | reflexivity].
Qed.

(** C2, amended. When the best-AP selection is not frozen,
    nm_device_update_best_ap skips every visible AP whose ESSID is in the
    Invalid list; among the APs matching an Allowed entry it tracks the
    trusted and the untrusted candidate whose entry has the highest
    timestamp, counted in whole seconds, counting only timestamps greater
    than zero and keeping the earliest AP of the list on a tie; the entry's
    key material is copied onto the candidate; the trusted candidate is
    picked if there is one, else the untrusted one, else none; with none
    left it sets the radio's ESSID to a single space, disables the
    encryption key and brings the interface up. *)
Theorem update_best_ap_selection (w : World) :
  nm_device_is_wireless (w_dev w) = true ->
  nm_device_is_best_ap_frozen w = false ->
  match nm_device_get_best_ap (nm_device_update_best_ap w) with
  | Some r =>
      (best_candidate (w_heap w) (w_data w) (nm_device_ap_list_get w) true r
       \/ (no_candidate (w_heap w) (w_data w) (nm_device_ap_list_get w) true
           /\ best_candidate (w_heap w) (w_data w) (nm_device_ap_list_get w) false r))
      /\ nm_ap_list_get_ap_by_essid (w_heap w) (invalid_ap_list (w_data w))
           (nm_ap_get_essid (w_heap w) r) = None
      /\ exists t,
           usable_allowed_entry (w_heap w) (w_data w) r = Some t
           /\ nm_ap_get_enc_key_source (w_heap (nm_device_update_best_ap w)) r
              = nm_ap_get_enc_key_source (w_heap w) t
           /\ nm_ap_get_enc_method (w_heap (nm_device_update_best_ap w)) r
              = nm_ap_get_enc_method (w_heap w) t
  | None =>
      no_candidate (w_heap w) (w_data w) (nm_device_ap_list_get w) true
      /\ no_candidate (w_heap w) (w_data w) (nm_device_ap_list_get w) false
      /\ nm_device_update_best_ap w
         = nm_device_bring_up
             (nm_device_set_enc_key None NM_DEVICE_AUTH_METHOD_NONE
                (nm_device_set_essid (Some " "%string) (nm_device_set_best_ap None w)))
  end.
Proof.
  intros Hw Hf. unfold nm_device_update_best_ap. rewrite Hw, Hf. simpl.
  unfold recompute_best_ap.
  pose proof (loop_inv_loop (w_heap w) (w_data w) (nm_device_ap_list_get w)) as Hinv.
  set (s := best_ap_loop (w_data w) (w_heap w) (nm_device_ap_list_get w)) in *.
  destruct Hinv as (Hst & Hent & Ht & Hu & Hnone).
  assert (Hset : forall b,
    nm_device_get_best_ap (nm_device_set_best_ap b (with_heap (fun _ => s_heap s) w)) = b
    /\ w_heap (nm_device_set_best_ap b (with_heap (fun _ => s_heap s) w)) = s_heap s).
  { intros b. apply get_best_ap_set_best_ap. exact Hw. }
  destruct (trusted_best_ap s) as [r |] eqn:Et.
  - change (best_of true s = Some r) in Et.
    destruct (sel_inv_best_candidate _ _ _ _ _ _ Ht Et) as [Hb (t & Hk)].
    destruct (Hset (Some r)) as [-> ->]. split; [now left |]. split; [| eauto].
    destruct Hk as [Hk _]. eapply usable_entry_not_invalid; eauto.
  - change (best_of true s = None) in Et.
    destruct (untrusted_best_ap s) as [r |] eqn:Eu.
    + change (best_of false s = Some r) in Eu.
      destruct (sel_inv_best_candidate _ _ _ _ _ _ Hu Eu) as [Hb (t & Hk)].
      destruct (Hset (Some r)) as [-> ->].
      split; [right; split; [eapply sel_inv_no_candidate; eauto | exact Hb] |].
      split; [| eauto]. destruct Hk as [Hk _]. eapply usable_entry_not_invalid; eauto.
    + change (best_of false s = None) in Eu.
      rewrite best_ap_after_reset. destruct (Hset None) as [-> _].
      split; [eapply sel_inv_no_candidate; eauto |].
      split; [eapply sel_inv_no_candidate; eauto |].
      rewrite (Hnone Et Eu), with_heap_same. reflexivity.
Qed.

Lemma update_best_ap_selection_witness :
  exists t,
    usable_allowed_entry (w_heap sample_selection_world) (w_data sample_selection_world)
      1%nat = Some t
    /\ nm_ap_get_enc_key_source
         (w_heap (nm_device_update_best_ap sample_selection_world)) 1%nat
       = nm_ap_get_enc_key_source (w_heap sample_selection_world) t
    /\ nm_ap_get_enc_method
         (w_heap (nm_device_update_best_ap sample_selection_world)) 1%nat
       = nm_ap_get_enc_method (w_heap sample_selection_world) t.
Proof.
  pose proof (update_best_ap_selection sample_selection_world eq_refl eq_refl) as H.
  change (nm_device_get_best_ap (nm_device_update_best_ap sample_selection_world))
    with (Some 1%nat) in H.
  exact (proj2 (proj2 H)).
Defined.

(** The trusted "home" wins over the later, untrusted "cafe", and
    carries the key of its Allowed entry. *)
Lemma update_best_ap_selection_example :
  nm_device_get_best_ap (nm_device_update_best_ap sample_selection_world) = Some 1%nat
  /\ nm_ap_get_enc_key_source
       (w_heap (nm_device_update_best_ap sample_selection_world)) 1%nat
     = Some "deadbeef01"%string.
Proof. split; reflexivity. Qed.

(** C2 as stated fails when the only trusted candidate has a timestamp of
    zero seconds: it is the candidate with the highest timestamp, and no
    best AP is chosen. *)
Lemma best_ap_choice_as_stated_fails : ~ best_ap_choice_as_stated.
Proof.
  intros H.
  destruct (H sample_zero_timestamp_world eq_refl eq_refl) as (r & Hr & _).
  - exists 0%nat, 0%nat, 0. split; [reflexivity |]. split; [reflexivity |].
    intros [| j] r' ts' Hj Hc; [| discriminate].
    injection Hj as <-. vm_compute in Hc. injection Hc as <-. lia.
  - vm_compute in Hr. discriminate.
Qed.

(** What the code does there. *)
Lemma zero_timestamp_never_chosen :
  nm_device_get_best_ap (nm_device_update_best_ap sample_zero_timestamp_world) = None.
Proof. reflexivity. Qed.

(** ** A frozen selection *)

(** What the selection loop and the steps after it give, whatever the
    freeze flag was. *)
Lemma recompute_best_ap_selection (w : World) :
  nm_device_is_wireless (w_dev w) = true ->
  match nm_device_get_best_ap (recompute_best_ap w) with
  | Some r =>
      (best_candidate (w_heap w) (w_data w) (nm_device_ap_list_get w) true r
       \/ (no_candidate (w_heap w) (w_data w) (nm_device_ap_list_get w) true
           /\ best_candidate (w_heap w) (w_data w) (nm_device_ap_list_get w) false r))
      /\ nm_ap_list_get_ap_by_essid (w_heap w) (invalid_ap_list (w_data w))
           (nm_ap_get_essid (w_heap w) r) = None
      /\ exists t,
           usable_allowed_entry (w_heap w) (w_data w) r = Some t
           /\ nm_ap_get_enc_key_source (w_heap (recompute_best_ap w)) r
              = nm_ap_get_enc_key_source (w_heap w) t
           /\ nm_ap_get_enc_method (w_heap (recompute_best_ap w)) r
              = nm_ap_get_enc_method (w_heap w) t
  | None =>
      no_candidate (w_heap w) (w_data w) (nm_device_ap_list_get w) true
      /\ no_candidate (w_heap w) (w_data w) (nm_device_ap_list_get w) false
      /\ recompute_best_ap w
         = nm_device_bring_up
             (nm_device_set_enc_key None NM_DEVICE_AUTH_METHOD_NONE
                (nm_device_set_essid (Some " "%string) (nm_device_set_best_ap None w)))
  end.
Proof.
  intros Hw. unfold recompute_best_ap.
  pose proof (loop_inv_loop (w_heap w) (w_data w) (nm_device_ap_list_get w)) as Hinv.
  set (s := best_ap_loop (w_data w) (w_heap w) (nm_device_ap_list_get w)) in *.
  destruct Hinv as (Hst & Hent & Ht & Hu & Hnone).
  assert (Hset : forall b,
    nm_device_get_best_ap (nm_device_set_best_ap b (with_heap (fun _ => s_heap s) w)) = b
    /\ w_heap (nm_device_set_best_ap b (with_heap (fun _ => s_heap s) w)) = s_heap s).
  { intros b. apply get_best_ap_set_best_ap. exact Hw. }
  destruct (trusted_best_ap s) as [r |] eqn:Et.
  - change (best_of true s = Some r) in Et.
    destruct (sel_inv_best_candidate _ _ _ _ _ _ Ht Et) as [Hb (t & Hk)].
    destruct (Hset (Some r)) as [-> ->]. split; [now left |]. split; [| eauto].
    destruct Hk as [Hk _]. eapply usable_entry_not_invalid; eauto.
  - change (best_of true s = None) in Et.
    destruct (untrusted_best_ap s) as [r |] eqn:Eu.
    + change (best_of false s = Some r) in Eu.
      destruct (sel_inv_best_candidate _ _ _ _ _ _ Hu Eu) as [Hb (t & Hk)].
      destruct (Hset (Some r)) as [-> ->].
      split; [right; split; [eapply sel_inv_no_candidate; eauto | exact Hb] |].
      split; [| eauto]. destruct Hk as [Hk _]. eapply usable_entry_not_invalid; eauto.
    + change (best_of false s = None) in Eu.
      rewrite best_ap_after_reset. destruct (Hset None) as [-> _].
      split; [eapply sel_inv_no_candidate; eauto |].
      split; [eapply sel_inv_no_candidate; eauto |].
      rewrite (Hnone Et Eu), with_heap_same. reflexivity.
Qed.

(** Clearing the freeze flag changes nothing the selection looks at. *)
Lemma unfreeze_best_ap_frame (w : World) :
  w_heap (nm_device_unfreeze_best_ap w) = w_heap w
  /\ w_data (nm_device_unfreeze_best_ap w) = w_data w
  /\ nm_device_ap_list_get (nm_device_unfreeze_best_ap w) = nm_device_ap_list_get w
  /\ nm_device_is_wireless (w_dev (nm_device_unfreeze_best_ap w))
     = nm_device_is_wireless (w_dev w).
Proof.
  unfold nm_device_unfreeze_best_ap, nm_device_ap_list_get.
  destruct (nm_device_is_wireless (w_dev w)) eqn:Hw; simpl; [| now rewrite Hw].
  unfold nm_device_is_wireless in *. simpl. rewrite Hw. auto.
Qed.

(** C3. If the best AP is frozen, nm_device_update_best_ap keeps the
    current selection unchanged exactly when the frozen AP is either still
    present in the device's visible AP list and not in the Invalid list, or
    is user-created; otherwise it clears the freeze flag and recomputes the
    selection. Presence in a list is by ESSID. Recomputing is what an
    update of the unfrozen device does: the new best AP is the trusted
    candidate of the visible list, else the untrusted one, with the key
    material of its Allowed entry, and with no candidate there is no best
    AP and the radio is reset. *)
Theorem frozen_best_ap_kept_exactly_when (w : World) :
  nm_device_is_wireless (w_dev w) = true ->
  nm_device_is_best_ap_frozen w = true ->
  (nm_device_update_best_ap w = w <-> frozen_ap_holds w)
  /\ (~ frozen_ap_holds w ->
      let w' := nm_device_update_best_ap w in
      w' = recompute_best_ap (nm_device_unfreeze_best_ap w)
      /\ nm_device_is_best_ap_frozen w' = false
      /\ w' = nm_device_update_best_ap (nm_device_unfreeze_best_ap w)
      /\ match nm_device_get_best_ap w' with
         | Some r =>
             (best_candidate (w_heap w) (w_data w) (nm_device_ap_list_get w) true r
              \/ (no_candidate (w_heap w) (w_data w) (nm_device_ap_list_get w) true
                  /\ best_candidate (w_heap w) (w_data w) (nm_device_ap_list_get w)
                       false r))
             /\ nm_ap_list_get_ap_by_essid (w_heap w) (invalid_ap_list (w_data w))
                  (nm_ap_get_essid (w_heap w) r) = None
             /\ exists t,
                  usable_allowed_entry (w_heap w) (w_data w) r = Some t
                  /\ nm_ap_get_enc_key_source (w_heap w') r
                     = nm_ap_get_enc_key_source (w_heap w) t
                  /\ nm_ap_get_enc_method (w_heap w') r
                     = nm_ap_get_enc_method (w_heap w) t
         | None =>
             no_candidate (w_heap w) (w_data w) (nm_device_ap_list_get w) true
             /\ no_candidate (w_heap w) (w_data w) (nm_device_ap_list_get w) false
             /\ w' = nm_device_bring_up
                       (nm_device_set_enc_key None NM_DEVICE_AUTH_METHOD_NONE
                          (nm_device_set_essid (Some " "%string)
                             (nm_device_set_best_ap None
                                (nm_device_unfreeze_best_ap w))))
         end).
Proof.
  intros Hw Hf.
  assert (Hcases :
    (frozen_ap_holds w /\ nm_device_update_best_ap w = w)
    \/ (~ frozen_ap_holds w
        /\ nm_device_update_best_ap w = recompute_best_ap (nm_device_unfreeze_best_ap w))).
  { unfold nm_device_update_best_ap, frozen_ap_holds. rewrite Hw, Hf. simpl.
    destruct (nm_device_get_best_ap w) as [best |] eqn:Hb.
    - destruct (keep_frozen_best_ap w best) eqn:Hk.
      + left. split; [| reflexivity]. exists best. split; [reflexivity |].
        now apply keep_frozen_best_ap_spec.
      + right. split; [| reflexivity]. intros (b & Hb' & Hr). injection Hb' as <-.
        apply keep_frozen_best_ap_spec in Hr. congruence.
    - right. split; [| reflexivity]. intros (b & Hb' & _). discriminate. }
  destruct Hcases as [[Hh He] | [Hn He]].
  - split; [tauto | intros Hn; contradiction].
  - assert (Hu : nm_device_is_best_ap_frozen (nm_device_update_best_ap w) = false).
    { rewrite He. apply recompute_best_ap_unfrozen. }
    split.
    { split; [| intros Hh; contradiction].
      intros Heq. rewrite Heq in Hu. congruence. }
    intros _. cbv zeta.
    destruct (unfreeze_best_ap_frame w) as (Fh & Fd & Fl & Fw).
    assert (Hw0 : nm_device_is_wireless (w_dev (nm_device_unfreeze_best_ap w)) = true)
      by (now rewrite Fw).
    assert (Hf0 : nm_device_is_best_ap_frozen (nm_device_unfreeze_best_ap w) = false).
    { unfold nm_device_is_best_ap_frozen, nm_device_unfreeze_best_ap.
      rewrite Hw. simpl. unfold nm_device_is_wireless in *. simpl. now rewrite Hw. }
    split; [exact He |]. split; [exact Hu |]. split.
    { rewrite He. unfold nm_device_update_best_ap at 1. now rewrite Hw0, Hf0. }
    pose proof (recompute_best_ap_selection (nm_device_unfreeze_best_ap w) Hw0) as S.
    rewrite Fh, Fd, Fl in S. rewrite He. exact S.
Qed.

Lemma frozen_best_ap_kept_exactly_when_witness :
  let w := sample_frozen_gone_world in
  (nm_device_is_wireless (w_dev w) = true
   /\ nm_device_is_best_ap_frozen w = true
   /\ ~ frozen_ap_holds w)
  /\ nm_device_update_best_ap sample_frozen_world = sample_frozen_world
  /\ nm_device_is_best_ap_frozen (nm_device_update_best_ap w) = false
  /\ nm_device_get_best_ap (nm_device_update_best_ap w) = Some 1%nat
  /\ exists t,
       usable_allowed_entry (w_heap w) (w_data w) 1%nat = Some t
       /\ nm_ap_get_enc_key_source (w_heap (nm_device_update_best_ap w)) 1%nat
          = nm_ap_get_enc_key_source (w_heap w) t
       /\ nm_ap_get_enc_method (w_heap (nm_device_update_best_ap w)) 1%nat
          = nm_ap_get_enc_method (w_heap w) t.
Proof.
  intros w.
  assert (Hw : nm_device_is_wireless (w_dev w) = true) by reflexivity.
  assert (Hf : nm_device_is_best_ap_frozen w = true) by reflexivity.
  assert (Hn : ~ frozen_ap_holds w).
  { intros (best & Hb & Hr). apply keep_frozen_best_ap_spec in Hr.
    injection Hb as <-. vm_compute in Hr. discriminate. }
  assert (Hkept : nm_device_update_best_ap sample_frozen_world = sample_frozen_world).
  { apply (proj1 (frozen_best_ap_kept_exactly_when sample_frozen_world eq_refl eq_refl)).
    exists 0%nat. split; [reflexivity |]. left. split.
    - exists "lab"%string, 0%nat. repeat split. simpl. auto.
    - intros (e & r & _ & Hin & _). exact Hin. }
  destruct (frozen_best_ap_kept_exactly_when w Hw Hf) as (_ & R).
  destruct (R Hn) as (_ & Hu & _ & S).
  change (nm_device_get_best_ap (nm_device_update_best_ap w)) with (Some 1%nat) in S.
  split; [auto |]. split; [exact Hkept |]. split; [exact Hu |].
  split; [reflexivity | exact (proj2 (proj2 S))].
Defined.

(** Scenario 6 of the specification: the frozen AP "lab" is gone from the
    scan; the freeze is cleared, and with no other candidate the radio is
    reset and the interface brought up. *)
Lemma frozen_ap_disappears_example :
  let w := wireless_world [scanned_ap "lab" false] [] [] [] (Some 0%nat) true in
  nm_device_get_best_ap (nm_device_update_best_ap w) = None
  /\ nm_device_is_best_ap_frozen (nm_device_update_best_ap w) = false
  /\ w_trace (nm_device_update_best_ap w)
     = [EvSetEssid " "; EvSetEncode None 0x8800; EvGetIfFlags; EvSetIfFlags 1].
Proof. repeat split. Qed.

(** ** The reply to a key request (C4) *)

(** The test [strncmp (key, cancel_message, strlen (cancel_message)) == 0]
    holds of the replies that begin with the message. *)
Lemma strncmp_eq_prefix (msg key : string) :
  strncmp_eq key msg (String.length msg) = String.prefix msg key.
Proof.
  revert key. induction msg as [| b msg IH]; intros key; simpl.
  - destruct key; reflexivity.
  - destruct key as [| a key]; [reflexivity |].
    cbn [strncmp_eq String.prefix]. rewrite IH. destruct (Ascii.ascii_dec b a) as [-> | Hne].
    + now rewrite Ascii.eqb_refl.
    + destruct (Ascii.eqb a b) eqn:E; [| reflexivity].
      apply Ascii.eqb_eq in E. congruence.
Qed.

Section KeyReply.

Variable nm_ap_get_enc_key_hashed : NMAccessPoint -> option string.

(** C4, amended. A key reply delivered to
    nm_device_set_user_key_for_network is treated as a cancellation exactly
    when it begins with the bytes of "***canceled***". On cancellation a
    copy of the named AP, when the device list has it, is appended to the
    Invalid list the caller passed, and the best AP is recomputed; any
    other reply is stored as the key of the current best AP when that AP's
    ESSID matches the request. In every case the key-received flag is set,
    so that the waiting worker leaves its wait. *)
Theorem user_key_reply (invalid_list : bool) (network key : string) (m : NMEncKeyType)
    (w : World) :
  nm_device_is_wireless (w_dev w) = true ->
  user_key_received
    (wopts (nm_device_set_user_key_for_network invalid_list network key m w)) = true
  /\ (forall o v best,
        aw_at (aw_step nm_ap_get_enc_key_hashed o
                 {| aw_at := AW_wait_key best; aw_vars := v;
                    aw_world := nm_device_set_user_key_for_network invalid_list
                                  network key m w |})
        <> AW_wait_key best)
  /\ (String.prefix cancel_message key = true ->
      nm_device_set_user_key_for_network invalid_list network key m w
      = with_dev (with_wireless (set_user_key_received true))
          (nm_device_update_best_ap
             (match nm_device_ap_list_get_ap_by_essid w (Some network) with
              | Some ap => with_invalid_copy invalid_list ap w
              | None => w
              end)))
  /\ (String.prefix cancel_message key = false ->
      nm_device_set_user_key_for_network invalid_list network key m w
      = with_dev (with_wireless (set_user_key_received true))
          (match nm_device_get_best_ap w with
           | Some best =>
               if decide (nm_ap_get_essid (w_heap w) best = Some network)
               then with_heap (nm_ap_set_enc_key_source best (Some key) m) w
               else w
           | None => w
           end)).
Proof.
  intros Hw.
  assert (Hflag : user_key_received
    (wopts (nm_device_set_user_key_for_network invalid_list network key m w)) = true).
  { unfold nm_device_set_user_key_for_network. rewrite Hw. reflexivity. }
  split; [exact Hflag |]. split; [| split].
  - intros o v best. unfold aw_step. cbn [aw_at aw_world aw_vars].
    rewrite Hflag. simpl.
    destruct (nm_device_activation_handle_cancel _) as [[|] w1]; discriminate.
  - intros Hp. unfold nm_device_set_user_key_for_network.
    rewrite Hw, strncmp_eq_prefix, Hp. simpl. do 2 f_equal.
  - intros Hp. unfold nm_device_set_user_key_for_network.
    rewrite Hw, strncmp_eq_prefix, Hp. simpl. f_equal.
    destruct (nm_device_get_best_ap w) as [best |]; [| reflexivity].
    unfold nm_null_safe_strcmp_eq.
    destruct (decide (nm_ap_get_essid (w_heap w) best = Some network)) as [He | He].
    + rewrite bool_decide_eq_true_2 by congruence. reflexivity.
    + rewrite bool_decide_eq_false_2 by congruence. reflexivity.
Qed.

End KeyReply.

Lemma user_key_reply_witness :
  user_key_received
    (wopts (nm_device_set_user_key_for_network true "wifi" "deadbeef01"
              NM_ENC_TYPE_HEX_KEY sample_key_world)) = true.
Proof.
  apply (user_key_reply ap_enc_key_source true "wifi" "deadbeef01" NM_ENC_TYPE_HEX_KEY
           sample_key_world).
  reflexivity.
Defined.

(** The key of the reply is on the best AP afterwards. *)
Lemma user_key_stored_example :
  nm_ap_get_enc_key_source
    (w_heap (nm_device_set_user_key_for_network true "wifi" "deadbeef01"
               NM_ENC_TYPE_HEX_KEY sample_key_world)) 0
  = Some "deadbeef01"%string.
Proof. reflexivity. Qed.

(** C4 as stated fails on a reply that only begins with the sentinel: it
    is taken as a cancellation, and "wifi" goes to the Invalid list. *)
Lemma cancel_only_on_exact_sentinel_as_stated_fails :
  ~ cancel_only_on_exact_sentinel_as_stated.
Proof.
  intros H.
  specialize (H true "wifi"%string "***canceled*** by user"%string NM_ENC_TYPE_HEX_KEY
                sample_key_world eq_refl).
  assert (Hne : "***canceled*** by user"%string <> cancel_message) by discriminate.
  specialize (H Hne). vm_compute in H. discriminate.
Qed.

(** What the code does with that reply. *)
Lemma longer_reply_taken_as_cancel :
  invalid_ap_list
    (w_data (nm_device_set_user_key_for_network true "wifi" "***canceled*** by user"
               NM_ENC_TYPE_HEX_KEY sample_key_world)) = [1%nat]
  /\ nm_ap_get_enc_key_source
       (w_heap (nm_device_set_user_key_for_network true "wifi" "***canceled*** by user"
                  NM_ENC_TYPE_HEX_KEY sample_key_world)) 0 = None.
Proof. split; reflexivity. Qed.

(** ** Probing for a network (C6) *)

Lemma keeps_card_refl (w : World) : keeps_card w w.
Proof. unfold keeps_card. auto 10. Qed.

Lemma keeps_card_trans (w1 w2 w3 : World) :
  keeps_card w1 w2 -> keeps_card w2 w3 -> keeps_card w1 w3.
Proof.
  unfold keeps_card. intros (A1 & A2 & A3 & A4 & A5 & A6) (B1 & B2 & B3 & B4 & B5 & B6).
  repeat split; congruence.
Qed.

Lemma keeps_card_emit (e : Event) (w : World) : keeps_card w (emit e w).
Proof. unfold keeps_card. auto 10. Qed.

Create HintDb card.
#[local] Hint Resolve keeps_card_refl keeps_card_emit : card.

Lemma keeps_card_set_up_down (up : bool) (w : World) :
  keeps_card w (nm_device_set_up_down up w).
Proof.
  unfold nm_device_set_up_down. repeat case_match; auto with card;
    unfold keeps_card; simpl; auto 10.
Qed.

Lemma keeps_card_set_essid e (w : World) : keeps_card w (nm_device_set_essid e w).
Proof.
  unfold nm_device_set_essid. repeat case_match; auto with card.
  unfold keeps_card; simpl; auto 10.
Qed.

Lemma keeps_card_set_enc_key k a (w : World) : keeps_card w (nm_device_set_enc_key k a w).
Proof. unfold nm_device_set_enc_key. repeat case_match; auto with card. Qed.

Lemma keeps_card_set_mode m (w : World) : keeps_card w (nm_device_set_mode m w).
Proof. unfold nm_device_set_mode. repeat case_match; auto with card. Qed.

Lemma keeps_card_association_pause c (w : World) : keeps_card w (association_pause c w).
Proof. unfold keeps_card. simpl. auto 10. Qed.

Lemma keeps_card_get_essid (w : World) : keeps_card w (snd (nm_device_get_essid w)).
Proof.
  unfold nm_device_get_essid. repeat case_match; simpl; auto with card.
  unfold keeps_card; simpl; auto 10.
Qed.

Lemma kernel_get_essid (w : World) : w_kernel (snd (nm_device_get_essid w)) = w_kernel w.
Proof. unfold nm_device_get_essid. repeat case_match; reflexivity. Qed.

Lemma update_link_active_frame (w : World) :
  keeps_card w (nm_device_update_link_active w)
  /\ w_kernel (nm_device_update_link_active w) = w_kernel w.
Proof.
  assert (H : forall l w1, keeps_card w w1 -> w_kernel w1 = w_kernel w ->
    keeps_card w (if negb (bool_decide (l = nm_device_get_link_active (w_dev w1)))
                  then emit EvMarkStateChanged (with_dev (set_link_active l) w1) else w1)
    /\ w_kernel (if negb (bool_decide (l = nm_device_get_link_active (w_dev w1)))
                 then emit EvMarkStateChanged (with_dev (set_link_active l) w1) else w1)
       = w_kernel w).
  { intros l w1 Hk Hke. case_match; [| auto]. split; [| exact Hke].
    eapply keeps_card_trans; [exact Hk |]. unfold keeps_card; simpl; auto 10. }
  unfold nm_device_update_link_active.
  destruct (dev_type (w_dev w)).
  - apply H; auto with card.
  - apply H; auto with card.
  - unfold nm_device_wireless_link_active.
    destruct (test_device (w_dev w)); [apply H; auto with card |].
    destruct (negb (nm_device_wireless_is_associated w)); [apply H; auto with card |].
    destruct (nm_device_get_best_ap w) as [b |] eqn:Eb; [| apply H; auto with card].
    unfold nm_device_need_ap_switch.
    destruct (negb (nm_device_is_wireless (w_dev w))); [apply H; auto with card |].
    rewrite Eb.
    pose proof (keeps_card_get_essid w) as K1. pose proof (kernel_get_essid w) as K2.
    destruct (nm_device_get_essid w) as [es w1]. simpl in K1, K2.
    apply H; assumption.
Qed.

#[local] Hint Resolve keeps_card_set_up_down keeps_card_set_essid keeps_card_set_enc_key
  keeps_card_set_mode keeps_card_association_pause keeps_card_get_essid : card.



(** What the code returns there. *)
Lemma known_ap_flag_overrides_probe :
  let res := nm_device_wireless_network_exists id id id "corp" None NM_ENC_TYPE_UNKNOWN
               bad_addr false bad_addr (card_only_in_round 2 "corp") sample_corp_world in
  p_success res = true /\ p_encrypted res = true
  /\ p_ap_addr res = [x00; x0f; x66; x12; x34; x56].
Proof. repeat split. Qed.

(** The loop has no exit on success. When every probe associates, all
    three are made (three ESSID requests, three pauses), and what is
    returned is what the last one saw: for a network that was reached with
    a shared key, the address of the third round and "not encrypted". *)
Lemma probing_goes_on_after_success :
  let res := nm_device_wireless_network_exists id id id "cloaked" None NM_ENC_TYPE_UNKNOWN
               bad_addr false bad_addr (card_every_round "cloaked") sample_empty_world in
  p_success res = true
  /\ p_encrypted res = false
  /\ p_ap_addr res = [x00; x0f; x66; x00; x00; x02]
  /\ List.filter is_essid_or_key_request (w_trace (p_world res))
     = [EvSetEncode (Some "11111111111111111111111111") IW_ENCODE_RESTRICTED;
        EvSetEssid "cloaked";
        EvSetEncode (Some "11111111111111111111111111") IW_ENCODE_OPEN;
        EvSetEssid "cloaked";
        EvSetEncode None (Z.lor IW_ENCODE_DISABLED IW_ENCODE_NOKEY);
        EvSetEssid "cloaked"].
Proof. repeat split. Qed.

(** ** The scan cycle (C7) *)

Lemma wopts_emit_all (evs : list Event) (w : World) :
  w_dev (fold_left (fun acc e => emit e acc) evs w) = w_dev w.
Proof. revert w. induction evs as [| e evs IH]; intros w; simpl; [reflexivity |]. now rewrite IH. Qed.

Section ScanCycle.

Variable nm_ap_list_combine :
  list NMAccessPoint -> list nat -> list nat -> list NMAccessPoint * list nat.
Variable nm_ap_list_copy_essids_by_address :
  list NMAccessPoint -> list nat -> list nat -> list NMAccessPoint.
Variable nm_ap_list_copy_properties :
  list NMAccessPoint -> list nat -> list nat -> list NMAccessPoint.
Variable nm_ap_list_diff : list NMAccessPoint -> list nat -> list nat -> list Event.
Variable nm_wireless_qual_to_percent : NMDevice -> iw_quality -> Z.
Variable nm_ethernet_address_is_valid : list byte -> bool.
Variable nm_ap_get_enc_key_hashed : NMAccessPoint -> option string.

(** The conversion loop allocates one new object per usable record, in
    the order of the records. *)
Lemma convert_fold (d : NMDevice) (result : list wireless_scan) :
  forall st,
    let cs := fold_left (convert_round nm_wireless_qual_to_percent d) result st in
    c_heap cs
    = c_heap st ++ (nm_ap_of_scan_record nm_wireless_qual_to_percent d
                      <$> List.filter scan_record_usable result)
    /\ c_list cs
       = c_list st ++ seq (length (c_heap st))
                        (length (List.filter scan_record_usable result)).
Proof.
  induction result as [| t result IH]; intros st; simpl.
  - now rewrite !app_nil_r.
  - unfold convert_round at 2 4. destruct (scan_record_usable t); simpl.
    + match goal with |- context [fold_left _ result ?s] => destruct (IH s) as [H1 H2] end.
      rewrite H1, H2. simpl. rewrite length_app. simpl.
      unfold nm_ap_list_append_ap. rewrite <- !app_assoc. simpl.
      replace (length (c_heap st) + 1)%nat with (S (length (c_heap st))) by lia.
      split; reflexivity.
    + apply IH.
Qed.

(** Reading the network name on a real card leaves the name it found in
    the device record. *)
Lemma get_essid_wireless (w1 : World) :
  nm_device_is_wireless (w_dev w1) = true ->
  test_device (w_dev w1) = false ->
  wopts (snd (nm_device_get_essid w1))
  = set_cur_essid (fst (nm_device_get_essid w1)) (wopts w1).
Proof.
  intros H1 H2. unfold nm_device_get_essid. rewrite H1, H2. cbn [negb].
  destruct w1 as [d1 ? ? k1 ?]. destruct d1 as [? ? ? ? ? ? ? ? ? wl]. destruct wl.
  cbn. destruct (sock_fails k1); [reflexivity |].
  destruct (k_essid k1); reflexivity.
Qed.

Lemma get_essid_same_card (w1 w : World) :
  w_dev w1 = w_dev w \/ (dev_type (w_dev w1) = dev_type (w_dev w)
                         /\ test_device (w_dev w1) = test_device (w_dev w)
                         /\ cur_essid (wopts w1) = cur_essid (wopts w)) ->
  test_device (w_dev w) = false ->
  w_kernel w1 = w_kernel w ->
  fst (nm_device_get_essid w1) = fst (nm_device_get_essid w).
Proof.
  intros Hd Ht Hk. unfold nm_device_get_essid, nm_device_is_wireless, wopts in *.
  destruct Hd as [-> | (E1 & E2 & E3)].
  - rewrite Hk, Ht. repeat case_match; reflexivity.
  - rewrite Hk, E1, E2, E3, Ht. repeat case_match; reflexivity.
Qed.

Lemma process_scan_results_wireless (result : list wireless_scan)
    (card : nat -> CardObs) (w : World) :
  test_device (w_dev w) = false ->
  nm_device_is_wireless (w_dev w) = true ->
  k_scan_supported (w_kernel w) = true ->
  let cs := converted_scan nm_wireless_qual_to_percent result w in
  let combined := nm_ap_list_combine (c_heap cs) (c_list cs) (cached_ap_list1 (wopts w)) in
  let h2 :=
    if have_blank_essids cs then
      nm_ap_list_copy_essids_by_address
        (nm_ap_list_copy_essids_by_address (fst combined) (snd combined)
           (scan_ap_list (wopts w)))
        (snd combined) (allowed_ap_list (w_data w))
    else fst combined in
  let h3 := nm_ap_list_copy_properties h2 (snd combined) (allowed_ap_list (w_data w)) in
  wopts (nm_device_process_scan_results nm_ap_list_combine
           nm_ap_list_copy_essids_by_address nm_ap_list_copy_properties nm_ap_list_diff
           nm_wireless_qual_to_percent nm_ethernet_address_is_valid
           nm_ap_get_enc_key_hashed (Some result) card w)
  = set_scan_ap_list
      (snd combined
       ++ kept_artificial_aps h3 (fst (nm_device_get_essid w)) (scan_ap_list (wopts w)))
      (set_cur_essid (fst (nm_device_get_essid w))
         (set_scan_ap_list (snd combined)
            (set_cached_ap_lists (c_list cs) (cached_ap_list1 (wopts w))
               (cached_ap_list2 (wopts w)) (wopts w)))).
Proof.
  intros Ht Hw Hscan. cbv zeta. unfold converted_scan.
  unfold nm_device_process_scan_results, nm_device_supports_wireless_scan.
  rewrite Ht, Hw, Hscan. cbn [negb andb].
  set (cs := fold_left _ result _).
  assert (Hget : nm_device_ap_list_get w = scan_ap_list (wopts w)).
  { unfold nm_device_ap_list_get. now rewrite Hw. }
  rewrite !Hget.
  destruct (nm_ap_list_combine (c_heap cs) (c_list cs) (cached_ap_list1 (wopts w)))
    as [h1 new_list].
  cbn [fst snd].
  set (h3 := nm_ap_list_copy_properties _ new_list _).
  set (w1 := with_dev (with_wireless (set_scan_ap_list new_list)) _).
  assert (E1 : fst (nm_device_get_essid w1) = fst (nm_device_get_essid w)).
  { apply get_essid_same_card; [right | exact Ht | reflexivity].
    repeat split; reflexivity. }
  assert (E2 := get_essid_wireless w1 Hw Ht).
  destruct (nm_device_get_essid w1) as [e w2]. cbn [fst snd] in E1, E2.
  destruct (nm_ap_list_combine h3 (cached_ap_list2 (wopts w)) (cached_ap_list3 (wopts w)))
    as [h4 old_list].
  unfold wopts in *. rewrite wopts_emit_all.
  destruct w2 as [d2 ? ? ? ?]. destruct d2. cbn in E2 |- *. rewrite E2, E1. reflexivity.
Qed.

(** C7, amended. On every scan-processing cycle for a scan-capable,
    non-synthetic wireless device, the snapshot ring shifts S3 <- S2,
    S2 <- S1, S1 <- the newly converted scan, and the device-visible AP
    list becomes combine (S1, S2), followed by the artificial access points
    of the previous list that carry the ESSID the card uses at that
    moment. *)
Theorem scan_cycle_ring_and_visible_list (result : list wireless_scan)
    (card : nat -> CardObs) (w : World) :
  test_device (w_dev w) = false ->
  nm_device_is_wireless (w_dev w) = true ->
  k_scan_supported (w_kernel w) = true ->
  let w' := nm_device_process_scan_results nm_ap_list_combine
              nm_ap_list_copy_essids_by_address nm_ap_list_copy_properties nm_ap_list_diff
              nm_wireless_qual_to_percent nm_ethernet_address_is_valid
              nm_ap_get_enc_key_hashed (Some result) card w in
  let cs := converted_scan nm_wireless_qual_to_percent result w in
  let combined := nm_ap_list_combine (c_heap cs) (c_list cs) (cached_ap_list1 (wopts w)) in
  let h2 :=
    if have_blank_essids cs then
      nm_ap_list_copy_essids_by_address
        (nm_ap_list_copy_essids_by_address (fst combined) (snd combined)
           (scan_ap_list (wopts w)))
        (snd combined) (allowed_ap_list (w_data w))
    else fst combined in
  let h3 := nm_ap_list_copy_properties h2 (snd combined) (allowed_ap_list (w_data w)) in
  cached_ap_list3 (wopts w') = cached_ap_list2 (wopts w)
  /\ cached_ap_list2 (wopts w') = cached_ap_list1 (wopts w)
  /\ cached_ap_list1 (wopts w') = c_list cs
  /\ c_list cs
     = seq (length (w_heap w)) (length (List.filter scan_record_usable result))
  /\ (forall i t,
        List.filter scan_record_usable result !! i = Some t ->
        c_heap cs !! (length (w_heap w) + i)%nat
        = Some (nm_ap_of_scan_record nm_wireless_qual_to_percent (w_dev w) t))
  /\ scan_ap_list (wopts w')
     = snd combined
       ++ kept_artificial_aps h3 (fst (nm_device_get_essid w)) (scan_ap_list (wopts w)).
Proof.
  intros Ht Hw Hscan w' cs combined h2 h3.
  pose proof (process_scan_results_wireless result card w Ht Hw Hscan) as Hopts.
  cbv zeta in Hopts. fold w' cs combined h2 h3 in Hopts.
  destruct (convert_fold (w_dev w) result
              {| c_heap := w_heap w; c_list := []; have_blank_essids := false |})
    as [Hheap Hlist].
  simpl in Hheap, Hlist. fold (converted_scan nm_wireless_qual_to_percent result w) in Hheap, Hlist.
  fold cs in Hheap, Hlist.
  rewrite Hopts.
  repeat split; try reflexivity; try exact Hlist.
  intros i t Hi. rewrite Hheap. rewrite lookup_app_r by lia.
  replace (length (w_heap w) + i - length (w_heap w))%nat with i by lia.
  rewrite list_lookup_fmap, Hi. reflexivity.
Qed.

End ScanCycle.

Lemma scan_cycle_ring_and_visible_list_witness :
  let w' := nm_device_process_scan_results nm_ap_list_combine_model
              nm_ap_list_copy_essids_by_address_model nm_ap_list_copy_properties_model
              nm_ap_list_diff_model (fun _ q => q_qual q) (fun _ => true) ap_enc_key_source
              (Some [sample_scan_record "cafe"]) (fun _ => card_silent)
              sample_cloaked_world in
  cached_ap_list1 (wopts w') = [1%nat]
  /\ scan_ap_list (wopts w') = [2%nat; 0%nat]
  /\ nm_ap_get_essid (w_heap w') 2 = Some "cafe"%string
  /\ nm_ap_get_essid (w_heap w') 0 = Some "hq"%string.
Proof.
  destruct (scan_cycle_ring_and_visible_list nm_ap_list_combine_model
              nm_ap_list_copy_essids_by_address_model nm_ap_list_copy_properties_model
              nm_ap_list_diff_model (fun _ q => q_qual q) (fun _ => true) ap_enc_key_source
              [sample_scan_record "cafe"] (fun _ => card_silent) sample_cloaked_world)
    as (_ & _ & H1 & _ & _ & H2); [reflexivity | reflexivity | reflexivity |].
  cbv zeta. rewrite H1, H2. vm_compute. repeat split; reflexivity.
Defined.

(** The claim as stated fails: an artificial access point that the card
    is associated with stays in the device list although neither of the
    two newest snapshots holds it. *)
Lemma visible_list_is_combine_as_stated_fails : ~ visible_list_is_combine_as_stated.
Proof.
  intros H.
  specialize (H (fun _ q => q_qual q) (fun _ => true) ap_enc_key_source []
                (fun _ => card_silent) sample_cloaked_world
                eq_refl eq_refl eq_refl).
  vm_compute in H. discriminate H.
Qed.

(** With nothing in the scan, the list of the cloaked network's card is
    still that one artificial access point. *)
Lemma artificial_ap_survives_empty_scan :
  scan_ap_list
    (wopts (nm_device_process_scan_results nm_ap_list_combine_model
              nm_ap_list_copy_essids_by_address_model nm_ap_list_copy_properties_model
              nm_ap_list_diff_model (fun _ q => q_qual q) (fun _ => true) ap_enc_key_source
              (Some []) (fun _ => card_silent) sample_cloaked_world))
  = [0%nat].
Proof. reflexivity. Qed.

(** ** The authentication fallback of the activation engine (C1) *)

Lemma keeps_card_set_bitrate r (w : World) : keeps_card w (nm_device_set_bitrate r w).
Proof. unfold nm_device_set_bitrate. repeat case_match; auto with card. Qed.

Lemma keeps_card_set_frequency f (w : World) : keeps_card w (nm_device_set_frequency f w).
Proof. unfold nm_device_set_frequency. repeat case_match; auto with card. Qed.

Lemma keeps_card_is_up (w : World) : keeps_card w (snd (nm_device_is_up w)).
Proof. unfold nm_device_is_up. repeat case_match; simpl; auto with card. Qed.

Lemma keeps_card_bring_up_if_down (w : World) : keeps_card w (bring_up_if_down w).
Proof.
  unfold bring_up_if_down. pose proof (keeps_card_is_up w) as K.
  destruct (nm_device_is_up w) as [up w1]. simpl in K.
  destruct up; simpl; [exact K |].
  eapply keeps_card_trans; [exact K | apply keeps_card_set_up_down].
Qed.

Lemma handle_cancel_not_cancelled (w : World) :
  quit_activation (w_dev w) = false ->
  nm_device_activation_handle_cancel w = (false, w).
Proof. intros H. unfold nm_device_activation_handle_cancel. now rewrite H. Qed.

Section Fallback.

Variable nm_ap_get_enc_key_hashed : NMAccessPoint -> option string.

Lemma keeps_card_set_wireless_config (ap : nat) (auth : NMDeviceAuthMethod)
    (card : CardObs) (w : World) :
  keeps_card w (snd (nm_device_set_wireless_config nm_ap_get_enc_key_hashed ap auth card w)).
Proof.
  unfold nm_device_set_wireless_config.
  destruct (negb (nm_device_is_wireless (w_dev w))); [apply keeps_card_refl |].
  destruct (nm_ap_get_essid (w_heap w) ap) as [essid |]; [| apply keeps_card_refl].
  cbv zeta. cbn [snd].
  eapply keeps_card_trans; [| apply update_link_active_frame].
  assert (K : forall w', keeps_card w w' ->
            keeps_card w
              (if bool_decide (nm_ap_get_mode (w_heap w) ap = NETWORK_MODE_ADHOC)
                  && (nm_device_get_bitrate w' <=? 0)
               then nm_device_set_bitrate 11000 w' else w')).
  { intros w' K'. case_match; [| exact K'].
    eapply keeps_card_trans; [exact K' | apply keeps_card_set_bitrate]. }
  apply K.
  eapply keeps_card_trans; [| apply keeps_card_association_pause].
  eapply keeps_card_trans; [| apply keeps_card_set_essid].
  assert (K2 : forall (b : bool) f w', keeps_card w w' ->
            (forall x, keeps_card x (f x)) -> keeps_card w (if b then f w' else w')).
  { intros b f w' K' Kf. destruct b; [| exact K'].
    eapply keeps_card_trans; [exact K' | apply Kf]. }
  apply K2; [| intros x; apply keeps_card_set_enc_key].
  eapply keeps_card_trans; [| apply keeps_card_set_enc_key].
  apply K2; [| intros x; apply keeps_card_set_frequency].
  eapply keeps_card_trans; [| apply keeps_card_set_bitrate].
  eapply keeps_card_trans; [| apply keeps_card_set_mode].
  eapply keeps_card_trans; [| apply keeps_card_set_essid].
  eapply keeps_card_trans; [| apply keeps_card_set_mode].
  eapply keeps_card_trans; [| apply keeps_card_emit].
  eapply keeps_card_trans; [| apply keeps_card_set_up_down].
  eapply keeps_card_trans; [| apply keeps_card_emit].
  apply keeps_card_set_up_down.
Qed.

Lemma keeps_card_configure_ip (only_autoip : bool) (ip : IpObs) (w : World) :
  keeps_card w (snd (nm_device_activation_configure_ip only_autoip ip w)).
Proof.
  unfold nm_device_activation_configure_ip. cbv zeta.
  assert (K : forall (p : bool * World), keeps_card w (snd p) ->
            keeps_card w
              (snd (let '(success, w2) := p in
                    if success then (true, emit EvRestartMdns (emit EvFlushArpCache w2))
                    else (false, w2)))).
  { intros [s w2] K'. simpl in *. destruct s; simpl; [| exact K'].
    eapply keeps_card_trans; [exact K' |].
    eapply keeps_card_trans; apply keeps_card_emit. }
  apply K.
  destruct only_autoip; simpl.
  - eapply keeps_card_trans; apply keeps_card_emit.
  - destruct (nm_device_config_get_use_dhcp (w_dev w)); simpl.
    + destruct (o_dhcp_bound ip); simpl.
      * eapply keeps_card_trans; apply keeps_card_emit.
      * eapply keeps_card_trans; [| apply keeps_card_bring_up_if_down].
        destruct (nm_device_is_wireless (w_dev w)).
        -- eapply keeps_card_trans; [| apply keeps_card_set_enc_key].
           eapply keeps_card_trans; [| apply keeps_card_set_essid].
           eapply keeps_card_trans; apply keeps_card_emit.
        -- eapply keeps_card_trans; apply keeps_card_emit.
    + eapply keeps_card_trans; apply keeps_card_emit.
Qed.

(** C1, amended. For every wireless activation of an encrypted
    infrastructure-mode access point that already has a key, as long as
    the activation is not cancelled: authentication starts at SharedKey;
    if the association pause ends with no link under SharedKey the engine
    retries the same access point with OpenSystem; if there is still no
    link under OpenSystem the access point is marked invalid, appended to
    the process-wide Invalid list, the best access point is computed anew
    and the engine is back at get_ap; if the link comes up but the IP
    configuration fails under SharedKey it retries with OpenSystem, and if
    it fails under OpenSystem the engine is back at need_key where, for
    an access point that carries an ESSID, it asks for a key under the
    attempt number (1 for an ESSID other than the last one asked for) and
    advances the counter by one, modulo 256. *)
Theorem authentication_fallback (o o' : Obs) (v : aw_locals) (w : World) (best : nat) :
  quit_activation (w_dev w) = false ->
  nm_ap_get_mode (w_heap w) best = NETWORK_MODE_INFRA ->
  is_Some (w_heap w !! best) ->
  let step pc := aw_step nm_ap_get_enc_key_hashed o (aw_at_pc pc v w) in
  let configured auth :=
    snd (nm_device_set_wireless_config nm_ap_get_enc_key_hashed best auth (obs_card o) w) in
  let ip auth := nm_device_activation_configure_ip false (obs_ip o) (configured auth) in
  (nm_device_get_best_ap w = Some best ->
   nm_ap_get_encrypted (w_heap w) best = true ->
   AP_NEED_KEY (w_heap w) best = false ->
   aw_at (step AW_poll_ap) = AW_need_key best NM_DEVICE_AUTH_METHOD_SHARED_KEY false
   /\ aw_at (aw_step nm_ap_get_enc_key_hashed o' (step AW_poll_ap))
      = AW_auth best NM_DEVICE_AUTH_METHOD_SHARED_KEY)
  /\ (HAVE_LINK (configured NM_DEVICE_AUTH_METHOD_SHARED_KEY) = false ->
      step (AW_auth best NM_DEVICE_AUTH_METHOD_SHARED_KEY)
      = aw_at_pc (AW_auth best NM_DEVICE_AUTH_METHOD_OPEN_SYSTEM) v
          (configured NM_DEVICE_AUTH_METHOD_SHARED_KEY))
  /\ (HAVE_LINK (configured NM_DEVICE_AUTH_METHOD_OPEN_SYSTEM) = false ->
      let marked :=
        with_data (set_invalid_ap_list (invalid_ap_list (w_data w) ++ [best]))
          (with_heap (nm_ap_set_invalid best true)
             (configured NM_DEVICE_AUTH_METHOD_OPEN_SYSTEM)) in
      step (AW_auth best NM_DEVICE_AUTH_METHOD_OPEN_SYSTEM)
      = aw_at_pc AW_get_ap v (nm_device_update_best_ap marked)
      /\ nm_ap_get_invalid (w_heap marked) best = true)
  /\ (HAVE_LINK (configured NM_DEVICE_AUTH_METHOD_SHARED_KEY) = true ->
      fst (ip NM_DEVICE_AUTH_METHOD_SHARED_KEY) = false ->
      step (AW_auth best NM_DEVICE_AUTH_METHOD_SHARED_KEY)
      = aw_at_pc (AW_auth best NM_DEVICE_AUTH_METHOD_OPEN_SYSTEM) v
          (snd (ip NM_DEVICE_AUTH_METHOD_SHARED_KEY)))
  /\ (HAVE_LINK (configured NM_DEVICE_AUTH_METHOD_OPEN_SYSTEM) = true ->
      fst (ip NM_DEVICE_AUTH_METHOD_OPEN_SYSTEM) = false ->
      step (AW_auth best NM_DEVICE_AUTH_METHOD_OPEN_SYSTEM)
      = aw_at_pc (AW_need_key best NM_DEVICE_AUTH_METHOD_OPEN_SYSTEM true) v
          (snd (ip NM_DEVICE_AUTH_METHOD_OPEN_SYSTEM))
      /\ forall essid,
           nm_ap_get_essid (w_heap w) best = Some essid ->
           let asked := if bool_decide (essid = last_essid v) then attempt v else 1 in
           let c := aw_step nm_ap_get_enc_key_hashed o'
                      (step (AW_auth best NM_DEVICE_AUTH_METHOD_OPEN_SYSTEM)) in
           aw_at c = AW_wait_key best
           /\ attempt (aw_vars c) = (asked + 1) mod 256
           /\ w_trace (aw_world c)
              = w_trace (snd (ip NM_DEVICE_AUTH_METHOD_OPEN_SYSTEM))
                ++ [EvGetUserKey (Some essid) asked]).
Proof.
  intros Hq Hmode Hlive step configured ip.
  assert (Hcfg : forall auth, keeps_card w (configured auth)).
  { intros auth. apply keeps_card_set_wireless_config. }
  assert (Hheap : forall auth, w_heap (configured auth) = w_heap w).
  { intros auth. apply (Hcfg auth). }
  assert (Hdata : forall auth, w_data (configured auth) = w_data w).
  { intros auth. apply (Hcfg auth). }
  assert (Hip : forall auth, w_heap (snd (ip auth)) = w_heap w).
  { intros auth. rewrite <- (Hheap auth). apply keeps_card_configure_ip. }
  assert (Hstep : forall auth,
            (auth_to_Z NM_DEVICE_AUTH_METHOD_NONE <? auth_to_Z auth) = true ->
            step (AW_auth best auth)
            = let w1 := configured auth in
              if negb (HAVE_LINK w1)
                 && bool_decide (auth = NM_DEVICE_AUTH_METHOD_SHARED_KEY) then
                aw_at_pc (AW_auth best (auth_decr auth)) v w1
              else if negb (HAVE_LINK w1) then
                aw_at_pc AW_get_ap v (invalidate_best_ap best w1)
              else
                let '(ip_success, w2) := ip auth in
                if negb ip_success
                   && bool_decide (auth = NM_DEVICE_AUTH_METHOD_SHARED_KEY) then
                  aw_at_pc (AW_auth best (auth_decr auth)) v w2
                else if negb ip_success then aw_at_pc (AW_need_key best auth true) v w2
                else aw_out true v w2).
  { intros auth Ha. subst step. cbv beta. unfold aw_step, aw_at_pc. cbn [aw_at aw_vars aw_world].
    rewrite Ha.
    cbn [negb]. rewrite (handle_cancel_not_cancelled w Hq).
    subst ip. cbv beta. generalize (Hheap auth). subst configured. cbv beta.
    destruct (nm_device_set_wireless_config nm_ap_get_enc_key_hashed best auth (obs_card o) w)
      as [r w1]. cbn [snd]. intros ->. rewrite Hmode. reflexivity. }
  split; [| split; [| split; [| split]]].
  - intros Hbest Henc Hkey.
    assert (Hs : step AW_poll_ap
                 = aw_at_pc (AW_need_key best NM_DEVICE_AUTH_METHOD_SHARED_KEY false) v
                     (with_dev (with_wireless (set_now_scanning false)) w)).
    { subst step. cbv beta. unfold aw_step, aw_at_pc. cbn [aw_at aw_vars aw_world].
      rewrite Hbest. cbn [w_heap with_dev]. rewrite Henc, Hkey. reflexivity. }
    rewrite Hs. split; reflexivity.
  - intros Hl. rewrite Hstep by reflexivity. cbv zeta. rewrite Hl. reflexivity.
  - intros Hl marked. rewrite Hstep by reflexivity. cbv zeta. rewrite Hl. cbn.
    split.
    + unfold invalidate_best_ap, nm_ap_list_append_ap. cbn [w_data with_heap].
      rewrite Hdata. reflexivity.
    + subst marked. cbn [w_heap with_data with_heap]. rewrite Hheap.
      unfold nm_ap_get_invalid, deref, nm_ap_set_invalid.
      destruct Hlive as [a Ha]. rewrite list_lookup_alter_eq, Ha. reflexivity.
  - intros Hl Hf. rewrite Hstep by reflexivity. cbv zeta. rewrite Hl. cbn [negb andb].
    destruct (ip NM_DEVICE_AUTH_METHOD_SHARED_KEY) as [s w2]. cbn [fst snd] in *.
    rewrite Hf. reflexivity.
  - intros Hl Hf.
    assert (Hs : step (AW_auth best NM_DEVICE_AUTH_METHOD_OPEN_SYSTEM)
                 = aw_at_pc (AW_need_key best NM_DEVICE_AUTH_METHOD_OPEN_SYSTEM true) v
                     (snd (ip NM_DEVICE_AUTH_METHOD_OPEN_SYSTEM))).
    { rewrite Hstep by reflexivity. cbv zeta. rewrite Hl. cbn [negb andb].
      destruct (ip NM_DEVICE_AUTH_METHOD_OPEN_SYSTEM) as [s w2]. cbn [fst snd] in *.
      rewrite Hf. reflexivity. }
    split; [exact Hs |].
    intros essid He asked c. subst c. rewrite Hs.
    unfold aw_step, aw_at_pc. cbn [aw_at aw_vars aw_world]. rewrite Hip, He.
    cbn [aw_at aw_vars aw_world attempt]. subst asked.
    destruct (bool_decide (essid = last_essid v)); cbn [negb]; repeat split; reflexivity.
Qed.

End Fallback.

Lemma authentication_fallback_witness :
  let w := sample_keyed_world NETWORK_MODE_INFRA in
  let v := {| attempt := 1; last_essid := ""%string |} in
  let at_auth auth := aw_at_pc (AW_auth 0%nat auth) v w in
  (quit_activation (w_dev w) = false
   /\ nm_ap_get_mode (w_heap w) 0%nat = NETWORK_MODE_INFRA
   /\ is_Some (w_heap w !! 0%nat))
  /\ aw_at (aw_step ap_enc_key_source obs_no_link (aw_at_pc AW_poll_ap v w))
     = AW_need_key 0%nat NM_DEVICE_AUTH_METHOD_SHARED_KEY false
  /\ aw_at (aw_step ap_enc_key_source obs_no_link
              (at_auth NM_DEVICE_AUTH_METHOD_SHARED_KEY))
     = AW_auth 0%nat NM_DEVICE_AUTH_METHOD_OPEN_SYSTEM
  /\ aw_at (aw_step ap_enc_key_source obs_no_link
              (at_auth NM_DEVICE_AUTH_METHOD_OPEN_SYSTEM))
     = AW_get_ap
  /\ aw_at (aw_step ap_enc_key_source obs_link_no_ip
              (at_auth NM_DEVICE_AUTH_METHOD_SHARED_KEY))
     = AW_auth 0%nat NM_DEVICE_AUTH_METHOD_OPEN_SYSTEM
  /\ aw_at (aw_step ap_enc_key_source obs_link_no_ip
              (at_auth NM_DEVICE_AUTH_METHOD_OPEN_SYSTEM))
     = AW_need_key 0%nat NM_DEVICE_AUTH_METHOD_OPEN_SYSTEM true.
Proof.
  intros w v at_auth.
  assert (Hq : quit_activation (w_dev w) = false) by reflexivity.
  assert (Hmode : nm_ap_get_mode (w_heap w) 0%nat = NETWORK_MODE_INFRA) by reflexivity.
  assert (Hlive : is_Some (w_heap w !! 0%nat)) by (eexists; reflexivity).
  destruct (authentication_fallback ap_enc_key_source obs_no_link obs_no_link v w 0%nat
              Hq Hmode Hlive) as (P1 & P2 & P3 & _ & _).
  destruct (authentication_fallback ap_enc_key_source obs_link_no_ip obs_no_link v w 0%nat
              Hq Hmode Hlive) as (_ & _ & _ & P4 & P5).
  split; [repeat split; assumption |].
  split; [apply P1; reflexivity |].
  split; [subst at_auth; cbv beta; rewrite P2 by (vm_compute; reflexivity); reflexivity |].
  split; [subst at_auth; cbv beta;
          rewrite (proj1 (P3 ltac:(vm_compute; reflexivity))); reflexivity |].
  split; [subst at_auth; cbv beta;
          rewrite P4 by (vm_compute; reflexivity); reflexivity |].
  subst at_auth; cbv beta.
  rewrite (proj1 (P5 ltac:(vm_compute; reflexivity) ltac:(vm_compute; reflexivity))).
  reflexivity.
Defined.

(** The claim as stated fails: for an encrypted ad-hoc network whose key
    is known the engine does no link check. With no link under SharedKey it
    runs AutoIP and returns success; OpenSystem is never tried. *)
Lemma shared_key_fallback_as_stated_fails : ~ shared_key_fallback_as_stated.
Proof.
  intros H.
  specialize (H ap_enc_key_source obs_no_link {| attempt := 1; last_essid := ""%string |}
                (sample_keyed_world NETWORK_MODE_ADHOC) 0%nat
                eq_refl eq_refl eq_refl eq_refl eq_refl).
  vm_compute in H. discriminate H.
Qed.

Lemma adhoc_activation_skips_fallback :
  aw_at (aw_step ap_enc_key_source obs_no_link
           (aw_at_pc (AW_auth 0%nat NM_DEVICE_AUTH_METHOD_SHARED_KEY)
              {| attempt := 1; last_essid := ""%string |}
              (sample_keyed_world NETWORK_MODE_ADHOC)))
  = AW_return true.
Proof. reflexivity. Qed.

(** A whole activation of "corp" in infrastructure mode on a card that never
    associates: SharedKey, then OpenSystem, then the access point is on
    the Invalid list and the engine is back at get_ap, with no best access
    point left and the key of the card cleared. *)
Lemma fallback_run_example :
  let c := aw_run ap_enc_key_source (repeat (EnvNothing, obs_no_link) 6)
             (nm_device_activate_wireless_init (sample_keyed_world NETWORK_MODE_INFRA)) in
  aw_at c = AW_get_ap
  /\ invalid_ap_list (w_data (aw_world c)) = [0%nat]
  /\ nm_ap_get_invalid (w_heap (aw_world c)) 0%nat = true
  /\ nm_device_get_best_ap (aw_world c) = None
  /\ List.filter (fun e => match e with EvSetEncode _ _ => true | _ => false end)
       (w_trace (aw_world c))
     = [EvSetEncode None (Z.lor IW_ENCODE_ENABLED (Z.lor IW_ENCODE_DISABLED IW_ENCODE_NOKEY));
        EvSetEncode (Some "deadbeef01"%string) (Z.lor IW_ENCODE_ENABLED IW_ENCODE_RESTRICTED);
        EvSetEncode None (Z.lor IW_ENCODE_ENABLED (Z.lor IW_ENCODE_DISABLED IW_ENCODE_NOKEY));
        EvSetEncode (Some "deadbeef01"%string) (Z.lor IW_ENCODE_ENABLED IW_ENCODE_OPEN);
        EvSetEncode None (Z.lor IW_ENCODE_ENABLED (Z.lor IW_ENCODE_DISABLED IW_ENCODE_NOKEY))].
Proof. vm_compute. repeat split; reflexivity. Qed.

(** * Further properties of the device code *)

(** ** Bringing the interface up and down *)

Lemma land_1_bit0 (x : Z) : Z.land x 1 = Z.b2z (Z.testbit x 0).
Proof. rewrite Z.bit0_mod. exact (Z.land_ones x 1 ltac:(lia)). Qed.

Lemma testbit_1_above (n : Z) : 0 < n -> Z.testbit 1 n = false.
Proof. intros Hn. apply Z.bits_above_log2; simpl; lia. Qed.

(** The flag word written by nm_device_set_up_down: bit 0 is the request,
    the other bits are those read. *)
Lemma up_down_flags_bit0 (cur : Z) (up : bool) :
  Z.testbit (Z.lor (Z.land cur (Z.lnot IFF_UP))
               (Z.land IFF_UP (if up then IFF_UP else Z.lnot IFF_UP mod 2 ^ 32))) 0
  = up.
Proof.
  rewrite Z.lor_spec, !Z.land_spec, Z.lnot_spec by lia.
  destruct up; simpl; [now rewrite orb_true_r |].
  now rewrite andb_false_r.
Qed.

Lemma up_down_flags_above (cur : Z) (up : bool) (n : Z) :
  0 < n ->
  Z.testbit (Z.lor (Z.land cur (Z.lnot IFF_UP))
               (Z.land IFF_UP (if up then IFF_UP else Z.lnot IFF_UP mod 2 ^ 32))) n
  = Z.testbit cur n.
Proof.
  intros Hn. rewrite Z.lor_spec, !Z.land_spec, Z.lnot_spec by lia.
  unfold IFF_UP. rewrite (testbit_1_above n Hn). simpl.
  now rewrite andb_true_r, orb_false_r.
Qed.

Lemma is_up_test_bit0 (cur : Z) :
  (Z.land (Z.lxor cur IFF_UP) IFF_UP =? 0) = Z.testbit cur 0.
Proof.
  unfold IFF_UP. rewrite land_1_bit0, Z.lxor_spec.
  destruct (Z.testbit cur 0); reflexivity.
Qed.

Lemma up_down_needed_bit0 (cur : Z) (up : bool) :
  (Z.land (Z.lxor cur (if up then IFF_UP else Z.lnot IFF_UP mod 2 ^ 32)) IFF_UP =? 0)
  = bool_decide (Z.testbit cur 0 = up).
Proof.
  unfold IFF_UP at 2. rewrite land_1_bit0, Z.lxor_spec.
  destruct up, (Z.testbit cur 0); reflexivity.
Qed.

(** X1. After nm_device_bring_up, nm_device_is_up answers TRUE, and after
    nm_device_bring_down it answers FALSE: on a test device always, on a
    real one when the driver is supported, a control socket can be opened
    and the two flag requests succeed. *)
Theorem bring_up_down_then_is_up (w : World) :
  test_device (w_dev w) = true
  \/ (nm_device_get_driver_support_level (w_dev w) <> NM_DRIVER_UNSUPPORTED
      /\ sock_fails (w_kernel w) = false
      /\ gifflags_fails (w_kernel w) = false
      /\ sifflags_fails (w_kernel w) = false) ->
  fst (nm_device_is_up (nm_device_bring_up w)) = true
  /\ fst (nm_device_is_up (nm_device_bring_down w)) = false.
Proof.
  assert (H : forall up,
    test_device (w_dev w) = true
    \/ (nm_device_get_driver_support_level (w_dev w) <> NM_DRIVER_UNSUPPORTED
        /\ sock_fails (w_kernel w) = false
        /\ gifflags_fails (w_kernel w) = false
        /\ sifflags_fails (w_kernel w) = false) ->
    fst (nm_device_is_up (nm_device_set_up_down up w)) = up).
  { intros up [Ht | (Hd & Hs & Hg & Hf)].
    - unfold nm_device_set_up_down, nm_device_is_up. rewrite Ht. simpl. now rewrite Ht.
    - unfold nm_device_set_up_down.
      destruct (test_device (w_dev w)) eqn:Ht.
      { unfold nm_device_is_up. simpl. now rewrite Ht. }
      rewrite bool_decide_eq_false_2 by exact Hd. rewrite Hs, Hg, Hf.
      rewrite up_down_needed_bit0.
      case_bool_decide as Hb; simpl.
      + unfold nm_device_is_up. simpl. rewrite Ht, Hs, Hg. simpl.
        now rewrite is_up_test_bit0.
      + unfold nm_device_is_up. simpl. rewrite Ht, Hs, Hg. simpl.
        now rewrite is_up_test_bit0, up_down_flags_bit0. }
  intros Hw. split; [apply (H true Hw) | apply (H false Hw)].
Qed.

Lemma bring_up_down_then_is_up_witness :
  fst (nm_device_is_up (nm_device_bring_up sample_world)) = true
  /\ fst (nm_device_is_up (nm_device_bring_down sample_up_world)) = false.
Proof.
  split.
  - apply (bring_up_down_then_is_up sample_world).
    right. repeat split; [discriminate | reflexivity..].
  - apply (bring_up_down_then_is_up sample_up_world).
    right. repeat split; [discriminate | reflexivity..].
Defined.

(** X2. nm_device_set_up_down changes no interface flag but IFF_UP, and
    nothing of the process-wide data or of the access points; on a real
    device the device record is left alone as well. *)
Theorem set_up_down_only_iff_up (up : bool) (w : World) :
  (forall n, 0 < n ->
     Z.testbit (ifr_flags (w_kernel (nm_device_set_up_down up w))) n
     = Z.testbit (ifr_flags (w_kernel w)) n)
  /\ w_data (nm_device_set_up_down up w) = w_data w
  /\ w_heap (nm_device_set_up_down up w) = w_heap w
  /\ (test_device (w_dev w) = false -> w_dev (nm_device_set_up_down up w) = w_dev w).
Proof.
  unfold nm_device_set_up_down.
  destruct (test_device (w_dev w)); [simpl; repeat split; auto; discriminate |].
  destruct (bool_decide _); [repeat split; auto |].
  destruct (sock_fails (w_kernel w)); [repeat split; auto |].
  destruct (gifflags_fails (w_kernel w)); [repeat split; auto |].
  destruct (negb _); [| repeat split; auto].
  destruct (sifflags_fails (w_kernel w)); simpl; repeat split; auto.
  intros n Hn. apply up_down_flags_above, Hn.
Qed.

(** ** Setting the ESSID; the link state *)

Lemma strncpy_length (n : nat) (s : string) : (String.length (strncpy n s) <= n)%nat.
Proof.
  unfold strncpy. revert s. induction n as [| n IH]; intros [| c s]; simpl; try lia.
  specialize (IH s). lia.
Qed.

Lemma strncpy_prefix (n : nat) (s : string) : String.prefix (strncpy n s) s = true.
Proof.
  unfold strncpy. revert s. induction n as [| n IH]; intros [| c s]; simpl; try reflexivity.
  destruct (Ascii.ascii_dec c c); [apply IH | congruence].
Qed.

Lemma strncpy_short (n : nat) (s : string) :
  (String.length s <= n)%nat -> strncpy n s = s.
Proof.
  unfold strncpy. revert s. induction n as [| n IH]; intros [| c s]; simpl; try reflexivity.
  - lia.
  - intros H. f_equal. apply IH. lia.
Qed.

(** X3. On a real wireless card, nm_device_set_essid makes exactly one
    SIOCSIWESSID request; the ESSID it carries is the requested one cut to
    IW_ESSID_MAX_SIZE (32) bytes: a prefix of the request, the whole of it
    when it is short enough. *)
Theorem set_essid_request_bounded (e : string) (w : World) :
  nm_device_is_wireless (w_dev w) = true ->
  test_device (w_dev w) = false ->
  sock_fails (w_kernel w) = false ->
  exists s,
    w_trace (nm_device_set_essid (Some e) w) = w_trace w ++ [EvSetEssid s]
    /\ (String.length s <= IW_ESSID_MAX_SIZE)%nat
    /\ String.prefix s e = true
    /\ ((String.length e <= IW_ESSID_MAX_SIZE)%nat -> s = e).
Proof.
  intros Hw Ht Hs. exists (strncpy IW_ESSID_MAX_SIZE e).
  unfold nm_device_set_essid. rewrite Hw, Ht, Hs. simpl.
  split; [reflexivity |]. split; [apply strncpy_length |].
  split; [apply strncpy_prefix | apply strncpy_short].
Qed.

Lemma set_essid_request_bounded_witness :
  exists s,
    w_trace (nm_device_set_essid
               (Some "a network name that is longer than thirty-two bytes"%string)
               sample_world)
    = w_trace sample_world ++ [EvSetEssid s]
    /\ (String.length s <= IW_ESSID_MAX_SIZE)%nat
    /\ String.prefix s "a network name that is longer than thirty-two bytes" = true
    /\ ((String.length "a network name that is longer than thirty-two bytes"
         <= IW_ESSID_MAX_SIZE)%nat ->
        s = "a network name that is longer than thirty-two bytes"%string).
Proof.
  apply (set_essid_request_bounded
           "a network name that is longer than thirty-two bytes" sample_world);
    reflexivity.
Defined.

Lemma wireless_link_active_frame (w : World) :
  let r := nm_device_wireless_link_active w in
  w_trace (snd r) = w_trace w
  /\ w_kernel (snd r) = w_kernel w
  /\ w_heap (snd r) = w_heap w
  /\ w_data (snd r) = w_data w
  /\ link_active (w_dev (snd r)) = link_active (w_dev w)
  /\ test_device (w_dev (snd r)) = test_device (w_dev w)
  /\ dev_type (w_dev (snd r)) = dev_type (w_dev w)
  /\ best_ap (wopts (snd r)) = best_ap (wopts w)
  /\ nm_device_wireless_link_active (snd r) = (fst r, snd r).
Proof.
  unfold nm_device_wireless_link_active.
  destruct (test_device (w_dev w)) eqn:Ht; simpl.
  { rewrite Ht. repeat split. }
  destruct (nm_device_wireless_is_associated w) eqn:Ha; simpl.
  2: { rewrite Ht, Ha. repeat split. }
  destruct (nm_device_get_best_ap w) as [b |] eqn:Eb; simpl.
  2: { rewrite Ht, Ha, Eb. repeat split. }
  unfold nm_device_need_ap_switch.
  destruct (nm_device_is_wireless (w_dev w)) eqn:Hw; simpl.
  2: { rewrite Ht, Ha, Eb. simpl. rewrite Hw. repeat split. }
  rewrite Eb.
  unfold nm_device_wireless_is_associated in Ha. rewrite Ht in Ha.
  unfold nm_device_get_best_ap in Eb. rewrite Hw in Eb. simpl in Eb.
  unfold nm_device_get_essid. rewrite Hw, Ht. simpl.
  destruct (sock_fails (w_kernel w)) eqn:Hs; [discriminate |].
  unfold nm_device_is_wireless in Hw.
  destruct w as [d dt h k t]. destruct d as [? ? ? ? ? ? ? ? ? wl]. destruct wl.
  simpl in *. subst.
  destruct (k_essid k) as [e |] eqn:Ek; simpl;
    unfold nm_device_wireless_is_associated, nm_device_get_best_ap, nm_device_is_wireless,
      wopts; simpl; rewrite ?Hs, ?Ha, ?Hw; simpl; rewrite ?Hw, ?Hs, ?Ek; simpl;
    rewrite ?Hw; simpl; repeat split.
Qed.

(** What nm_device_update_link_active does to the trace, to the kernel
    and when repeated. *)
Lemma update_link_active_spec (w : World) :
  let w' := nm_device_update_link_active w in
  w_trace w'
  = w_trace w ++ (if bool_decide (link_active (w_dev w') = link_active (w_dev w))
                  then [] else [EvMarkStateChanged])
  /\ w_kernel w' = w_kernel w
  /\ nm_device_update_link_active w' = w'.
Proof.
  unfold nm_device_update_link_active.
  destruct (dev_type (w_dev w)) eqn:Hd.
  - unfold nm_device_get_link_active.
    rewrite bool_decide_eq_true_2 by reflexivity. simpl.
    rewrite bool_decide_eq_true_2 by reflexivity. rewrite app_nil_r.
    rewrite Hd. rewrite bool_decide_eq_true_2 by reflexivity. repeat split.
  - unfold nm_device_wired_link_active, nm_device_get_link_active.
    destruct (test_device (w_dev w)) eqn:Ht.
    + rewrite bool_decide_eq_true_2 by reflexivity. simpl.
      rewrite bool_decide_eq_true_2 by reflexivity. rewrite app_nil_r.
      rewrite Hd, Ht. rewrite bool_decide_eq_true_2 by reflexivity. repeat split.
    + case_bool_decide as Hl; simpl.
      * rewrite bool_decide_eq_true_2 by reflexivity. rewrite app_nil_r.
        rewrite Hd, Ht. rewrite bool_decide_eq_true_2 by exact Hl. repeat split.
      * rewrite bool_decide_eq_false_2 by (intros E; apply Hl; now rewrite E).
        rewrite Hd, Ht. simpl.
        rewrite bool_decide_eq_true_2 by reflexivity. repeat split.
  - pose proof (wireless_link_active_frame w) as F. cbv zeta in F.
    destruct (nm_device_wireless_link_active w) as [link w1] eqn:E.
    simpl in F. destruct F as (F1 & F2 & F3 & F4 & F5 & F6 & F7 & F8 & F9).
    unfold nm_device_get_link_active. rewrite F5.
    case_bool_decide as Hl; simpl.
    + rewrite F1, F5, F7, Hd, F9.
      rewrite bool_decide_eq_true_2 by reflexivity. rewrite app_nil_r.
      unfold nm_device_get_link_active. rewrite F5.
      rewrite bool_decide_eq_true_2 by exact Hl. repeat split. exact F2.
    + rewrite F1, F7, Hd.
      rewrite bool_decide_eq_false_2 by (intros E'; apply Hl; now rewrite E').
      split; [reflexivity |]. split; [exact F2 |].
      assert (Hagain : nm_device_wireless_link_active
                         (emit EvMarkStateChanged (with_dev (set_link_active link) w1))
                       = (link, emit EvMarkStateChanged (with_dev (set_link_active link) w1))).
      { revert F9 F6 Hl. clear.
        unfold nm_device_wireless_link_active, nm_device_wireless_is_associated,
          nm_device_need_ap_switch, nm_device_get_best_ap, nm_device_get_essid,
          nm_device_is_wireless, nm_device_get_link_active, wopts.
        destruct w1 as [d dt h k t]. destruct d as [? ? ? ? ? ? ? ? ? wl]. destruct wl.
        simpl. intros F9 F6 Hl. rewrite F6.
        destruct (test_device (w_dev w)) eqn:Ht.
        { rewrite F6 in F9. simpl in F9. injection F9 as F9. congruence. }
        rewrite F6 in F9. simpl in F9.
        repeat case_match; simplify_eq; try reflexivity.
        unfold with_dev, with_wireless, set_cur_essid, emit, set_link_active in *.
        simpl in *. simplify_eq. reflexivity. }
      rewrite Hagain. simpl.
      rewrite bool_decide_eq_true_2 by reflexivity. reflexivity.
Qed.

Lemma update_signal_strength_same_card (stats : option SignalObs) (w w' : World)
    (s : SignalState) :
  keeps_card w w' ->
  nm_device_update_signal_strength stats w' s = nm_device_update_signal_strength stats w s.
Proof.
  intros (Ht & Hd & _ & _ & Hdata & _).
  unfold nm_device_update_signal_strength, nm_device_is_wireless.
  now rewrite Ht, Hd, Hdata.
Qed.

Lemma keeps_card_wireless_link_active (w : World) :
  keeps_card w (snd (nm_device_wireless_link_active w)).
Proof.
  unfold nm_device_wireless_link_active.
  destruct (test_device (w_dev w)); [apply keeps_card_refl |].
  destruct (negb (nm_device_wireless_is_associated w)); [apply keeps_card_refl |].
  destruct (nm_device_get_best_ap w) as [b |] eqn:Eb; [| apply keeps_card_refl].
  unfold nm_device_need_ap_switch.
  destruct (negb (nm_device_is_wireless (w_dev w))); [apply keeps_card_refl |].
  pose proof (keeps_card_get_essid w) as K.
  destruct (nm_device_get_essid w) as [es w1]. exact K.
Qed.

Lemma update_signal_strength_counter (stats : option SignalObs) (w : World)
    (s : SignalState) :
  0 <= invalid_strength_counter s <= 3 ->
  0 <= invalid_strength_counter (nm_device_update_signal_strength stats w s) <= 3.
Proof.
  intros H. unfold nm_device_update_signal_strength.
  repeat case_match; simpl; lia.
Qed.

(** X4. nm_device_update_link_active marks the global state as changed
    exactly when the link state it stores differs from the one stored
    before, and leaves the kernel state alone. A second call right after
    the first changes nothing of the device record, the process-wide data,
    the access points, the kernel state or the trace: all it does is
    update the signal fields once more, as every call on a wireless device
    does. On a device that is not wireless the signal fields are never
    touched, and on every device the counter of invalid readings stays
    between 0 and 3. *)
Theorem update_link_active_again (stats1 stats2 : option SignalObs) (w : World)
    (s : SignalState) :
  let r1 := nm_device_update_link_active_signal stats1 (w, s) in
  let r2 := nm_device_update_link_active_signal stats2 r1 in
  w_trace (fst r1)
  = w_trace w ++ (if bool_decide (link_active (w_dev (fst r1)) = link_active (w_dev w))
                  then [] else [EvMarkStateChanged])
  /\ w_kernel (fst r1) = w_kernel w
  /\ fst r2 = fst r1
  /\ snd r2 = (if nm_device_is_wireless (w_dev w)
               then nm_device_update_signal_strength stats2 w (snd r1)
               else snd r1)
  /\ (nm_device_is_wireless (w_dev w) = false -> snd r1 = s)
  /\ (0 <= invalid_strength_counter s <= 3 ->
      0 <= invalid_strength_counter (snd r2) <= 3).
Proof.
  destruct (update_link_active_spec w) as (T & K & I). cbv zeta in T, K, I.
  destruct (update_link_active_frame w) as (F & _).
  assert (Hd : dev_type (w_dev (nm_device_update_link_active w)) = dev_type (w_dev w))
    by apply F.
  unfold nm_device_update_link_active_signal. cbn [fst snd]. rewrite Hd.
  split; [exact T |]. split; [exact K |]. split; [exact I |].
  unfold nm_device_is_wireless.
  destruct (dev_type (w_dev w)) eqn:Ed.
  - rewrite bool_decide_eq_false_2 by discriminate. auto.
  - rewrite bool_decide_eq_false_2 by discriminate. auto.
  - rewrite bool_decide_eq_true_2 by reflexivity.
    assert (E2 : nm_device_update_signal_strength stats2
                   (snd (nm_device_wireless_link_active (nm_device_update_link_active w)))
                   (nm_device_update_signal_strength stats1
                      (snd (nm_device_wireless_link_active w)) s)
                 = nm_device_update_signal_strength stats2 w
                     (nm_device_update_signal_strength stats1
                        (snd (nm_device_wireless_link_active w)) s)).
    { apply update_signal_strength_same_card.
      eapply keeps_card_trans; [exact F | apply keeps_card_wireless_link_active]. }
    rewrite E2. split; [reflexivity |]. split; [discriminate |].
    intros Hc. now do 2 apply update_signal_strength_counter.
Qed.

Lemma update_link_active_again_witness :
  let w := with_dev (fun _ => sample_wired_device) sample_world in
  let s := {| strength := 40; noise := 0; max_quality := 0;
              invalid_strength_counter := 3 |} in
  let r1 := nm_device_update_link_active_signal None (w, s) in
  let r2 := nm_device_update_link_active_signal None r1 in
  (nm_device_is_wireless (w_dev w) = false /\ 0 <= invalid_strength_counter s <= 3)
  /\ snd r1 = s
  /\ 0 <= invalid_strength_counter (snd r2) <= 3.
Proof.
  intros w s r1 r2.
  assert (H1 : nm_device_is_wireless (w_dev w) = false) by reflexivity.
  assert (H2 : 0 <= invalid_strength_counter s <= 3) by (simpl; lia).
  destruct (update_link_active_again None None w s) as (_ & _ & _ & _ & A & B).
  split; [auto |]. split; [exact (A H1) | exact (B H2)].
Defined.

(** ** Starting and cancelling an activation *)

(** X5. nm_device_activation_begin leaves the device marked as
    activating exactly when it was so already or a worker thread has been
    started; the Activating signal goes out exactly with the thread; a
    FALSE return leaves the device not activating, with nothing signalled
    or scheduled; and a call on a device that is activating already
    answers TRUE and changes nothing. *)
Theorem activation_begin_activating_flag (thread_ok : bool) (w : World) :
  let r := nm_device_activation_begin thread_ok w in
  let new := drop (length (w_trace w)) (w_trace (snd r)) in
  (activating (w_dev (snd r)) = true
   <-> activating (w_dev w) = true \/ In EvThreadCreate new)
  /\ (In (EvSignalDeviceStatus DEVICE_ACTIVATING) new <-> In EvThreadCreate new)
  /\ (fst r = false -> activating (w_dev (snd r)) = false /\ new = [])
  /\ (activating (w_dev w) = true -> r = (true, w)).
Proof.
  unfold nm_device_activation_begin.
  destruct (activating (w_dev w)) eqn:Ha; simpl.
  { rewrite drop_all. repeat split; auto; try discriminate; simpl; tauto. }
  destruct w as [d dt h k t]. simpl in *.
  destruct (nm_device_is_wireless _); simpl;
    destruct (bool_decide _); simpl;
    try (rewrite drop_all; repeat split; auto; simpl; intros; try tauto;
         try discriminate; intuition discriminate);
    destruct (starting_up dt && _ && _); simpl;
    try (rewrite drop_app_length; repeat split; auto; simpl; intros; try tauto;
         try discriminate; intuition discriminate);
    destruct thread_ok; simpl;
    try (rewrite drop_all; repeat split; auto; simpl; intros; try tauto;
         try discriminate; intuition discriminate);
    rewrite <- app_assoc, drop_app_length; simpl;
    repeat split; auto; intros; try tauto; try discriminate; intuition discriminate.
Qed.

Section Cancelling.

Variable nm_ap_get_enc_key_hashed : NMAccessPoint -> option string.

(** The positions of nm_device_activate_wireless at which it asks
    whether it has been told to quit: label get_ap, the wait for an access
    point, the wait for a key, and the head of the authentication loop. *)
Lemma cancel_points_step (o : Obs) (v : aw_locals) (w : World) (pc : aw_pc) :
  quit_activation (w_dev w) = true ->
  pc = AW_get_ap
  \/ (pc = AW_poll_ap /\ nm_device_get_best_ap w = None)
  \/ (exists b, pc = AW_wait_key b)
  \/ (exists b a, pc = AW_auth b a
                  /\ (a = NM_DEVICE_AUTH_METHOD_SHARED_KEY
                      \/ a = NM_DEVICE_AUTH_METHOD_OPEN_SYSTEM)) ->
  exists sleeps,
    aw_step nm_ap_get_enc_key_hashed o (aw_at_pc pc v w)
    = aw_out false v
        (with_dev (set_quit_activation false)
           (with_dev (set_activating false) sleeps))
    /\ quit_activation (w_dev sleeps) = true
    /\ w_heap sleeps = w_heap w /\ w_data sleeps = w_data w /\ w_kernel sleeps = w_kernel w
    /\ (w_trace sleeps = w_trace w
        \/ w_trace sleeps = w_trace w ++ [EvSleep (G_USEC_PER_SEC * 2)]).
Proof.
  intros Hq [-> | [[-> Hb] | [[b ->] | (b & a & -> & Ha)]]];
    unfold aw_step, aw_at_pc; cbn [aw_at aw_vars aw_world].
  - exists w. unfold nm_device_activation_handle_cancel. rewrite Hq. auto 10.
  - rewrite Hb.
    exists (g_usleep (G_USEC_PER_SEC * 2)
              (with_dev (with_wireless (set_now_scanning true)) w)).
    unfold nm_device_activation_handle_cancel. simpl. rewrite Hq. auto 10.
  - exists w. rewrite Hq, andb_false_r.
    unfold nm_device_activation_handle_cancel. rewrite Hq. auto 10.
  - exists w. replace (auth_to_Z NM_DEVICE_AUTH_METHOD_NONE <? auth_to_Z a) with true
      by (destruct Ha as [-> | ->]; reflexivity).
    unfold nm_device_activation_handle_cancel. simpl. rewrite Hq. auto 10.
Qed.

(** X6. When a request to quit is pending and
    nm_device_activate_wireless stands at one of its cancellation points
    (label get_ap, the wait for an access point while there is none, the
    wait for a key, the head of an authentication attempt), its next step
    returns FALSE with the activating, quit and scanning flags cleared;
    it makes no request to the card or to the kernel on the way (at most
    it finishes the two-second wait for an access point). The poll that
    finds an access point is no cancellation point: the engine goes on
    with that access point, the request still pending. *)
Theorem cancel_at_cancellation_points (o : Obs) (v : aw_locals) (w : World) (pc : aw_pc) :
  quit_activation (w_dev w) = true ->
  let c := aw_step nm_ap_get_enc_key_hashed o (aw_at_pc pc v w) in
  (pc = AW_get_ap
   \/ (pc = AW_poll_ap /\ nm_device_get_best_ap w = None)
   \/ (exists b, pc = AW_wait_key b)
   \/ (exists b a, pc = AW_auth b a
                   /\ (a = NM_DEVICE_AUTH_METHOD_SHARED_KEY
                       \/ a = NM_DEVICE_AUTH_METHOD_OPEN_SYSTEM)) ->
   aw_at c = AW_return false
   /\ aw_vars c = v
   /\ activating (w_dev (aw_world c)) = false
   /\ quit_activation (w_dev (aw_world c)) = false
   /\ now_scanning (wopts (aw_world c)) = false
   /\ w_kernel (aw_world c) = w_kernel w
   /\ w_heap (aw_world c) = w_heap w
   /\ (w_trace (aw_world c) = w_trace w
       \/ w_trace (aw_world c) = w_trace w ++ [EvSleep (G_USEC_PER_SEC * 2)]))
  /\ (forall best,
        pc = AW_poll_ap ->
        nm_device_get_best_ap w = Some best ->
        (aw_at c = AW_unencrypted best
         \/ exists need_key,
              aw_at c = AW_need_key best NM_DEVICE_AUTH_METHOD_SHARED_KEY need_key)
        /\ aw_vars c = v
        /\ quit_activation (w_dev (aw_world c)) = true
        /\ activating (w_dev (aw_world c)) = activating (w_dev w)
        /\ w_trace (aw_world c) = w_trace w).
Proof.
  intros Hq c. split.
  - intros Hpc. subst c.
    destruct (cancel_points_step o v w pc Hq Hpc) as (s & -> & _ & Hh & _ & Hk & Ht).
    unfold aw_out. simpl. repeat split; auto.
  - intros best -> Hb. subst c. unfold aw_step, aw_at_pc.
    cbn [aw_at aw_vars aw_world]. rewrite Hb.
    destruct (negb (nm_ap_get_encrypted _ best)); cbn [aw_at aw_vars aw_world];
      (split; [eauto |]); simpl; auto.
Qed.

(** X7. While no key has come and nobody has told it to quit, the wait
    for the user's key does nothing but sleep half a second at a time, for
    as long as it takes. *)
Theorem key_wait_only_sleeps (o : Obs) (v : aw_locals) (w : World) (best : nat) (n : nat) :
  user_key_received (wopts w) = false ->
  quit_activation (w_dev w) = false ->
  aw_run nm_ap_get_enc_key_hashed (repeat (EnvNothing, o) n)
    (aw_at_pc (AW_wait_key best) v w)
  = aw_at_pc (AW_wait_key best) v
      {| w_dev := w_dev w; w_data := w_data w; w_heap := w_heap w;
         w_kernel := w_kernel w;
         w_trace := w_trace w ++ repeat (EvSleep 500000) n |}.
Proof.
  revert w. induction n as [| n IH]; intros w Hk Hq; simpl.
  - rewrite app_nil_r. destruct w; reflexivity.
  - unfold aw_step at 1. cbn [aw_at aw_vars aw_world aw_at_pc].
    rewrite Hk, Hq. cbn [negb andb].
    change {| aw_at := AW_wait_key best; aw_vars := v;
              aw_world := g_usleep (G_USEC_PER_SEC / 2) w |}
      with (aw_at_pc (AW_wait_key best) v (g_usleep (G_USEC_PER_SEC / 2) w)).
    rewrite IH by assumption. simpl. rewrite <- app_assoc. reflexivity.
Qed.

(** X8. When the user's key for the ESSID of the current best access
    point arrives during the wait, it is stored on that access point and
    the engine goes back to get_ap; finding the same access point, now with
    a key, it asks nothing more and starts authenticating with Shared Key.
    The attempt counter is not touched. *)
Theorem user_key_restarts_authentication (o1 o2 o3 o4 : Obs) (v : aw_locals) (w : World)
    (best : nat) (network key : string) (enc_method : NMEncKeyType) :
  nm_device_get_best_ap w = Some best ->
  quit_activation (w_dev w) = false ->
  is_Some (w_heap w !! best) ->
  nm_ap_get_essid (w_heap w) best = Some network ->
  nm_ap_get_encrypted (w_heap w) best = true ->
  key <> ""%string ->
  strncmp_eq key cancel_message (String.length cancel_message) = false ->
  let c := aw_run nm_ap_get_enc_key_hashed
             [(EnvUserKey network key enc_method, o1); (EnvNothing, o2);
              (EnvNothing, o3); (EnvNothing, o4)]
             (aw_at_pc (AW_wait_key best) v w) in
  aw_at c = AW_auth best NM_DEVICE_AUTH_METHOD_SHARED_KEY
  /\ aw_vars c = v
  /\ nm_ap_get_enc_key_source (w_heap (aw_world c)) best = Some key
  /\ nm_ap_get_enc_method (w_heap (aw_world c)) best = enc_method
  /\ w_trace (aw_world c) = w_trace w.
Proof.
  intros Hb Hq [a Ha] He Henc Hk Hc c.
  assert (Hw : nm_device_is_wireless (w_dev w) = true).
  { unfold nm_device_get_best_ap in Hb. destruct (nm_device_is_wireless (w_dev w));
      [reflexivity | discriminate]. }
  set (w1 := with_dev (with_wireless (set_user_key_received true))
               (with_heap (nm_ap_set_enc_key_source best (Some key) enc_method) w)).
  set (w2 := with_dev (with_wireless (set_now_scanning false)) w1).
  assert (S1 : env_apply (EnvUserKey network key enc_method) w = w1).
  { simpl. unfold nm_device_set_user_key_for_network.
    rewrite Hw, Hc, Hb. cbn [negb]. rewrite He.
    unfold nm_null_safe_strcmp_eq. now rewrite bool_decide_eq_true_2 by reflexivity. }
  assert (Hq1 : nm_device_activation_handle_cancel w1 = (false, w1)).
  { unfold nm_device_activation_handle_cancel. subst w1. simpl. now rewrite Hq. }
  assert (S2 : forall o, aw_step nm_ap_get_enc_key_hashed o
                           {| aw_at := AW_wait_key best; aw_vars := v; aw_world := w1 |}
                         = {| aw_at := AW_get_ap; aw_vars := v; aw_world := w1 |}).
  { intros o. unfold aw_step. cbn [aw_at aw_vars aw_world]. rewrite Hq1.
    subst w1. reflexivity. }
  assert (S3 : forall o, aw_step nm_ap_get_enc_key_hashed o
                           {| aw_at := AW_get_ap; aw_vars := v; aw_world := w1 |}
                         = {| aw_at := AW_poll_ap; aw_vars := v; aw_world := w1 |}).
  { intros o. unfold aw_step. cbn [aw_at aw_vars aw_world]. now rewrite Hq1. }
  assert (Hnew : deref (w_heap w1) best = set_ap_enc_key_source (Some key) enc_method a).
  { subst w1. simpl. unfold deref, nm_ap_set_enc_key_source.
    now rewrite list_lookup_alter_eq, Ha. }
  assert (Hold : deref (w_heap w) best = a) by (unfold deref; now rewrite Ha).
  assert (Henc1 : nm_ap_get_encrypted (w_heap w1) best = true).
  { unfold nm_ap_get_encrypted in *. rewrite Hnew. rewrite Hold in Henc. exact Henc. }
  assert (Hneed : AP_NEED_KEY (w_heap w1) best = false).
  { unfold AP_NEED_KEY. rewrite Henc1. unfold nm_ap_get_enc_key_source. rewrite Hnew.
    cbn [ap_enc_key_source set_ap_enc_key_source].
    rewrite bool_decide_eq_true_2 by eauto.
    rewrite bool_decide_eq_false_2 by (destruct key; [congruence | discriminate]).
    reflexivity. }
  assert (S4 : forall o, aw_step nm_ap_get_enc_key_hashed o
                           {| aw_at := AW_poll_ap; aw_vars := v; aw_world := w1 |}
                         = {| aw_at := AW_need_key best NM_DEVICE_AUTH_METHOD_SHARED_KEY false;
                              aw_vars := v; aw_world := w2 |}).
  { intros o. unfold aw_step. cbn [aw_at aw_vars aw_world].
    replace (nm_device_get_best_ap w1) with (Some best)
      by (rewrite <- Hb; subst w1; reflexivity).
    cbn [w_heap with_dev]. rewrite Henc1, Hneed. reflexivity. }
  assert (S5 : forall o, aw_step nm_ap_get_enc_key_hashed o
                           {| aw_at := AW_need_key best NM_DEVICE_AUTH_METHOD_SHARED_KEY false;
                              aw_vars := v; aw_world := w2 |}
                         = {| aw_at := AW_auth best NM_DEVICE_AUTH_METHOD_SHARED_KEY;
                              aw_vars := v; aw_world := w2 |}).
  { intros o. reflexivity. }
  assert (Hc' : c = {| aw_at := AW_auth best NM_DEVICE_AUTH_METHOD_SHARED_KEY;
                       aw_vars := v; aw_world := w2 |}).
  { subst c. cbn [aw_run aw_at_pc aw_at aw_vars aw_world].
    rewrite S1, S2. cbn [aw_at aw_vars aw_world env_apply].
    rewrite S3. cbn [aw_at aw_vars aw_world env_apply].
    rewrite S4. cbn [aw_at aw_vars aw_world env_apply].
    rewrite S5. reflexivity. }
  rewrite Hc'. cbn [aw_at aw_vars aw_world].
  split; [reflexivity |]. split; [reflexivity |].
  replace (w_heap w2) with (w_heap w1) by reflexivity.
  unfold nm_ap_get_enc_key_source, nm_ap_get_enc_method. rewrite Hnew.
  repeat split.
Qed.

End Cancelling.

Lemma cancel_at_cancellation_points_witness :
  let v := {| attempt := 1; last_essid := ""%string |} in
  let w := with_dev (set_quit_activation true) (sample_keyed_world NETWORK_MODE_INFRA) in
  let at_auth := aw_step ap_enc_key_source obs_no_link
                   (aw_at_pc (AW_auth 0%nat NM_DEVICE_AUTH_METHOD_SHARED_KEY) v w) in
  let at_poll := aw_step ap_enc_key_source obs_no_link (aw_at_pc AW_poll_ap v w) in
  (quit_activation (w_dev w) = true /\ nm_device_get_best_ap w = Some 0%nat)
  /\ (aw_at at_auth = AW_return false /\ activating (w_dev (aw_world at_auth)) = false)
  /\ quit_activation (w_dev (aw_world at_poll)) = true.
Proof.
  intros v w at_auth at_poll.
  assert (Hq : quit_activation (w_dev w) = true) by reflexivity.
  assert (Hb : nm_device_get_best_ap w = Some 0%nat) by reflexivity.
  destruct (cancel_at_cancellation_points ap_enc_key_source obs_no_link v w
              (AW_auth 0%nat NM_DEVICE_AUTH_METHOD_SHARED_KEY) Hq) as (A & _).
  destruct (cancel_at_cancellation_points ap_enc_key_source obs_no_link v w
              AW_poll_ap Hq) as (_ & B).
  destruct A as (H1 & _ & H2 & _).
  { right; right; right. exists 0%nat, NM_DEVICE_AUTH_METHOD_SHARED_KEY. auto. }
  destruct (B 0%nat eq_refl Hb) as (_ & _ & H3 & _).
  split; [auto |]. split; [split; assumption | exact H3].
Defined.

Lemma key_wait_only_sleeps_witness :
  w_trace (aw_world
             (aw_run ap_enc_key_source (repeat (EnvNothing, obs_no_link) 3)
                (aw_at_pc (AW_wait_key 0%nat) {| attempt := 2; last_essid := "corp"%string |}
                   (sample_keyed_world NETWORK_MODE_INFRA))))
  = [EvSleep 500000; EvSleep 500000; EvSleep 500000].
Proof.
  rewrite (key_wait_only_sleeps ap_enc_key_source obs_no_link
             {| attempt := 2; last_essid := "corp"%string |}
             (sample_keyed_world NETWORK_MODE_INFRA) 0%nat 3 eq_refl eq_refl).
  reflexivity.
Defined.

Lemma user_key_restarts_authentication_witness :
  let c := aw_run ap_enc_key_source
             [(EnvUserKey "corp" "0123456789" NM_ENC_TYPE_HEX_KEY, obs_no_link);
              (EnvNothing, obs_no_link); (EnvNothing, obs_no_link);
              (EnvNothing, obs_no_link)]
             (aw_at_pc (AW_wait_key 0%nat) {| attempt := 2; last_essid := "corp"%string |}
                (sample_keyed_world NETWORK_MODE_INFRA)) in
  aw_at c = AW_auth 0%nat NM_DEVICE_AUTH_METHOD_SHARED_KEY
  /\ nm_ap_get_enc_key_source (w_heap (aw_world c)) 0%nat = Some "0123456789"%string.
Proof.
  destruct (user_key_restarts_authentication ap_enc_key_source
              obs_no_link obs_no_link obs_no_link obs_no_link
              {| attempt := 2; last_essid := "corp"%string |}
              (sample_keyed_world NETWORK_MODE_INFRA) 0%nat "corp" "0123456789"
              NM_ENC_TYPE_HEX_KEY)
    as (H1 & _ & H2 & _); try reflexivity.
  - eexists; reflexivity.
  - discriminate.
  - split; assumption.
Defined.

(** ** What the primitives add to the trace *)

Lemma appends_only_refl (P : Event -> bool) (w : World) : appends_only P w w.
Proof. exists []. now rewrite app_nil_r. Qed.

Lemma appends_only_trans (P : Event -> bool) (w1 w2 w3 : World) :
  appends_only P w1 w2 -> appends_only P w2 w3 -> appends_only P w1 w3.
Proof.
  intros (n1 & T1 & F1) (n2 & T2 & F2). exists (n1 ++ n2).
  rewrite T2, T1, app_assoc. split; [reflexivity |].
  rewrite forallb_app, F1, F2. reflexivity.
Qed.

Lemma appends_only_weaken (P Q : Event -> bool) (w w' : World) :
  (forall e, P e = true -> Q e = true) -> appends_only P w w' -> appends_only Q w w'.
Proof.
  intros HPQ (n & T & F). exists n. split; [exact T |].
  rewrite forallb_forall in *. auto.
Qed.

Lemma appends_only_emit (P : Event -> bool) (e : Event) (w : World) :
  P e = true -> appends_only P w (emit e w).
Proof. intros H. exists [e]. simpl. now rewrite H. Qed.

Lemma appends_only_same_trace (P : Event -> bool) (w w' : World) :
  w_trace w' = w_trace w -> appends_only P w w'.
Proof. intros H. exists []. now rewrite app_nil_r. Qed.

Lemma appends_set_up_down up (w : World) :
  appends_only is_flag_request w (nm_device_set_up_down up w).
Proof.
  unfold nm_device_set_up_down.
  repeat case_match; try apply appends_only_refl;
    try (apply appends_only_same_trace; reflexivity);
    try (apply appends_only_emit; reflexivity).
  all: eexists; simpl; rewrite <- ?app_assoc; split; reflexivity.
Qed.

Lemma appends_is_up (w : World) :
  appends_only is_flag_request w (snd (nm_device_is_up w)).
Proof.
  unfold nm_device_is_up.
  repeat case_match; simpl; try apply appends_only_refl;
    apply appends_only_emit; reflexivity.
Qed.

Lemma appends_bring_up_if_down (w : World) :
  appends_only is_flag_request w (bring_up_if_down w).
Proof.
  unfold bring_up_if_down. pose proof (appends_is_up w) as K.
  destruct (nm_device_is_up w) as [up w1]. simpl in K.
  destruct up; simpl; [exact K |].
  eapply appends_only_trans; [exact K | apply appends_set_up_down].
Qed.

Lemma appends_set_essid e (w : World) :
  appends_only is_essid_request w (nm_device_set_essid e w).
Proof.
  unfold nm_device_set_essid.
  repeat case_match; try apply appends_only_refl;
    try (apply appends_only_same_trace; reflexivity);
    apply appends_only_emit; reflexivity.
Qed.

Lemma appends_set_enc_key k a (w : World) :
  appends_only is_encode_request w (nm_device_set_enc_key k a w).
Proof.
  unfold nm_device_set_enc_key.
  repeat case_match; try apply appends_only_refl;
    apply appends_only_emit; reflexivity.
Qed.

Lemma appends_set_mode m (w : World) :
  appends_only is_tuning_request w (nm_device_set_mode m w).
Proof.
  unfold nm_device_set_mode.
  repeat case_match; try apply appends_only_refl; apply appends_only_emit; reflexivity.
Qed.

Lemma appends_set_bitrate r (w : World) :
  appends_only is_tuning_request w (nm_device_set_bitrate r w).
Proof.
  unfold nm_device_set_bitrate.
  repeat case_match; try apply appends_only_refl; apply appends_only_emit; reflexivity.
Qed.

Lemma appends_set_frequency f (w : World) :
  appends_only is_tuning_request w (nm_device_set_frequency f w).
Proof.
  unfold nm_device_set_frequency.
  repeat case_match; try apply appends_only_refl; apply appends_only_emit; reflexivity.
Qed.

Lemma trace_update_link_active (w : World) :
  w_trace (nm_device_update_link_active w) = w_trace w
  \/ w_trace (nm_device_update_link_active w) = w_trace w ++ [EvMarkStateChanged].
Proof.
  destruct (update_link_active_spec w) as (T & _). cbv zeta in T.
  rewrite T. case_bool_decide; [left; now rewrite app_nil_r | right; reflexivity].
Qed.

Lemma appends_update_link_active (P : Event -> bool) (w : World) :
  P EvMarkStateChanged = true -> appends_only P w (nm_device_update_link_active w).
Proof.
  intros HP. destruct (trace_update_link_active w) as [T | T].
  - now apply appends_only_same_trace.
  - exists [EvMarkStateChanged]. simpl. now rewrite HP.
Qed.

Lemma appends_association_pause (P : Event -> bool) c (w : World) :
  (forall u, P (EvSleep u) = true) -> appends_only P w (association_pause c w).
Proof.
  intros HP. exists [EvSleep (G_USEC_PER_SEC * nm_device_get_association_pause_value (w_dev w))].
  simpl. now rewrite HP.
Qed.

Lemma total_sleep_app (l1 l2 : list Event) :
  total_sleep (l1 ++ l2) = total_sleep l1 + total_sleep l2.
Proof.
  induction l1 as [| e l1 IH]; simpl; [reflexivity |].
  destruct e; rewrite ?IH; lia.
Qed.

Lemma total_sleep_none (l : list Event) :
  forallb (fun e => negb (is_sleep e)) l = true -> total_sleep l = 0.
Proof.
  induction l as [| e l IH]; simpl; [reflexivity |].
  intros H. apply andb_true_iff in H as [He Hl].
  destruct e; try discriminate; auto.
Qed.

Lemma total_sleep_appends (P : Event -> bool) (w w' : World) :
  (forall e, P e = true -> is_sleep e = false) ->
  appends_only P w w' ->
  total_sleep (w_trace w') = total_sleep (w_trace w).
Proof.
  intros HP (n & T & F). rewrite T, total_sleep_app.
  rewrite (total_sleep_none n); [lia |].
  rewrite forallb_forall in *. intros e He. rewrite (HP e (F e He)). reflexivity.
Qed.

Lemma total_sleep_emit (e : Event) (w : World) :
  total_sleep (w_trace (emit e w))
  = total_sleep (w_trace w) + match e with EvSleep u => u | _ => 0 end.
Proof. simpl. rewrite total_sleep_app. simpl. destruct e; lia. Qed.

Lemma filter_appends (P Q : Event -> bool) (w w' : World) :
  (forall e, P e = true -> Q e = false) ->
  appends_only P w w' ->
  List.filter Q (w_trace w') = List.filter Q (w_trace w).
Proof.
  intros HP (n & T & F). rewrite T, List.filter_app.
  replace (List.filter Q n) with (@nil Event); [now rewrite app_nil_r |].
  symmetry. rewrite forallb_forall in F. clear T.
  induction n as [| e n IH]; simpl; [reflexivity |].
  rewrite (HP e (F e (or_introl eq_refl))). apply IH. intros x Hx. apply F. now right.
Qed.

(** ** Configuring the IP layer *)

Lemma configure_ip_spec (only_autoip : bool) (ip : IpObs) (w : World) :
  let r := nm_device_activation_configure_ip only_autoip ip w in
  let asked :=
    if only_autoip then EvAutoIP
    else if nm_device_config_get_use_dhcp (w_dev w) then EvDhcpRequest else EvStaticIP in
  fst r = (if only_autoip then o_autoip ip
           else if nm_device_config_get_use_dhcp (w_dev w) then o_dhcp_bound ip
           else o_static ip)
  /\ exists rest,
       w_trace (snd r)
       = w_trace w ++ [EvDeleteDefaultRoute; asked] ++ rest
         ++ (if fst r then [EvFlushArpCache; EvRestartMdns] else [])
       /\ forallb is_device_request rest = true
       /\ (fst r = true -> rest = []).
Proof.
  unfold nm_device_activation_configure_ip. cbv zeta.
  destruct only_autoip.
  { destruct (o_autoip ip); simpl; (split; [reflexivity |]); exists [];
      simpl; rewrite <- ?app_assoc; auto. }
  cbn [emit w_dev].
  destruct (nm_device_config_get_use_dhcp (w_dev w)).
  2: { destruct (o_static ip); simpl; (split; [reflexivity |]); exists [];
         simpl; rewrite <- ?app_assoc; auto. }
  destruct (o_dhcp_bound ip).
  { simpl. split; [reflexivity |]. exists []. simpl. rewrite <- ?app_assoc. auto. }
  simpl. split; [reflexivity |].
  match goal with
  | |- context [bring_up_if_down ?x] =>
      assert (K : appends_only is_device_request
                    (emit EvDhcpRequest (emit EvDeleteDefaultRoute w))
                    (bring_up_if_down x))
  end.
  { eapply appends_only_trans;
      [| eapply appends_only_weaken; [| apply appends_bring_up_if_down]].
    - case_match; [| apply appends_only_refl].
      eapply appends_only_trans;
        (eapply appends_only_weaken; [| first [apply appends_set_essid
                                              | apply appends_set_enc_key]]);
        intros []; cbv; congruence.
    - intros []; cbv; congruence. }
  destruct K as (rest & T & F). exists rest. rewrite T. simpl.
  rewrite <- !app_assoc, app_nil_r. simpl. repeat split; [exact F | discriminate].
Qed.

(** X9. nm_device_activation_configure_ip answers what the one
    collaborator it asks answers (AutoIP alone when told so, else DHCP or
    the static configuration as the device is set up). The default route
    is deleted first in every case; the ARP cache is flushed and the mDNS
    responder restarted after a success and only then; in between, a
    success makes no request to the device, and a failure can only be
    followed by requests to the device (the radio reset and bringing the
    interface up after a failed DHCP). *)
Theorem configure_ip_trace (only_autoip : bool) (ip : IpObs) (w : World) :
  let r := nm_device_activation_configure_ip only_autoip ip w in
  let asked :=
    if only_autoip then EvAutoIP
    else if nm_device_config_get_use_dhcp (w_dev w) then EvDhcpRequest else EvStaticIP in
  fst r = (if only_autoip then o_autoip ip
           else if nm_device_config_get_use_dhcp (w_dev w) then o_dhcp_bound ip
           else o_static ip)
  /\ exists rest,
       w_trace (snd r)
       = w_trace w ++ [EvDeleteDefaultRoute; asked] ++ rest
         ++ (if fst r then [EvFlushArpCache; EvRestartMdns] else [])
       /\ forallb is_device_request rest = true
       /\ (fst r = true -> rest = []).
Proof. exact (configure_ip_spec only_autoip ip w). Qed.

(** ** Configuring the radio for an access point *)

Lemma keeps_card_real_wireless (w w' : World) :
  keeps_card w w' -> real_wireless_card w' = real_wireless_card w.
Proof.
  unfold real_wireless_card, nm_device_is_wireless.
  intros (-> & -> & -> & _). reflexivity.
Qed.

Lemma set_enc_key_off_real (a : NMDeviceAuthMethod) (w : World) :
  real_wireless_card w = true ->
  nm_device_set_enc_key None a w = emit (EvSetEncode None encode_disabled_flags) w.
Proof.
  unfold real_wireless_card, nm_device_set_enc_key.
  intros H. apply andb_true_iff in H as [H Hs]. apply andb_true_iff in H as [Hw Ht].
  rewrite Hw. destruct (test_device (w_dev w)); [discriminate |].
  destruct (sock_fails (w_kernel w)); [discriminate |]. reflexivity.
Qed.

Lemma encode_requests_flag (w w' : World) :
  appends_only is_flag_request w w' ->
  List.filter is_encode_request (w_trace w') = List.filter is_encode_request (w_trace w).
Proof. apply filter_appends. intros []; cbv; congruence. Qed.

Lemma encode_requests_tuning (w w' : World) :
  appends_only is_tuning_request w w' ->
  List.filter is_encode_request (w_trace w') = List.filter is_encode_request (w_trace w).
Proof. apply filter_appends. intros []; cbv; congruence. Qed.

Lemma encode_requests_essid (w w' : World) :
  appends_only is_essid_request w w' ->
  List.filter is_encode_request (w_trace w') = List.filter is_encode_request (w_trace w).
Proof. apply filter_appends. intros []; cbv; congruence. Qed.

Lemma total_sleep_flag (w w' : World) :
  appends_only is_flag_request w w' -> total_sleep (w_trace w') = total_sleep (w_trace w).
Proof. apply total_sleep_appends. intros []; cbv; congruence. Qed.

Lemma total_sleep_update_link_active (w : World) :
  total_sleep (w_trace (nm_device_update_link_active w)) = total_sleep (w_trace w).
Proof.
  destruct (trace_update_link_active w) as [-> | ->]; [reflexivity |].
  rewrite total_sleep_app. simpl. lia.
Qed.

Lemma encode_requests_update_link_active (w : World) :
  List.filter is_encode_request (w_trace (nm_device_update_link_active w))
  = List.filter is_encode_request (w_trace w).
Proof.
  destruct (trace_update_link_active w) as [-> | ->]; [reflexivity |].
  rewrite List.filter_app. simpl. now rewrite app_nil_r.
Qed.

Section RadioConfig.

Variable nm_ap_get_enc_key_hashed : NMAccessPoint -> option string.

(** X10. On a wireless device and for an access point that has an
    ESSID, nm_device_set_wireless_config succeeds and blocks for exactly
    four seconds, two seconds and one association pause. If the access
    point is not encrypted or carries no key, the only encryption request
    a real card receives is the one that switches encryption off. On a
    device that is not wireless, or for an access point without ESSID, it
    fails without doing anything. *)
Theorem set_wireless_config_requests (ap : nat) (auth : NMDeviceAuthMethod)
    (card : CardObs) (w : World) :
  let r := nm_device_set_wireless_config nm_ap_get_enc_key_hashed ap auth card w in
  (nm_device_is_wireless (w_dev w) = true ->
   is_Some (nm_ap_get_essid (w_heap w) ap) ->
   fst r = true
   /\ total_sleep (w_trace (snd r))
      = total_sleep (w_trace w)
        + G_USEC_PER_SEC * (4 + 2 + nm_device_get_association_pause_value (w_dev w))
   /\ (real_wireless_card w = true ->
       nm_ap_get_encrypted (w_heap w) ap
       && bool_decide (is_Some (nm_ap_get_enc_key_source (w_heap w) ap)) = false ->
       List.filter is_encode_request (w_trace (snd r))
       = List.filter is_encode_request (w_trace w)
         ++ [EvSetEncode None encode_disabled_flags]))
  /\ (nm_device_is_wireless (w_dev w) = false \/ nm_ap_get_essid (w_heap w) ap = None ->
      r = (false, w)).
Proof.
  cbv zeta. split.
  2: { unfold nm_device_set_wireless_config. intros [-> | H]; [reflexivity |].
       rewrite H. now destruct (negb _). }
  intros Hw [essid He].
  unfold nm_device_set_wireless_config. rewrite Hw, He. cbv zeta. cbn [negb fst snd].
  set (w4 := g_usleep (G_USEC_PER_SEC * 2)
               (nm_device_bring_up (g_usleep (G_USEC_PER_SEC * 4) (nm_device_bring_down w)))).
  set (w8 := nm_device_set_bitrate 0
               (nm_device_set_mode (nm_ap_get_mode (w_heap w) ap)
                  (nm_device_set_essid (Some " "%string)
                     (nm_device_set_mode NETWORK_MODE_INFRA w4)))).
  set (w9 := if nm_ap_get_user_created (w_heap w) ap
                || negb (Qeq_bool (nm_ap_get_freq (w_heap w) ap) 0)
                   && bool_decide (nm_ap_get_mode (w_heap w) ap = NETWORK_MODE_ADHOC)
             then nm_device_set_frequency (nm_ap_get_freq (w_heap w) ap) w8 else w8).
  set (w10 := nm_device_set_enc_key None NM_DEVICE_AUTH_METHOD_NONE w9).
  set (w11 := if nm_ap_get_encrypted (w_heap w) ap
                 && bool_decide (is_Some (nm_ap_get_enc_key_source (w_heap w) ap))
              then nm_device_set_enc_key (nm_ap_get_enc_key_hashed (deref (w_heap w) ap))
                     auth w10
              else w10).
  set (w12 := nm_device_set_essid (Some essid) w11).
  set (w13 := association_pause card w12).
  set (w14 := if bool_decide (nm_ap_get_mode (w_heap w) ap = NETWORK_MODE_ADHOC)
                 && (nm_device_get_bitrate w13 <=? 0)
              then nm_device_set_bitrate 11000 w13 else w13).
  (* what each stretch adds *)
  assert (A4 : total_sleep (w_trace w4) = total_sleep (w_trace w) + G_USEC_PER_SEC * 6
               /\ keeps_card w w4
               /\ List.filter is_encode_request (w_trace w4)
                  = List.filter is_encode_request (w_trace w)).
  { subst w4. unfold g_usleep. rewrite total_sleep_emit.
    rewrite (total_sleep_flag _ _ (appends_set_up_down true _)).
    rewrite total_sleep_emit.
    rewrite (total_sleep_flag _ _ (appends_set_up_down false _)).
    split; [unfold G_USEC_PER_SEC; lia |]. split.
    - eapply keeps_card_trans; [| apply keeps_card_emit].
      eapply keeps_card_trans; [| apply keeps_card_set_up_down].
      eapply keeps_card_trans; [| apply keeps_card_emit].
      apply keeps_card_set_up_down.
    - simpl. rewrite List.filter_app. simpl. rewrite app_nil_r.
      rewrite (encode_requests_flag _ _ (appends_set_up_down true _)).
      simpl. rewrite List.filter_app. simpl. rewrite app_nil_r.
      apply (encode_requests_flag _ _ (appends_set_up_down false _)). }
  assert (Hradio : forall e, is_tuning_request e = true -> is_sleep e = false)
    by (intros []; cbv; congruence).
  assert (Hessid : forall e, is_essid_request e = true -> is_sleep e = false)
    by (intros []; cbv; congruence).
  assert (Hencode : forall e, is_encode_request e = true -> is_sleep e = false)
    by (intros []; cbv; congruence).
  assert (A9 : total_sleep (w_trace w9) = total_sleep (w_trace w4)
               /\ keeps_card w4 w9
               /\ List.filter is_encode_request (w_trace w9)
                  = List.filter is_encode_request (w_trace w4)).
  { assert (A8 : appends_only (fun e => negb (is_sleep e) && negb (is_encode_request e))
                   w4 w9).
    { assert (K : forall b (f : World -> World) x,
                  (forall y, appends_only is_tuning_request y (f y)) ->
                  appends_only (fun e => negb (is_sleep e) && negb (is_encode_request e))
                    w4 x ->
                  appends_only (fun e => negb (is_sleep e) && negb (is_encode_request e))
                    w4 (if b : bool then f x else x)).
      { intros b f x Hf Hx. destruct b; [| exact Hx].
        eapply appends_only_trans; [exact Hx |].
        eapply appends_only_weaken; [| apply Hf]. intros []; cbv; congruence. }
      subst w9 w8. apply K; [intros y; apply appends_set_frequency |].
      eapply appends_only_trans;
        [| eapply appends_only_weaken; [| apply appends_set_bitrate];
           intros []; cbv; congruence].
      eapply appends_only_trans;
        [| eapply appends_only_weaken; [| apply appends_set_mode];
           intros []; cbv; congruence].
      eapply appends_only_trans;
        [| eapply appends_only_weaken; [| apply appends_set_essid];
           intros []; cbv; congruence].
      eapply appends_only_weaken; [| apply appends_set_mode].
      intros []; cbv; congruence. }
    split; [| split].
    - eapply total_sleep_appends; [| exact A8]. intros []; cbv; congruence.
    - subst w9 w8. case_match.
      + eapply keeps_card_trans; [| apply keeps_card_set_frequency].
        eapply keeps_card_trans; [| apply keeps_card_set_bitrate].
        eapply keeps_card_trans; [| apply keeps_card_set_mode].
        eapply keeps_card_trans; [| apply keeps_card_set_essid].
        apply keeps_card_set_mode.
      + eapply keeps_card_trans; [| apply keeps_card_set_bitrate].
        eapply keeps_card_trans; [| apply keeps_card_set_mode].
        eapply keeps_card_trans; [| apply keeps_card_set_essid].
        apply keeps_card_set_mode.
    - eapply filter_appends; [| exact A8]. intros []; cbv; congruence. }
  assert (P12 : nm_device_get_association_pause_value (w_dev w12)
                = nm_device_get_association_pause_value (w_dev w)).
  { assert (Hpv : forall f : World -> World,
              (forall x, w_dev (f x) = w_dev x \/
                         (exists b, w_dev (f x) = set_test_device_up b (w_dev x))
                         \/ (exists e, w_dev (f x)
                                       = with_wireless (set_cur_essid e) (w_dev x))) ->
              forall x, nm_device_get_association_pause_value (w_dev (f x))
                        = nm_device_get_association_pause_value (w_dev x)).
    { intros f Hf x. destruct (Hf x) as [-> | [[b ->] | [e ->]]]; reflexivity. }
    assert (Hud : forall up x, nm_device_get_association_pause_value
                                 (w_dev (nm_device_set_up_down up x))
                               = nm_device_get_association_pause_value (w_dev x)).
    { intros up. apply Hpv. intros x. unfold nm_device_set_up_down.
      repeat case_match; simpl; eauto. }
    assert (Hes : forall e x, nm_device_get_association_pause_value
                                (w_dev (nm_device_set_essid e x))
                              = nm_device_get_association_pause_value (w_dev x)).
    { intros e. apply Hpv. intros x. unfold nm_device_set_essid.
      repeat case_match; simpl; eauto. }
    assert (Hek : forall k a x, nm_device_get_association_pause_value
                                  (w_dev (nm_device_set_enc_key k a x))
                                = nm_device_get_association_pause_value (w_dev x)).
    { intros k a. apply Hpv. intros x. unfold nm_device_set_enc_key.
      repeat case_match; simpl; eauto. }
    assert (Hmo : forall m x, nm_device_get_association_pause_value
                                (w_dev (nm_device_set_mode m x))
                              = nm_device_get_association_pause_value (w_dev x)).
    { intros m. apply Hpv. intros x. unfold nm_device_set_mode.
      repeat case_match; simpl; eauto. }
    assert (Hbr : forall m x, nm_device_get_association_pause_value
                                (w_dev (nm_device_set_bitrate m x))
                              = nm_device_get_association_pause_value (w_dev x)).
    { intros m. apply Hpv. intros x. unfold nm_device_set_bitrate.
      repeat case_match; simpl; eauto. }
    assert (Hfr : forall m x, nm_device_get_association_pause_value
                                (w_dev (nm_device_set_frequency m x))
                              = nm_device_get_association_pause_value (w_dev x)).
    { intros m. apply Hpv. intros x. unfold nm_device_set_frequency.
      repeat case_match; simpl; eauto. }
    subst w12 w11 w10 w9 w8 w4. unfold nm_device_bring_up, nm_device_bring_down, g_usleep.
    repeat case_match;
      repeat first [rewrite Hes | rewrite Hek | rewrite Hmo | rewrite Hbr | rewrite Hfr
                   | rewrite Hud | progress cbn [w_dev emit]];
      reflexivity. }
  destruct A4 as (S4 & K4 & E4), A9 as (S9 & K9 & E9).
  split; [reflexivity |]. split.
  - rewrite total_sleep_update_link_active.
    assert (S14 : total_sleep (w_trace w14) = total_sleep (w_trace w13)).
    { subst w14. case_match; [| reflexivity].
      apply (total_sleep_appends _ _ _ Hradio (appends_set_bitrate _ _)). }
    rewrite S14. subst w13. unfold association_pause, g_usleep.
    cbn [w_trace with_kernel]. rewrite total_sleep_emit, P12.
    subst w12. rewrite (total_sleep_appends _ _ _ Hessid (appends_set_essid _ _)).
    assert (S11 : total_sleep (w_trace w11) = total_sleep (w_trace w9)).
    { subst w11 w10. case_match.
      - rewrite (total_sleep_appends _ _ _ Hencode (appends_set_enc_key _ _ _)).
        apply (total_sleep_appends _ _ _ Hencode (appends_set_enc_key _ _ _)).
      - apply (total_sleep_appends _ _ _ Hencode (appends_set_enc_key _ _ _)). }
    rewrite S11, S9, S4. lia.
  - intros Hreal Hnokey.
    rewrite encode_requests_update_link_active.
    assert (F14 : List.filter is_encode_request (w_trace w14)
                  = List.filter is_encode_request (w_trace w12)).
    { subst w14. case_match.
      - rewrite (encode_requests_tuning _ _ (appends_set_bitrate _ _)).
        subst w13. simpl. rewrite List.filter_app. simpl. now rewrite app_nil_r.
      - subst w13. simpl. rewrite List.filter_app. simpl. now rewrite app_nil_r. }
    rewrite F14. subst w12.
    rewrite (encode_requests_essid _ _ (appends_set_essid _ _)).
    subst w11. rewrite Hnokey. subst w10.
    rewrite set_enc_key_off_real.
    + simpl. rewrite List.filter_app. simpl. now rewrite E9, E4.
    + rewrite (keeps_card_real_wireless w w9); [exact Hreal |].
      eapply keeps_card_trans; eassumption.
Qed.

End RadioConfig.

Lemma set_wireless_config_requests_witness :
  let r := nm_device_set_wireless_config ap_enc_key_source 0%nat NM_DEVICE_AUTH_METHOD_NONE
             card_silent (wireless_world [scanned_ap "cafe" false] [0%nat] [] []
                            (Some 0%nat) false) in
  fst r = true
  /\ total_sleep (w_trace (snd r)) = 11000000
  /\ List.filter is_encode_request (w_trace (snd r))
     = [EvSetEncode None encode_disabled_flags].
Proof.
  destruct (set_wireless_config_requests ap_enc_key_source 0%nat NM_DEVICE_AUTH_METHOD_NONE
              card_silent (wireless_world [scanned_ap "cafe" false] [0%nat] [] []
                             (Some 0%nat) false)) as [H _].
  destruct H as (H1 & H2 & H3); [reflexivity | eexists; reflexivity |].
  cbv zeta. rewrite H1, H2, (H3 eq_refl eq_refl). repeat split.
Defined.

(** ** Probing for a network, once more *)

Lemma pause_value_same_dev (w w' : World) :
  dev_type (w_dev w') = dev_type (w_dev w) ->
  num_frequency (wopts w') = num_frequency (wopts w) ->
  nm_device_get_association_pause_value (w_dev w')
  = nm_device_get_association_pause_value (w_dev w).
Proof.
  unfold nm_device_get_association_pause_value, nm_device_is_wireless, wopts.
  intros -> ->. reflexivity.
Qed.

Lemma get_essid_trace (w : World) : w_trace (snd (nm_device_get_essid w)) = w_trace w.
Proof. unfold nm_device_get_essid. repeat case_match; reflexivity. Qed.

Lemma get_essid_pause (w : World) :
  nm_device_get_association_pause_value (w_dev (snd (nm_device_get_essid w)))
  = nm_device_get_association_pause_value (w_dev w).
Proof. unfold nm_device_get_essid. repeat case_match; reflexivity. Qed.

Lemma update_link_active_pause (w : World) :
  nm_device_get_association_pause_value (w_dev (nm_device_update_link_active w))
  = nm_device_get_association_pause_value (w_dev w).
Proof.
  apply pause_value_same_dev.
  - apply (update_link_active_frame w).
  - unfold nm_device_update_link_active, nm_device_wireless_link_active,
      nm_device_need_ap_switch, nm_device_get_essid.
    repeat case_match; simplify_eq; reflexivity.
Qed.

Lemma set_enc_key_pause k a (w : World) :
  nm_device_get_association_pause_value (w_dev (nm_device_set_enc_key k a w))
  = nm_device_get_association_pause_value (w_dev w).
Proof. unfold nm_device_set_enc_key. repeat case_match; reflexivity. Qed.

Lemma set_essid_pause e (w : World) :
  nm_device_get_association_pause_value (w_dev (nm_device_set_essid e w))
  = nm_device_get_association_pause_value (w_dev w).
Proof. unfold nm_device_set_essid. repeat case_match; reflexivity. Qed.

Lemma set_essid_real (e : string) (w : World) :
  real_wireless_card w = true ->
  nm_device_set_essid (Some e) w = emit (EvSetEssid (strncpy IW_ESSID_MAX_SIZE e)) w.
Proof.
  unfold real_wireless_card, nm_device_set_essid.
  intros H. apply andb_true_iff in H as [H Hs]. apply andb_true_iff in H as [Hw Ht].
  rewrite Hw. destruct (test_device (w_dev w)); [discriminate |].
  destruct (sock_fails (w_kernel w)); [discriminate |]. reflexivity.
Qed.

Lemma essid_requests_encode (w w' : World) :
  appends_only is_encode_request w w' ->
  List.filter is_essid_request (w_trace w') = List.filter is_essid_request (w_trace w).
Proof. apply filter_appends. intros []; cbv; congruence. Qed.

Lemma essid_requests_flag (w w' : World) :
  appends_only is_flag_request w w' ->
  List.filter is_essid_request (w_trace w') = List.filter is_essid_request (w_trace w).
Proof. apply filter_appends. intros []; cbv; congruence. Qed.

Lemma essid_requests_tuning (w w' : World) :
  appends_only is_tuning_request w w' ->
  List.filter is_essid_request (w_trace w') = List.filter is_essid_request (w_trace w).
Proof. apply filter_appends. intros []; cbv; congruence. Qed.

Lemma total_sleep_encode (w w' : World) :
  appends_only is_encode_request w w' -> total_sleep (w_trace w') = total_sleep (w_trace w).
Proof. apply total_sleep_appends. intros []; cbv; congruence. Qed.

Lemma total_sleep_tuning (w w' : World) :
  appends_only is_tuning_request w w' -> total_sleep (w_trace w') = total_sleep (w_trace w).
Proof. apply total_sleep_appends. intros []; cbv; congruence. Qed.

Section ProbingAgain.

Variable f1 f2 f3 : string -> string.
Variable network : string.
Variable key : option string.
Variable key_type : NMEncKeyType.
Variable wrq : list byte.

(** What one probe costs, whatever the card answers. *)
Lemma network_exists_probe_cost (c : CardObs) (st : probe_state)
    (auth : NMDeviceAuthMethod) :
  real_wireless_card (p_world st) = true ->
  let st' := network_exists_probe f1 f2 f3 network key key_type wrq c st auth in
  real_wireless_card (p_world st') = true
  /\ nm_device_get_association_pause_value (w_dev (p_world st'))
     = nm_device_get_association_pause_value (w_dev (p_world st))
  /\ List.filter is_essid_request (w_trace (p_world st'))
     = List.filter is_essid_request (w_trace (p_world st))
       ++ [EvSetEssid (strncpy IW_ESSID_MAX_SIZE network)]
  /\ total_sleep (w_trace (p_world st'))
     = total_sleep (w_trace (p_world st))
       + G_USEC_PER_SEC * nm_device_get_association_pause_value (w_dev (p_world st)).
Proof.
  intros Hreal. unfold network_exists_probe.
  set (w1 := if temp_enc_of auth
             then nm_device_set_enc_key (probe_key f1 f2 f3 key key_type) auth (p_world st)
             else nm_device_set_enc_key None auth (p_world st)).
  assert (K1 : keeps_card (p_world st) w1) by (subst w1; case_match; auto with card).
  assert (A1 : appends_only is_encode_request (p_world st) w1).
  { subst w1; case_match; apply appends_set_enc_key. }
  assert (P1 : nm_device_get_association_pause_value (w_dev w1)
               = nm_device_get_association_pause_value (w_dev (p_world st))).
  { subst w1; case_match; apply set_enc_key_pause. }
  assert (R1 : real_wireless_card w1 = true).
  { now rewrite (keeps_card_real_wireless _ _ K1). }
  set (w2 := nm_device_set_essid (Some network) w1).
  set (w3 := association_pause c w2).
  set (w4 := nm_device_update_link_active w3).
  assert (K4 : keeps_card (p_world st) w4).
  { eapply keeps_card_trans; [exact K1 |].
    eapply keeps_card_trans; [apply keeps_card_set_essid |].
    eapply keeps_card_trans; [apply keeps_card_association_pause |].
    apply update_link_active_frame. }
  assert (P4 : nm_device_get_association_pause_value (w_dev w4)
               = nm_device_get_association_pause_value (w_dev (p_world st))).
  { subst w4. rewrite update_link_active_pause. subst w3. cbn [association_pause w_dev
      with_kernel g_usleep emit]. subst w2. now rewrite set_essid_pause. }
  assert (E4 : List.filter is_essid_request (w_trace w4)
               = List.filter is_essid_request (w_trace (p_world st))
                 ++ [EvSetEssid (strncpy IW_ESSID_MAX_SIZE network)]).
  { subst w4. destruct (trace_update_link_active w3) as [-> | ->].
    - subst w3 w2. rewrite (set_essid_real _ _ R1). simpl.
      rewrite !List.filter_app. simpl. rewrite app_nil_r.
      now rewrite (essid_requests_encode _ _ A1).
    - subst w3 w2. rewrite (set_essid_real _ _ R1). simpl.
      rewrite !List.filter_app. simpl. rewrite !app_nil_r.
      now rewrite (essid_requests_encode _ _ A1). }
  assert (S4 : total_sleep (w_trace w4)
               = total_sleep (w_trace (p_world st))
                 + G_USEC_PER_SEC
                   * nm_device_get_association_pause_value (w_dev (p_world st))).
  { subst w4. rewrite total_sleep_update_link_active. subst w3.
    unfold association_pause, g_usleep. cbn [w_trace with_kernel].
    rewrite total_sleep_emit. subst w2. rewrite set_essid_pause, P1.
    rewrite (set_essid_real _ _ R1), total_sleep_emit.
    rewrite (total_sleep_encode _ _ A1). lia. }
  pose proof (keeps_card_get_essid w4) as K5.
  pose proof (get_essid_trace w4) as T5. pose proof (get_essid_pause w4) as P5.
  destruct (nm_device_get_essid w4) as [essid w5]. simpl in K5, T5, P5.
  assert (R4 : real_wireless_card w4 = true).
  { now rewrite (keeps_card_real_wireless _ _ K4). }
  assert (R5 : real_wireless_card w5 = true).
  { now rewrite (keeps_card_real_wireless _ _ K5). }
  destruct (nm_device_wireless_is_associated w4); simpl.
  - destruct (bool_decide (is_Some essid)); simpl; rewrite T5, P5; auto.
  - auto.
Qed.

Lemma network_exists_loop_cost (card : nat -> CardObs) (auths : list NMDeviceAuthMethod) :
  forall (i : nat) (st : probe_state),
    real_wireless_card (p_world st) = true ->
    let res := network_exists_loop f1 f2 f3 network key key_type wrq card i auths st in
    List.filter is_essid_request (w_trace (p_world res))
    = List.filter is_essid_request (w_trace (p_world st))
      ++ repeat (EvSetEssid (strncpy IW_ESSID_MAX_SIZE network)) (length auths)
    /\ total_sleep (w_trace (p_world res))
       = total_sleep (w_trace (p_world st))
         + Z.of_nat (length auths)
           * (G_USEC_PER_SEC * nm_device_get_association_pause_value (w_dev (p_world st))).
Proof.
  induction auths as [| a rest IH]; intros i st Hreal; simpl.
  - rewrite app_nil_r. split; [reflexivity | lia].
  - destruct (network_exists_probe_cost (card i) st a Hreal) as (R & P & E & Sl).
    destruct (IH (S i) _ R) as [IE IS]. simpl in IE, IS.
    rewrite IE, IS, E, Sl, P. rewrite <- app_assoc. simpl. split; [reflexivity | lia].
Qed.

(** X11. For a network that is treated as an infrastructure network (it
    is not in the device list, or is there in infrastructure mode),
    nm_device_wireless_network_exists on a real card makes all three probes
    whatever the card answers to the earlier ones: three requests to set
    the ESSID, cut to 32 bytes, and a wait of four seconds and three
    association pauses. *)
Theorem network_exists_always_three_probes (ap_addr : list byte) (encrypted : bool)
    (card : nat -> CardObs) (w : World) :
  real_wireless_card w = true ->
  network <> ""%string ->
  probed_as_infrastructure w network ->
  let res := nm_device_wireless_network_exists f1 f2 f3 network key key_type
               ap_addr encrypted wrq card w in
  List.filter is_essid_request (w_trace (p_world res))
  = List.filter is_essid_request (w_trace w)
    ++ repeat (EvSetEssid (strncpy IW_ESSID_MAX_SIZE network)) 3
  /\ total_sleep (w_trace (p_world res))
     = total_sleep (w_trace w)
       + G_USEC_PER_SEC * (4 + 3 * nm_device_get_association_pause_value (w_dev w)).
Proof.
  intros Hreal Hn Hinfra. unfold nm_device_wireless_network_exists.
  rewrite bool_decide_eq_false_2 by exact Hn. cbv zeta.
  set (w1 := g_usleep (G_USEC_PER_SEC * 4) (nm_device_bring_up w)).
  assert (K1 : keeps_card w w1).
  { subst w1. eapply keeps_card_trans; [apply keeps_card_set_up_down | apply keeps_card_emit]. }
  assert (Hknown : nm_ap_list_get_ap_by_essid (w_heap w1) (nm_device_ap_list_get w1)
                     (Some network) = known_ap w network).
  { unfold known_ap, nm_device_ap_list_get, nm_device_is_wireless.
    destruct K1 as (_ & -> & _ & -> & _ & ->). reflexivity. }
  assert (E1 : List.filter is_essid_request (w_trace w1)
               = List.filter is_essid_request (w_trace w)).
  { subst w1. simpl. rewrite List.filter_app. simpl. rewrite app_nil_r.
    apply (essid_requests_flag _ _ (appends_set_up_down true w)). }
  assert (S1 : total_sleep (w_trace w1) = total_sleep (w_trace w) + G_USEC_PER_SEC * 4).
  { subst w1. unfold g_usleep, nm_device_bring_up. rewrite total_sleep_emit.
    now rewrite (total_sleep_flag _ _ (appends_set_up_down true w)). }
  assert (P1 : nm_device_get_association_pause_value (w_dev w1)
               = nm_device_get_association_pause_value (w_dev w)).
  { apply pause_value_same_dev; [apply K1 |]. subst w1.
    unfold nm_device_bring_up, nm_device_set_up_down. repeat case_match; reflexivity. }
  rewrite Hknown.
  assert (Hmode : match known_ap w network with
                  | Some a => nm_ap_get_mode (w_heap w1) a
                  | None => NETWORK_MODE_INFRA
                  end = NETWORK_MODE_INFRA).
  { unfold probed_as_infrastructure in Hinfra.
    destruct (known_ap w network); [| reflexivity].
    destruct K1 as (_ & _ & _ & -> & _). exact Hinfra. }
  rewrite Hmode.
  set (w2 := nm_device_set_mode NETWORK_MODE_INFRA w1).
  assert (K2 : keeps_card w w2).
  { eapply keeps_card_trans; [exact K1 | apply keeps_card_set_mode]. }
  assert (R2 : real_wireless_card w2 = true) by now rewrite (keeps_card_real_wireless _ _ K2).
  assert (P2 : nm_device_get_association_pause_value (w_dev w2)
               = nm_device_get_association_pause_value (w_dev w)).
  { rewrite <- P1. subst w2. unfold nm_device_set_mode. repeat case_match; reflexivity. }
  match goal with
  | |- context [network_exists_loop _ _ _ _ _ _ _ ?c ?i ?l ?s] =>
      destruct (network_exists_loop_cost c l i s R2) as [LE LS]
  end.
  assert (Hlen : length (probe_auths (w_heap w1) (known_ap w network)) = 3%nat).
  { unfold probe_auths. repeat case_match; reflexivity. }
  cbn [p_world] in LE, LS. rewrite Hlen in LE, LS.
  assert (Hgoal : forall st,
            p_world st = p_world (network_exists_loop f1 f2 f3 network key key_type wrq
                                    card 0 (probe_auths (w_heap w1) (known_ap w network))
                                    {| p_world := w2; p_success := false;
                                       p_encrypted := false; p_ap_addr := ap_addr |}) ->
            List.filter is_essid_request (w_trace (p_world st))
            = List.filter is_essid_request (w_trace w)
              ++ repeat (EvSetEssid (strncpy IW_ESSID_MAX_SIZE network)) 3
            /\ total_sleep (w_trace (p_world st))
               = total_sleep (w_trace w)
                 + G_USEC_PER_SEC * (4 + 3 * nm_device_get_association_pause_value (w_dev w))).
  { intros st ->. rewrite LE, LS, P2. subst w2.
    rewrite (essid_requests_tuning _ _ (appends_set_mode _ w1)), E1.
    rewrite (total_sleep_tuning _ _ (appends_set_mode _ w1)), S1.
    split; [reflexivity | lia]. }
  destruct (known_ap w network); apply Hgoal; reflexivity.
Qed.

(** X12. An ad-hoc network has no access point to associate with:
    nm_device_wireless_network_exists reports one that is in the device
    list as found without a single request to the radio, leaves the
    caller's address buffer as it was and returns the encryption flag of
    the list. An empty network name is refused before anything is done or
    written. *)
Theorem network_exists_without_probing (ap_addr : list byte) (encrypted : bool)
    (card : nat -> CardObs) (w : World) :
  let res := nm_device_wireless_network_exists f1 f2 f3 network key key_type
               ap_addr encrypted wrq card w in
  (network = ""%string ->
   res = {| p_world := w; p_success := false; p_encrypted := encrypted;
            p_ap_addr := ap_addr |})
  /\ (network <> ""%string ->
      forall a, known_ap w network = Some a ->
                nm_ap_get_mode (w_heap w) a = NETWORK_MODE_ADHOC ->
                p_success res = true
                /\ p_encrypted res = nm_ap_get_encrypted (w_heap w) a
                /\ p_ap_addr res = ap_addr
                /\ List.filter is_radio_request (w_trace (p_world res))
                   = List.filter is_radio_request (w_trace w)).
Proof.
  cbv zeta. unfold nm_device_wireless_network_exists. split.
  - intros ->. reflexivity.
  - intros Hn a Ha Hm. rewrite bool_decide_eq_false_2 by exact Hn. cbv zeta.
    set (w1 := g_usleep (G_USEC_PER_SEC * 4) (nm_device_bring_up w)).
    assert (K1 : keeps_card w w1).
    { subst w1. eapply keeps_card_trans; [apply keeps_card_set_up_down |
                                           apply keeps_card_emit]. }
    assert (Hknown : nm_ap_list_get_ap_by_essid (w_heap w1) (nm_device_ap_list_get w1)
                       (Some network) = Some a).
    { rewrite <- Ha. unfold known_ap, nm_device_ap_list_get, nm_device_is_wireless.
      destruct K1 as (_ & -> & _ & -> & _ & ->). reflexivity. }
    assert (Hh : w_heap w1 = w_heap w) by apply K1.
    rewrite Hknown, Hh, Hm. cbn [p_world p_success p_encrypted p_ap_addr].
    rewrite bool_decide_eq_true_2 by eauto. repeat split.
    subst w1. simpl. rewrite List.filter_app. simpl. rewrite app_nil_r.
    apply (filter_appends is_flag_request); [intros []; cbv; congruence |].
    apply appends_set_up_down.
Qed.

End ProbingAgain.

Lemma network_exists_always_three_probes_witness :
  List.filter is_essid_request
    (w_trace (p_world (nm_device_wireless_network_exists id id id "cloaked" None
                         NM_ENC_TYPE_UNKNOWN bad_addr false bad_addr
                         (card_every_round "cloaked") sample_empty_world)))
  = [EvSetEssid "cloaked"; EvSetEssid "cloaked"; EvSetEssid "cloaked"].
Proof.
  destruct (network_exists_always_three_probes id id id "cloaked"%string None
              NM_ENC_TYPE_UNKNOWN bad_addr bad_addr false (card_every_round "cloaked")
              sample_empty_world) as [H _].
  - reflexivity.
  - discriminate.
  - exact I.
  - rewrite H. reflexivity.
Defined.

Lemma network_exists_without_probing_witness :
  let w := sample_keyed_world NETWORK_MODE_ADHOC in
  let exists_ network :=
    nm_device_wireless_network_exists id id id network None NM_ENC_TYPE_UNKNOWN
      bad_addr false bad_addr (fun _ => card_silent) w in
  (known_ap w "corp" = Some 0%nat
   /\ nm_ap_get_mode (w_heap w) 0%nat = NETWORK_MODE_ADHOC)
  /\ p_success (exists_ "corp"%string) = true
  /\ p_encrypted (exists_ "corp"%string) = true
  /\ List.filter is_radio_request (w_trace (p_world (exists_ "corp"%string))) = []
  /\ exists_ ""%string
     = {| p_world := w; p_success := false; p_encrypted := false; p_ap_addr := bad_addr |}.
Proof.
  intros w exists_.
  assert (H1 : known_ap w "corp" = Some 0%nat) by reflexivity.
  assert (H2 : nm_ap_get_mode (w_heap w) 0%nat = NETWORK_MODE_ADHOC) by reflexivity.
  destruct (network_exists_without_probing id id id "corp"%string None
              NM_ENC_TYPE_UNKNOWN bad_addr bad_addr false (fun _ => card_silent) w)
    as (_ & A).
  destruct (A ltac:(discriminate) 0%nat H1 H2) as (A1 & A2 & _ & A4).
  destruct (network_exists_without_probing id id id ""%string None
              NM_ENC_TYPE_UNKNOWN bad_addr bad_addr false (fun _ => card_silent) w)
    as (B & _).
  split; [auto |]. split; [exact A1 |]. split; [exact A2 |]. split; [exact A4 |].
  exact (B eq_refl).
Defined.

(** ** The pseudo-scan *)

Lemma keeps_selection_refl (w : World) : keeps_selection w w.
Proof. unfold keeps_selection. auto 10. Qed.

Lemma keeps_selection_trans (w1 w2 w3 : World) :
  keeps_selection w1 w2 -> keeps_selection w2 w3 -> keeps_selection w1 w3.
Proof.
  unfold keeps_selection.
  intros (A1 & A2 & A3 & A4 & A5 & A6) (B1 & B2 & B3 & B4 & B5 & B6).
  repeat split; congruence.
Qed.

Lemma keeps_selection_same_wireless (w w' : World) :
  wireless (w_dev w') = wireless (w_dev w) -> keeps_selection w w'.
Proof. unfold keeps_selection, wopts. intros ->. auto 10. Qed.

Lemma keeps_selection_set_up_down up (w : World) :
  keeps_selection w (nm_device_set_up_down up w).
Proof. apply keeps_selection_same_wireless, freeze_flag_set_up_down. Qed.

Lemma keeps_selection_set_enc_key k a (w : World) :
  keeps_selection w (nm_device_set_enc_key k a w).
Proof. apply keeps_selection_same_wireless, freeze_flag_set_enc_key. Qed.

Lemma keeps_selection_set_essid e (w : World) :
  keeps_selection w (nm_device_set_essid e w).
Proof.
  unfold nm_device_set_essid.
  repeat case_match; try apply keeps_selection_refl; unfold keeps_selection; auto 10.
Qed.

Lemma keeps_selection_probe_then_bring_up (w : World) :
  keeps_selection w (probe_then_bring_up w).
Proof.
  unfold probe_then_bring_up.
  assert (H : w_dev (snd (nm_device_is_up w)) = w_dev w).
  { unfold nm_device_is_up. repeat case_match; reflexivity. }
  destruct (nm_device_is_up w) as [up w1]. simpl in H.
  eapply keeps_selection_trans; [| apply keeps_selection_set_up_down].
  apply keeps_selection_same_wireless. now rewrite H.
Qed.

Lemma keeps_card_probe_then_bring_up (w : World) : keeps_card w (probe_then_bring_up w).
Proof.
  unfold probe_then_bring_up. pose proof (keeps_card_is_up w) as K.
  destruct (nm_device_is_up w) as [up w1]. simpl in K.
  eapply keeps_card_trans; [exact K | apply keeps_card_set_up_down].
Qed.

Lemma kernel_address_set_up_down up (w : World) :
  k_ap_addr (w_kernel (nm_device_set_up_down up w)) = k_ap_addr (w_kernel w).
Proof. unfold nm_device_set_up_down. repeat case_match; reflexivity. Qed.

Lemma kernel_address_probe_then_bring_up (w : World) :
  k_ap_addr (w_kernel (probe_then_bring_up w)) = k_ap_addr (w_kernel w).
Proof.
  unfold probe_then_bring_up.
  assert (H : w_kernel (snd (nm_device_is_up w)) = w_kernel w).
  { unfold nm_device_is_up. repeat case_match; reflexivity. }
  destruct (nm_device_is_up w) as [up w1]. simpl in H.
  unfold nm_device_bring_up. now rewrite kernel_address_set_up_down, H.
Qed.

(** What a fresh buffer holds after nm_device_get_ap_address. *)
Lemma current_ap_address_value (w : World) :
  current_ap_address w
  = if real_wireless_card w then card_address (w_kernel w) else bad_addr.
Proof.
  unfold current_ap_address, nm_device_get_ap_address, nm_device_get_ap_address_frame,
    real_wireless_card, card_address.
  destruct (nm_device_is_wireless (w_dev w)); [| reflexivity].
  destruct (test_device (w_dev w)).
  { simpl. destruct (nm_device_get_link_active (w_dev w)); reflexivity. }
  destruct (sock_fails (w_kernel w)); [reflexivity |].
  simpl. destruct (k_ap_addr (w_kernel w)); reflexivity.
Qed.

Lemma set_best_ap_wireless (b : option nat) (w : World) :
  nm_device_is_wireless (w_dev w) = true ->
  nm_device_get_best_ap (nm_device_set_best_ap b w) = b
  /\ nm_device_is_best_ap_frozen (nm_device_set_best_ap b w) = false
  /\ scan_ap_list (wopts (nm_device_set_best_ap b w)) = scan_ap_list (wopts w)
  /\ cached_ap_list1 (wopts (nm_device_set_best_ap b w)) = cached_ap_list1 (wopts w)
  /\ cached_ap_list2 (wopts (nm_device_set_best_ap b w)) = cached_ap_list2 (wopts w)
  /\ cached_ap_list3 (wopts (nm_device_set_best_ap b w)) = cached_ap_list3 (wopts w).
Proof.
  intros Hw.
  unfold nm_device_get_best_ap, nm_device_is_best_ap_frozen, nm_device_set_best_ap,
    nm_device_unfreeze_best_ap.
  rewrite Hw. cbn [negb].
  assert (Hw' : nm_device_is_wireless (w_dev (with_dev (with_wireless (set_best_ap b)) w))
                = true) by exact Hw.
  rewrite Hw'. cbn [negb].
  assert (Hw'' : nm_device_is_wireless
                   (w_dev (with_dev (with_wireless (set_freeze_best_ap false))
                             (with_dev (with_wireless (set_best_ap b)) w))) = true)
    by exact Hw.
  rewrite Hw''. repeat split.
Qed.

Section PseudoScanAgain.

Variable nm_ethernet_address_is_valid : list byte -> bool.
Variable nm_ap_get_enc_key_hashed : NMAccessPoint -> option string.

(** The world at the end of a round's association pause. *)
Lemma pseudo_scan_round_frame (c : CardObs) (ap : nat) (w : World) :
  let w1 := probe_then_bring_up w in
  let w2 :=
    match nm_ap_get_enc_key_source (w_heap w1) ap with
    | Some _ =>
        nm_device_set_enc_key (nm_ap_get_enc_key_hashed (deref (w_heap w1) ap))
          NM_DEVICE_AUTH_METHOD_SHARED_KEY w1
    | None => nm_device_set_enc_key None NM_DEVICE_AUTH_METHOD_NONE w1
    end in
  let w4 := association_pause c (nm_device_set_essid (nm_ap_get_essid (w_heap w2) ap) w2) in
  keeps_card w w1 /\ keeps_card w w4 /\ keeps_selection w w4
  /\ k_ap_addr (w_kernel w1) = k_ap_addr (w_kernel w)
  /\ k_ap_addr (w_kernel w4) = o_ap_addr c.
Proof.
  intros w1 w2 w4.
  assert (K1 : keeps_card w w1) by apply keeps_card_probe_then_bring_up.
  assert (K2 : keeps_card w w2).
  { eapply keeps_card_trans; [exact K1 |]. subst w2. case_match; auto with card. }
  assert (L2 : keeps_selection w w2).
  { eapply keeps_selection_trans; [apply keeps_selection_probe_then_bring_up |].
    subst w2. case_match; apply keeps_selection_set_enc_key. }
  split; [exact K1 |]. split; [| split; [| split]].
  - eapply keeps_card_trans; [exact K2 |]. subst w4.
    eapply keeps_card_trans; [apply keeps_card_set_essid | apply keeps_card_association_pause].
  - eapply keeps_selection_trans; [exact L2 |]. subst w4.
    eapply keeps_selection_trans; [apply keeps_selection_set_essid |].
    apply keeps_selection_same_wireless. reflexivity.
  - apply kernel_address_probe_then_bring_up.
  - reflexivity.
Qed.

Lemma pseudo_scan_loop_choice (card : nat -> CardObs) (aps : list nat) :
  forall (i : nat) (w : World),
    let res := pseudo_scan_loop nm_ethernet_address_is_valid nm_ap_get_enc_key_hashed
                 card i aps w in
    (keeps_selection w res
     \/ exists ap, In ap aps
                   /\ nm_device_get_best_ap res = Some ap
                   /\ nm_device_is_best_ap_frozen res = false
                   /\ scan_ap_list (wopts res) = scan_ap_list (wopts w)
                   /\ cached_ap_list1 (wopts res) = cached_ap_list1 (wopts w)
                   /\ cached_ap_list2 (wopts res) = cached_ap_list2 (wopts w)
                   /\ cached_ap_list3 (wopts res) = cached_ap_list3 (wopts w))
    /\ ((forall j, (i <= j)%nat -> o_ap_addr (card j) = k_ap_addr (w_kernel w)) ->
        keeps_selection w res).
Proof.
  induction aps as [| ap rest IH]; intros i w; simpl.
  - split; [left |]; intros; apply keeps_selection_refl.
  - destruct (pseudo_scan_round_frame (card i) ap w) as (K1 & K4 & L4 & A1 & A4).
    cbv zeta in K1, K4, L4, A1, A4.
    set (w1 := probe_then_bring_up w) in *.
    match goal with
    | |- context [association_pause ?c ?x] => set (w4 := association_pause c x) in *
    end.
    destruct (IH (S i) w4) as [IH1 IH2]. cbv zeta in IH1, IH2.
    split.
    + case_match.
      * destruct (nm_device_is_wireless (w_dev w4)) eqn:Hw.
        -- right. exists ap. split; [now left |].
           destruct L4 as (_ & _ & L3 & L5 & L6 & L7).
           destruct (set_best_ap_wireless (Some ap) w4 Hw) as (B1 & B2 & B3 & B4 & B5 & B6).
           repeat split; [exact B1 | exact B2 | | | |].
           ++ exact (eq_trans B3 L3).
           ++ exact (eq_trans B4 L5).
           ++ exact (eq_trans B5 L6).
           ++ exact (eq_trans B6 L7).
        -- left. eapply keeps_selection_trans; [exact L4 |].
           unfold nm_device_set_best_ap. rewrite Hw. simpl.
           apply keeps_selection_same_wireless. reflexivity.
      * destruct IH1 as [IH1 | (x & Hx & Hb & Hf & H3 & H5 & H6 & H7)].
        -- left. eapply keeps_selection_trans; eassumption.
        -- right. exists x. destruct L4 as (_ & _ & L3 & L5 & L6 & L7).
           split; [now right |]. repeat split; congruence.
    + intros Hsame.
      assert (Hnot : nm_ethernet_address_is_valid (current_ap_address w4)
                     && negb (bool_decide (current_ap_address w1 = current_ap_address w4))
                     = false).
      { rewrite !current_ap_address_value.
        rewrite (keeps_card_real_wireless _ _ K1), (keeps_card_real_wireless _ _ K4).
        unfold card_address. rewrite A1, A4, (Hsame i) by lia.
        rewrite bool_decide_eq_true_2 by reflexivity. apply andb_false_r. }
      rewrite Hnot.
      eapply keeps_selection_trans; [exact L4 |]. apply IH2.
      intros j Hj. rewrite A4. rewrite (Hsame j) by lia. now rewrite (Hsame i) by lia.
Qed.

Lemma pseudo_scan_spec (card : nat -> CardObs) (w : World) :
  let res := nm_device_do_pseudo_scan nm_ethernet_address_is_valid
               nm_ap_get_enc_key_hashed card w in
  (keeps_selection w res
   \/ exists ap, In ap (allowed_ap_list (w_data w))
                 /\ nm_device_get_best_ap res = Some ap
                 /\ nm_device_is_best_ap_frozen res = false
                 /\ scan_ap_list (wopts res) = scan_ap_list (wopts w)
                 /\ cached_ap_list1 (wopts res) = cached_ap_list1 (wopts w)
                 /\ cached_ap_list2 (wopts res) = cached_ap_list2 (wopts w)
                 /\ cached_ap_list3 (wopts res) = cached_ap_list3 (wopts w))
  /\ ((forall j, o_ap_addr (card j) = k_ap_addr (w_kernel w)) -> keeps_selection w res).
Proof.
  cbv zeta. unfold nm_device_do_pseudo_scan.
  destruct (test_device (w_dev w)) eqn:Ht.
  { split; [left |]; intros; apply keeps_selection_refl. }
  set (w0 := nm_device_set_essid (Some ""%string) w).
  assert (L0 : keeps_selection w w0) by apply keeps_selection_set_essid.
  assert (A0 : w_kernel w0 = w_kernel w).
  { subst w0. unfold nm_device_set_essid. repeat case_match; reflexivity. }
  destruct (pseudo_scan_loop_choice card (allowed_ap_list (w_data w)) 0%nat w0) as [C1 C2].
  cbv zeta in C1, C2.
  split.
  - destruct C1 as [C1 | (ap & Hin & Hb & Hf & H3 & H5 & H6 & H7)].
    + left. eapply keeps_selection_trans; eassumption.
    + right. exists ap. destruct L0 as (_ & _ & L3 & L5 & L6 & L7).
      repeat split; congruence.
  - intros Hsame. eapply keeps_selection_trans; [exact L0 |]. apply C2.
    intros j _. rewrite A0. apply Hsame.
Qed.

(** X13. The pseudo-scan of a card that cannot scan either leaves the
    best access point alone or makes an access point of the Allowed list
    the best one, unfrozen; the four access-point lists of the device are
    never touched. An access point is chosen only when the BSSID the card
    reports after the attempt differs from the one it reported before: on
    a card whose BSSID stays what it was, nothing is chosen. *)
Theorem pseudo_scan_choice (card : nat -> CardObs) (w : World) :
  let res := nm_device_do_pseudo_scan nm_ethernet_address_is_valid
               nm_ap_get_enc_key_hashed card w in
  (keeps_selection w res
   \/ exists ap, In ap (allowed_ap_list (w_data w))
                 /\ nm_device_get_best_ap res = Some ap
                 /\ nm_device_is_best_ap_frozen res = false
                 /\ scan_ap_list (wopts res) = scan_ap_list (wopts w)
                 /\ cached_ap_list1 (wopts res) = cached_ap_list1 (wopts w)
                 /\ cached_ap_list2 (wopts res) = cached_ap_list2 (wopts w)
                 /\ cached_ap_list3 (wopts res) = cached_ap_list3 (wopts w))
  /\ ((forall j, o_ap_addr (card j) = k_ap_addr (w_kernel w)) -> keeps_selection w res).
Proof. exact (pseudo_scan_spec card w). Qed.

End PseudoScanAgain.

Lemma pseudo_scan_choice_witness :
  keeps_selection sample_selection_world
    (nm_device_do_pseudo_scan (fun _ => true) ap_enc_key_source (fun _ => card_silent)
       sample_selection_world).
Proof.
  apply (pseudo_scan_choice (fun _ => true) ap_enc_key_source (fun _ => card_silent)
           sample_selection_world).
  intros j. reflexivity.
Defined.

(** ** The access points of a test device *)

(** What the rounds of nm_device_fake_ap_list add to the store and to
    the list: one new object for each entry of the table. *)
Lemma fake_ap_rounds (d : NMData) (items : list (string * list byte * Z * Q * bool)) :
  forall (h : list NMAccessPoint) (l : list nat),
  exists aps,
    fold_left (fake_ap_round d) items (h, l)
    = (h ++ aps, l ++ seq (length h) (length items))
    /\ Forall2 (fun a f =>
                  let '(fake_essid, fake_addr, fake_quality, fake_freq, fake_enc) := f in
                  ap_essid a = Some fake_essid /\ ap_address a = Some fake_addr
                  /\ ap_strength a = fake_quality /\ ap_encrypted a = negb fake_enc
                  /\ ap_artificial a = false /\ ap_invalid a = false)
         aps items.
Proof.
  induction items as [| f items IH]; intros h l.
  - exists []. simpl. rewrite !app_nil_r. split; [reflexivity | constructor].
  - destruct f as [[[[e a] q] fr] enc]. cbn [fold_left length].
    unfold fake_ap_round at 2. cbn [ap_alloc].
    match goal with
    | |- context [fold_left _ items (h ++ [?x], _)] => set (nm_ap := x)
    end.
    destruct (IH (h ++ [nm_ap]) (nm_ap_list_append_ap l (length h))) as (aps & E & F).
    exists (nm_ap :: aps). rewrite E. unfold nm_ap_list_append_ap.
    rewrite <- !app_assoc, length_app. simpl.
    replace (length h + 1)%nat with (S (length h)) by lia.
    split; [reflexivity |]. constructor; [| exact F].
    subst nm_ap. simpl. destruct enc; auto 10.
Qed.

Section FakeList.

Variable nm_ap_list_diff : list NMAccessPoint -> list nat -> list nat -> list Event.

Lemma fake_ap_list_spec (w : World) :
  let w' := nm_device_fake_ap_list nm_ap_list_diff w in
  scan_ap_list (wopts w') = seq (length (w_heap w)) 4
  /\ nm_ap_get_essid (w_heap w') <$> scan_ap_list (wopts w')
     = [Some "green"; Some "bay"; Some "packers"; Some "rule"]%string
  /\ nm_ap_get_encrypted (w_heap w') <$> scan_ap_list (wopts w')
     = [true; false; true; false]
  /\ (exists aps, w_heap w' = w_heap w ++ aps /\ length aps = 4%nat)
  /\ cached_ap_list1 (wopts w') = cached_ap_list1 (wopts w)
  /\ cached_ap_list2 (wopts w') = cached_ap_list2 (wopts w)
  /\ cached_ap_list3 (wopts w') = cached_ap_list3 (wopts w)
  /\ best_ap (wopts w') = best_ap (wopts w).
Proof.
  cbv zeta. unfold nm_device_fake_ap_list.
  destruct (fake_ap_rounds (w_data w) fake_aps (w_heap w) []) as (aps & E & F).
  rewrite E. cbn [app length fake_aps].
  set (w1 := with_dev (with_wireless (set_scan_ap_list (seq (length (w_heap w)) 4)))
               (with_heap (fun _ => w_heap w ++ aps) w)).
  assert (Hw' : forall evs, w_dev (fold_left (fun acc e => emit e acc) evs w1) = w_dev w1
                            /\ w_heap (fold_left (fun acc e => emit e acc) evs w1)
                               = w_heap w1).
  { intros evs. generalize w1. induction evs as [| e evs IH]; intros x; simpl; [auto |].
    destruct (IH (emit e x)) as [-> ->]. auto. }
  assert (Hres : forall x, w_dev x = w_dev w1 -> w_heap x = w_heap w1 ->
    scan_ap_list (wopts x) = seq (length (w_heap w)) 4
    /\ nm_ap_get_essid (w_heap x) <$> scan_ap_list (wopts x)
       = [Some "green"; Some "bay"; Some "packers"; Some "rule"]%string
    /\ nm_ap_get_encrypted (w_heap x) <$> scan_ap_list (wopts x)
       = [true; false; true; false]
    /\ (exists aps, w_heap x = w_heap w ++ aps /\ length aps = 4%nat)
    /\ cached_ap_list1 (wopts x) = cached_ap_list1 (wopts w)
    /\ cached_ap_list2 (wopts x) = cached_ap_list2 (wopts w)
    /\ cached_ap_list3 (wopts x) = cached_ap_list3 (wopts w)
    /\ best_ap (wopts x) = best_ap (wopts w)).
  { intros x Hd Hh. unfold wopts. rewrite Hd, Hh. subst w1. cbn.
    inversion F as [| a1 f1 r1 fs1 P1 F1]; subst.
    inversion F1 as [| a2 f2 r2 fs2 P2 F2]; subst.
    inversion F2 as [| a3 f3 r3 fs3 P3 F3]; subst.
    inversion F3 as [| a4 f4 r4 fs4 P4 F4]; subst.
    inversion F4; subst.
    assert (L : forall k a, [a1; a2; a3; a4] !! k = Some a ->
                deref (w_heap w ++ [a1; a2; a3; a4]) (length (w_heap w) + k) = a).
    { intros k a Hk. unfold deref. rewrite lookup_app_r by lia.
      replace (length (w_heap w) + k - length (w_heap w))%nat with k by lia.
      now rewrite Hk. }
    unfold nm_ap_get_essid, nm_ap_get_encrypted.
    pose proof (L 0%nat a1 eq_refl) as L0. pose proof (L 1%nat a2 eq_refl) as L1.
    pose proof (L 2%nat a3 eq_refl) as L2. pose proof (L 3%nat a4 eq_refl) as L3.
    rewrite Nat.add_0_r in L0.
    replace (length (w_heap w) + 1)%nat with (S (length (w_heap w))) in L1 by lia.
    replace (length (w_heap w) + 2)%nat with (S (S (length (w_heap w)))) in L2 by lia.
    replace (length (w_heap w) + 3)%nat with (S (S (S (length (w_heap w))))) in L3 by lia.
    rewrite L0, L1, L2, L3.
    destruct P1 as (-> & _ & _ & -> & _), P2 as (-> & _ & _ & -> & _),
             P3 as (-> & _ & _ & -> & _), P4 as (-> & _ & _ & -> & _).
    repeat split. exists [a1; a2; a3; a4]. split; reflexivity. }
  destruct (is_active_device (w_data w1)).
  - destruct (Hw' (nm_ap_list_diff (w_heap w ++ aps) (nm_device_ap_list_get w)
                     (seq (length (w_heap w)) 4))) as [Hd Hh].
    apply Hres; assumption.
  - apply Hres; reflexivity.
Qed.

(** X14. On a wireless device nm_device_fake_ap_list replaces the
    device list by four newly made access points, "green", "bay", "packers"
    and "rule" in this order, whatever the list held; the objects that
    existed are not changed and
    the three snapshots are not touched. The encryption flags come out
    inverted with respect to the table of the routine: "green" and
    "packers" are encrypted, "bay" and "rule" are not. *)
Theorem fake_ap_list_contents (w : World) :
  nm_device_is_wireless (w_dev w) = true ->
  let w' := nm_device_fake_ap_list nm_ap_list_diff w in
  scan_ap_list (wopts w') = seq (length (w_heap w)) 4
  /\ nm_ap_get_essid (w_heap w') <$> scan_ap_list (wopts w')
     = [Some "green"; Some "bay"; Some "packers"; Some "rule"]%string
  /\ nm_ap_get_encrypted (w_heap w') <$> scan_ap_list (wopts w')
     = [true; false; true; false]
  /\ (exists aps, w_heap w' = w_heap w ++ aps /\ length aps = 4%nat)
  /\ cached_ap_list1 (wopts w') = cached_ap_list1 (wopts w)
  /\ cached_ap_list2 (wopts w') = cached_ap_list2 (wopts w)
  /\ cached_ap_list3 (wopts w') = cached_ap_list3 (wopts w)
  /\ best_ap (wopts w') = best_ap (wopts w).
Proof. intros _. exact (fake_ap_list_spec w). Qed.

End FakeList.

Lemma fake_ap_list_contents_witness :
  scan_ap_list (wopts (nm_device_fake_ap_list nm_ap_list_diff_model sample_test_world))
  = [0%nat; 1%nat; 2%nat; 3%nat].
Proof.
  destruct (fake_ap_list_contents nm_ap_list_diff_model sample_test_world eq_refl)
    as (H & _).
  rewrite H. reflexivity.
Defined.

(** ** When the results of a scan are not used *)

Section ScanGuards.

Variable nm_ap_list_combine :
  list NMAccessPoint -> list nat -> list nat -> list NMAccessPoint * list nat.
Variable nm_ap_list_copy_essids_by_address :
  list NMAccessPoint -> list nat -> list nat -> list NMAccessPoint.
Variable nm_ap_list_copy_properties :
  list NMAccessPoint -> list nat -> list nat -> list NMAccessPoint.
Variable nm_ap_list_diff : list NMAccessPoint -> list nat -> list nat -> list Event.
Variable nm_wireless_qual_to_percent : NMDevice -> iw_quality -> Z.
Variable nm_ethernet_address_is_valid : list byte -> bool.
Variable nm_ap_get_enc_key_hashed : NMAccessPoint -> option string.

(** X15. nm_device_process_scan_results does nothing at all without
    results. On a test device, and on a card that cannot scan, the results
    handed in are not looked at and the ring of snapshots is not shifted:
    the test device gets its made-up list, the other card its pseudo-scan,
    which leaves the device list as it was. *)
Theorem process_scan_results_guards (card : nat -> CardObs) (w : World) :
  nm_device_is_wireless (w_dev w) = true ->
  let process results :=
    nm_device_process_scan_results nm_ap_list_combine nm_ap_list_copy_essids_by_address
      nm_ap_list_copy_properties nm_ap_list_diff nm_wireless_qual_to_percent
      nm_ethernet_address_is_valid nm_ap_get_enc_key_hashed results card w in
  process None = w
  /\ (forall result,
        test_device (w_dev w) = true ->
        process (Some result) = nm_device_fake_ap_list nm_ap_list_diff w
        /\ cached_ap_list1 (wopts (process (Some result))) = cached_ap_list1 (wopts w)
        /\ cached_ap_list2 (wopts (process (Some result))) = cached_ap_list2 (wopts w)
        /\ cached_ap_list3 (wopts (process (Some result))) = cached_ap_list3 (wopts w))
  /\ (forall result,
        test_device (w_dev w) = false ->
        k_scan_supported (w_kernel w) = false ->
        process (Some result)
        = nm_device_do_pseudo_scan nm_ethernet_address_is_valid nm_ap_get_enc_key_hashed
            card w
        /\ scan_ap_list (wopts (process (Some result))) = scan_ap_list (wopts w)
        /\ cached_ap_list1 (wopts (process (Some result))) = cached_ap_list1 (wopts w)
        /\ cached_ap_list2 (wopts (process (Some result))) = cached_ap_list2 (wopts w)
        /\ cached_ap_list3 (wopts (process (Some result))) = cached_ap_list3 (wopts w)).
Proof.
  intros Hw process. subst process. cbv beta.
  split; [reflexivity |]. split.
  - intros result Ht. unfold nm_device_process_scan_results. rewrite Ht.
    destruct (fake_ap_list_spec nm_ap_list_diff w) as (_ & _ & _ & _ & H1 & H2 & H3 & _).
    auto.
  - intros result Ht Hk.
    unfold nm_device_process_scan_results, nm_device_supports_wireless_scan.
    rewrite Ht, Hw, Hk. cbn [negb].
    split; [reflexivity |].
    destruct (pseudo_scan_spec nm_ethernet_address_is_valid nm_ap_get_enc_key_hashed card w)
      as [[K | (ap & _ & _ & _ & K)] _].
    + destruct K as (_ & _ & K). exact K.
    + exact K.
Qed.

End ScanGuards.

Lemma process_scan_results_guards_witness :
  nm_device_process_scan_results nm_ap_list_combine_model
    nm_ap_list_copy_essids_by_address_model nm_ap_list_copy_properties_model
    nm_ap_list_diff_model (fun _ q => q_qual q) (fun _ => true) ap_enc_key_source
    None (fun _ => card_silent) sample_world = sample_world.
Proof.
  apply (process_scan_results_guards nm_ap_list_combine_model
           nm_ap_list_copy_essids_by_address_model nm_ap_list_copy_properties_model
           nm_ap_list_diff_model (fun _ q => q_qual q) (fun _ => true) ap_enc_key_source
           (fun _ => card_silent) sample_world eq_refl).
Defined.

(** ** Converting the records of a scan *)

Lemma converted_scan_blank_flag (q : NMDevice -> iw_quality -> Z) (d : NMDevice)
    (result : list wireless_scan) :
  forall st,
    have_blank_essids (fold_left (convert_round q d) result st)
    = have_blank_essids st
      || existsb (fun t => scan_record_usable t && scan_record_blank t) result.
Proof.
  induction result as [| t result IH]; intros st; simpl.
  - now rewrite orb_false_r.
  - rewrite IH. unfold convert_round.
    destruct (scan_record_usable t); simpl; [| reflexivity].
    now rewrite orb_assoc.
Qed.

(** X16. In the snapshot made from a scan, no access point carries an
    empty ESSID or the "<hidden>" of the ipw2x00 drivers: such records, and
    those without ESSID, give access points without ESSID, and the
    blank-ESSID flag is raised exactly when a record that is kept is one of
    them. A record with a hidden ESSID and no address is kept all the same,
    as an access point that has neither. *)
Theorem converted_scan_essids (q : NMDevice -> iw_quality -> Z)
    (result : list wireless_scan) (w : World) :
  let cs := converted_scan q result w in
  have_blank_essids cs
  = existsb (fun t => scan_record_usable t && scan_record_blank t) result
  /\ (forall r, In r (c_list cs) ->
                 nm_ap_get_essid (c_heap cs) r <> Some ""%string
                 /\ nm_ap_get_essid (c_heap cs) r <> Some "<hidden>"%string
                 /\ (have_blank_essids cs = false ->
                     is_Some (nm_ap_get_essid (c_heap cs) r)))
  /\ (forall t, In t result ->
                 has_essid t = true -> scan_record_blank t = true ->
                 has_ap_addr t = false ->
                 exists r, In r (c_list cs)
                           /\ nm_ap_get_essid (c_heap cs) r = None
                           /\ ap_address (deref (c_heap cs) r) = None).
Proof.
  cbv zeta. unfold converted_scan.
  destruct (convert_fold q (w_dev w) result
              {| c_heap := w_heap w; c_list := []; have_blank_essids := false |})
    as [Hh Hl]. simpl in Hh, Hl.
  pose proof (converted_scan_blank_flag q (w_dev w) result
                {| c_heap := w_heap w; c_list := []; have_blank_essids := false |}) as Hb.
  simpl in Hb.
  set (cs := fold_left (convert_round q (w_dev w)) result _) in *.
  assert (Hget : forall i t,
            List.filter scan_record_usable result !! i = Some t ->
            deref (c_heap cs) (length (w_heap w) + i)
            = nm_ap_of_scan_record q (w_dev w) t).
  { intros i t Hi. unfold deref. rewrite Hh, lookup_app_r by lia.
    replace (length (w_heap w) + i - length (w_heap w))%nat with i by lia.
    now rewrite list_lookup_fmap, Hi. }
  split; [exact Hb |]. split.
  - intros r Hr. rewrite Hl in Hr. apply in_seq in Hr.
    destruct (lookup_lt_is_Some_2 (List.filter scan_record_usable result)
                (r - length (w_heap w))) as [t Ht]; [lia |].
    pose proof (Hget _ _ Ht) as Hd.
    replace (length (w_heap w) + (r - length (w_heap w)))%nat with r in Hd by lia.
    unfold nm_ap_get_essid. rewrite Hd. cbn [ap_essid nm_ap_of_scan_record].
    assert (Hin : In t result).
    { apply list_elem_of_lookup_2 in Ht. apply list_elem_of_In in Ht.
      apply List.filter_In in Ht. tauto. }
    assert (Hus : scan_record_usable t = true).
    { apply list_elem_of_lookup_2 in Ht. apply list_elem_of_In in Ht.
      apply List.filter_In in Ht. tauto. }
    destruct (scan_record_blank t) eqn:Ebl.
    + split; [discriminate |]. split; [discriminate |].
      intros Hno. exfalso. rewrite Hb in Hno.
      assert (Hex : existsb (fun t => scan_record_usable t && scan_record_blank t) result
                    = true).
      { apply existsb_exists. exists t. rewrite Hus, Ebl. auto. }
      congruence.
    + unfold scan_record_blank in Ebl.
      apply orb_false_iff in Ebl as [Ebl E3]. apply orb_false_iff in Ebl as [_ E2].
      apply bool_decide_eq_false in E2, E3.
      split; [congruence |]. split; [congruence | eauto].
  - intros t Hin He Hbl Ha.
    assert (Hf : In t (List.filter scan_record_usable result)).
    { apply List.filter_In. split; [exact Hin |]. unfold scan_record_usable.
      now rewrite He. }
    apply list_elem_of_In, list_elem_of_lookup in Hf. destruct Hf as [i Hi].
    exists (length (w_heap w) + i)%nat. split.
    + rewrite Hl. apply in_seq. apply lookup_lt_Some in Hi. lia.
    + unfold nm_ap_get_essid. rewrite (Hget _ _ Hi).
      cbn [ap_essid ap_address nm_ap_of_scan_record]. rewrite Hbl, Ha. auto.
Qed.

(** ** An access point that has been given up *)

(** What a recomputation can choose: an access point of the device list
    whose ESSID is not on the Invalid list. *)
Lemma recompute_best_ap_result (w : World) (r : nat) :
  nm_device_is_wireless (w_dev w) = true ->
  nm_device_get_best_ap (recompute_best_ap w) = Some r ->
  nm_ap_list_get_ap_by_essid (w_heap w) (invalid_ap_list (w_data w))
    (nm_ap_get_essid (w_heap w) r) = None
  /\ nm_ap_get_essid (w_heap (recompute_best_ap w)) r = nm_ap_get_essid (w_heap w) r
  /\ In r (nm_device_ap_list_get w).
Proof.
  intros Hw. unfold recompute_best_ap.
  pose proof (loop_inv_loop (w_heap w) (w_data w) (nm_device_ap_list_get w)) as Hinv.
  set (s := best_ap_loop (w_data w) (w_heap w) (nm_device_ap_list_get w)) in *.
  destruct Hinv as (Hst & Hent & Ht & Hu & Hnone).
  assert (Hset : forall b,
    nm_device_get_best_ap (nm_device_set_best_ap b (with_heap (fun _ => s_heap s) w)) = b
    /\ w_heap (nm_device_set_best_ap b (with_heap (fun _ => s_heap s) w)) = s_heap s).
  { intros b. apply get_best_ap_set_best_ap. exact Hw. }
  assert (Hfound : forall b x, sel_inv (w_heap w) (w_data w) (nm_device_ap_list_get w) b s ->
            best_of b s = Some x ->
            nm_ap_list_get_ap_by_essid (w_heap w) (invalid_ap_list (w_data w))
              (nm_ap_get_essid (w_heap w) x) = None
            /\ nm_ap_get_essid (s_heap s) x = nm_ap_get_essid (w_heap w) x
            /\ In x (nm_device_ap_list_get w)).
  { intros b x Hs Hb.
    destruct (sel_inv_best_candidate _ _ _ _ _ _ Hs Hb) as [Hc (t & Hk & _)].
    split; [eapply usable_entry_not_invalid; eauto |].
    split; [apply strip_key_essid, Hst |].
    destruct Hc as (i & ts & Hi & _). apply list_elem_of_In.
    eapply list_elem_of_lookup_2; eauto. }
  destruct (trusted_best_ap s) as [x |] eqn:Et.
  - destruct (Hset (Some x)) as [-> ->]. intros [= <-].
    apply (Hfound true); assumption.
  - destruct (untrusted_best_ap s) as [x |] eqn:Eu.
    + destruct (Hset (Some x)) as [-> ->]. intros [= <-].
      apply (Hfound false); assumption.
    + rewrite best_ap_after_reset. destruct (Hset None) as [-> _]. discriminate.
Qed.

Lemma essid_set_invalid (h : list NMAccessPoint) (best r : nat) (b : bool) :
  nm_ap_get_essid (nm_ap_set_invalid best b h) r = nm_ap_get_essid h r.
Proof.
  unfold nm_ap_get_essid, nm_ap_set_invalid, deref.
  destruct (decide (best = r)) as [-> | Hne].
  - rewrite list_lookup_alter_eq. destruct (h !! r); reflexivity.
  - now rewrite list_lookup_alter_ne.
Qed.

(** X17. Once the engine has given up an access point
    (nm_ap_set_invalid, append to the Invalid list, nm_device_update_best_ap)
    the new best access point, if there is one, is an access point of the
    device list with another ESSID: neither the one given up nor any other
    base station of its network. This holds when the selection was not
    frozen, and also when it was frozen on the access point given up,
    unless the user created that network. *)
Theorem invalidated_ap_not_chosen_again (best : nat) (e : string) (w : World) :
  nm_device_is_wireless (w_dev w) = true ->
  nm_ap_get_essid (w_heap w) best = Some e ->
  nm_device_is_best_ap_frozen w = false
  \/ (nm_device_get_best_ap w = Some best
      /\ nm_ap_get_user_created (w_heap w) best = false) ->
  let w' := invalidate_best_ap best w in
  forall r,
    nm_device_get_best_ap w' = Some r ->
    nm_ap_get_essid (w_heap w') r <> Some e
    /\ r <> best
    /\ In r (nm_device_ap_list_get w).
Proof.
  intros Hw He Hfr w' r. subst w'. unfold invalidate_best_ap.
  set (w2 := with_data _ (with_heap (nm_ap_set_invalid best true) w)).
  assert (Hw2 : nm_device_is_wireless (w_dev w2) = true) by exact Hw.
  assert (Hinv2 : is_Some (nm_ap_list_get_ap_by_essid (w_heap w2)
                             (invalid_ap_list (w_data w2)) (Some e))).
  { apply get_ap_by_essid_is_Some. exists e, best. split; [reflexivity |]. split.
    - subst w2. simpl. unfold nm_ap_list_append_ap. apply in_or_app. right. now left.
    - subst w2. simpl. now rewrite essid_set_invalid. }
  assert (Hrec : forall x,
            nm_device_is_wireless (w_dev x) = true ->
            w_heap x = w_heap w2 -> w_data x = w_data w2 ->
            nm_device_ap_list_get x = nm_device_ap_list_get w ->
            nm_device_get_best_ap (recompute_best_ap x) = Some r ->
            nm_ap_get_essid (w_heap (recompute_best_ap x)) r <> Some e
            /\ r <> best /\ In r (nm_device_ap_list_get w)).
  { intros x Hx Hh Hd Hl Hb.
    destruct (recompute_best_ap_result x r Hx Hb) as (Hni & Hes & Hin).
    rewrite Hh, Hd in Hni. rewrite Hh in Hes. rewrite Hl in Hin.
    assert (Hne : nm_ap_get_essid (w_heap w2) r <> Some e).
    { intros E. rewrite E in Hni. rewrite Hni in Hinv2. destruct Hinv2; discriminate. }
    split; [now rewrite Hes |]. split; [| exact Hin].
    intros ->. apply Hne. subst w2. simpl. now rewrite essid_set_invalid. }
  unfold nm_device_update_best_ap. rewrite Hw2. cbn [negb].
  replace (nm_device_is_best_ap_frozen w2) with (nm_device_is_best_ap_frozen w)
    by reflexivity.
  replace (nm_device_get_best_ap w2) with (nm_device_get_best_ap w) by reflexivity.
  assert (Hunf : nm_device_is_wireless (w_dev (nm_device_unfreeze_best_ap w2)) = true
                 /\ w_heap (nm_device_unfreeze_best_ap w2) = w_heap w2
                 /\ w_data (nm_device_unfreeze_best_ap w2) = w_data w2
                 /\ nm_device_ap_list_get (nm_device_unfreeze_best_ap w2)
                    = nm_device_ap_list_get w).
  { unfold nm_device_unfreeze_best_ap. rewrite Hw2. simpl.
    unfold nm_device_ap_list_get. simpl.
    unfold nm_device_is_wireless in *. simpl. rewrite Hw. auto. }
  destruct Hunf as (U1 & U2 & U3 & U4).
  destruct Hfr as [Hf | [Hb Hu]].
  - rewrite Hf. apply Hrec; auto.
  - destruct (nm_device_is_best_ap_frozen w); [| apply Hrec; auto].
    rewrite Hb.
    assert (Hkeep : keep_frozen_best_ap w2 best = false).
    { unfold keep_frozen_best_ap.
      replace (nm_ap_get_essid (w_heap w2) best) with (Some e)
        by (subst w2; simpl; now rewrite essid_set_invalid).
      rewrite (bool_decide_eq_true_2 _ Hinv2). simpl.
      subst w2. simpl. unfold nm_ap_get_user_created, nm_ap_set_invalid, deref in *.
      rewrite list_lookup_alter_eq. destruct (w_heap w !! best); exact Hu. }
    rewrite Hkeep. apply Hrec; auto.
Qed.

Lemma invalidated_ap_not_chosen_again_witness :
  let w := sample_selection_world in
  let w' := invalidate_best_ap 0%nat w in
  (nm_device_is_wireless (w_dev w) = true
   /\ nm_ap_get_essid (w_heap w) 0%nat = Some "cafe"%string
   /\ nm_device_is_best_ap_frozen w = false)
  /\ nm_device_get_best_ap w' = Some 1%nat
  /\ nm_ap_get_essid (w_heap w') 1%nat <> Some "cafe"%string
  /\ 1%nat <> 0%nat
  /\ In 1%nat (nm_device_ap_list_get w).
Proof.
  intros w w'.
  assert (H1 : nm_device_is_wireless (w_dev w) = true) by reflexivity.
  assert (H2 : nm_ap_get_essid (w_heap w) 0%nat = Some "cafe"%string) by reflexivity.
  assert (H3 : nm_device_is_best_ap_frozen w = false) by reflexivity.
  assert (H4 : nm_device_get_best_ap w' = Some 1%nat) by reflexivity.
  split; [auto |]. split; [exact H4 |].
  exact (invalidated_ap_not_chosen_again 0%nat "cafe" w H1 H2 (or_introl H3) 1%nat H4).
Defined.

(** ** Searching the device list *)

Section DeviceListFacts.

Variable Dev : Type.
Variable nm_device_get_udi : Dev -> option string.
Variable nm_device_get_iface : Dev -> option string.

Lemma strcmp_eq_true (a b : option string) :
  nm_null_safe_strcmp_eq a b = true <-> a = b.
Proof. unfold nm_null_safe_strcmp_eq. apply bool_decide_eq_true. Qed.

Lemma strcmp_eq_false (a b : option string) :
  nm_null_safe_strcmp_eq a b = false <-> a <> b.
Proof. unfold nm_null_safe_strcmp_eq. apply bool_decide_eq_false. Qed.

(** X18. nm_get_device_by_iface returns the first device of the list
    whose interface name is the one asked for, and NULL exactly when no
    device of the list carries that name. *)
Theorem get_device_by_iface_first_match (l : list (option Dev)) (iface : string) :
  match nm_get_device_by_iface Dev nm_device_get_iface l iface with
  | Some d =>
      exists i : nat,
        l !! i = Some (Some d)
        /\ nm_device_get_iface d = Some iface
        /\ forall (j : nat) (d' : Dev),
             (j < i)%nat -> l !! j = Some (Some d') -> nm_device_get_iface d' <> Some iface
  | None =>
      forall d : Dev, In (Some d) l -> nm_device_get_iface d <> Some iface
  end.
Proof.
  induction l as [| data next IH]; simpl.
  - intros d [].
  - destruct data as [d |].
    + destruct (nm_null_safe_strcmp_eq (nm_device_get_iface d) (Some iface)) eqn:E.
      * exists 0%nat. split; [reflexivity |]. split; [now apply strcmp_eq_true |].
        intros j d' Hj. lia.
      * apply strcmp_eq_false in E.
        destruct (nm_get_device_by_iface Dev nm_device_get_iface next iface) as [d0 |].
        -- destruct IH as (i & Hi & Hd & Hfirst).
           exists (S i). split; [exact Hi |]. split; [exact Hd |].
           intros [| j] d' Hj Hl; simpl in Hl.
           ++ now simplify_eq.
           ++ apply (Hfirst j); [lia | exact Hl].
        -- intros d' [Hd' | Hd']; [now simplify_eq | now apply IH].
    + destruct (nm_get_device_by_iface Dev nm_device_get_iface next iface) as [d0 |].
      * destruct IH as (i & Hi & Hd & Hfirst).
        exists (S i). split; [exact Hi |]. split; [exact Hd |].
        intros [| j] d' Hj Hl; simpl in Hl.
        -- discriminate.
        -- apply (Hfirst j); [lia | exact Hl].
      * intros d' [Hd' | Hd']; [discriminate | now apply IH].
Qed.

Lemma get_device_by_udi_loop_match (udi : string) (l : list (option Dev)) :
  forall (dev : option Dev) (i : nat) (d : Dev),
    l !! i = Some (Some d) ->
    nm_device_get_udi d = Some udi ->
    (forall (j : nat) (d' : Dev),
       (j < i)%nat -> l !! j = Some (Some d') -> nm_device_get_udi d' <> Some udi) ->
    get_device_by_udi_loop Dev nm_device_get_udi udi l dev = Some d.
Proof.
  induction l as [| data next IH]; intros dev i d Hi Hd Hfirst.
  - destruct i; discriminate.
  - destruct i as [| i]; simpl in Hi.
    + simplify_eq. simpl.
      now rewrite (proj2 (strcmp_eq_true _ _) Hd).
    + simpl. destruct data as [d0 |].
      * assert (E : nm_device_get_udi d0 <> Some udi).
        { apply (Hfirst 0%nat); [lia | reflexivity]. }
        rewrite (proj2 (strcmp_eq_false _ _) E).
        apply (IH _ i); [exact Hi | exact Hd |].
        intros j d' Hj Hl. apply (Hfirst (S j)); [lia | exact Hl].
      * apply (IH _ i); [exact Hi | exact Hd |].
        intros j d' Hj Hl. apply (Hfirst (S j)); [lia | exact Hl].
Qed.

Lemma get_device_by_udi_loop_no_match (udi : string) (l : list (option Dev)) :
  forall dev : option Dev,
    (forall d : Dev, In (Some d) l -> nm_device_get_udi d <> Some udi) ->
    get_device_by_udi_loop Dev nm_device_get_udi udi l dev = default dev (last l).
Proof.
  induction l as [| data next IH]; intros dev Hno; [reflexivity |].
  assert (Hnext : forall d : Dev, In (Some d) next -> nm_device_get_udi d <> Some udi).
  { intros d Hd. apply Hno. now right. }
  simpl. destruct data as [d0 |].
  - assert (E : nm_device_get_udi d0 <> Some udi) by (apply Hno; now left).
    rewrite (proj2 (strcmp_eq_false _ _) E).
    rewrite (IH _ Hnext), last_cons. destruct (last next); reflexivity.
  - rewrite (IH _ Hnext), last_cons. destruct (last next); reflexivity.
Qed.

(** X19. nm_get_device_by_udi returns the first device of the list that
    carries the UDI asked for. When no device carries it the answer is not
    NULL but whatever the last element of the list holds: NULL only for an
    empty list or a last element without a device. *)
Theorem get_device_by_udi_result (l : list (option Dev)) (udi : string) :
  (forall (i : nat) (d : Dev),
     l !! i = Some (Some d) ->
     nm_device_get_udi d = Some udi ->
     (forall (j : nat) (d' : Dev),
        (j < i)%nat -> l !! j = Some (Some d') -> nm_device_get_udi d' <> Some udi) ->
     nm_get_device_by_udi Dev nm_device_get_udi l udi = Some d)
  /\ ((forall d : Dev, In (Some d) l -> nm_device_get_udi d <> Some udi) ->
      nm_get_device_by_udi Dev nm_device_get_udi l udi = default None (last l)).
Proof.
  split.
  - intros i d. apply get_device_by_udi_loop_match.
  - apply get_device_by_udi_loop_no_match.
Qed.

End DeviceListFacts.

Lemma get_device_by_udi_result_witness :
  let l := [Some ("/hal/eth0", "eth0"); Some ("/hal/eth1", "eth1"); None;
            Some ("/hal/wlan0", "wlan0")]%string in
  let get_udi := fun d : string * string => Some (fst d) in
  (l !! 1%nat = Some (Some ("/hal/eth1", "eth1"))%string
   /\ nm_get_device_by_udi _ get_udi l "/hal/eth1" = Some ("/hal/eth1", "eth1")%string)
  /\ nm_get_device_by_udi _ get_udi l "/hal/gone" = Some ("/hal/wlan0", "wlan0")%string.
Proof.
  intros l get_udi.
  destruct (get_device_by_udi_result _ get_udi l "/hal/eth1") as (A & _).
  destruct (get_device_by_udi_result _ get_udi l "/hal/gone") as (_ & B).
  split; [split; [reflexivity |] |].
  - apply (A 1%nat); [reflexivity | reflexivity |].
    intros [| j] d' Hj Hl; [| lia].
    simpl in Hl. injection Hl as <-. simpl. discriminate.
  - rewrite B; [reflexivity |].
    intros d [Hd | [Hd | [Hd | [Hd | []]]]]; try discriminate;
      injection Hd as <-; simpl; discriminate.
Defined.

(** ** Signal strength *)

Lemma update_signal_strength_failed (stats : option SignalObs) (w : World)
    (s : SignalState) :
  nm_device_is_wireless (w_dev w) = true ->
  is_active_device (w_data w) = true ->
  test_device (w_dev w) = false ->
  reading_percent stats = -1 ->
  let s' := nm_device_update_signal_strength stats w s in
  (invalid_strength_counter s < 3 ->
   strength s' = strength s
   /\ invalid_strength_counter s' = invalid_strength_counter s + 1)
  /\ (3 <= invalid_strength_counter s ->
      strength s' = -1 /\ invalid_strength_counter s' = 0).
Proof.
  intros Hw Ha Ht Hp. unfold nm_device_update_signal_strength.
  rewrite Hw, Ha, Ht. simpl negb. cbv iota zeta.
  unfold reading_percent in Hp. rewrite Hp. simpl (-1 =? -1).
  cbv iota. split; intros Hc.
  - rewrite (proj2 (Z.leb_le _ _)) by lia. simpl. auto.
  - rewrite (proj2 (Z.leb_gt _ _)) by lia. simpl. auto.
Qed.

Lemma signal_readings_failed (w : World) (bad : list (option SignalObs)) :
  nm_device_is_wireless (w_dev w) = true ->
  is_active_device (w_data w) = true ->
  test_device (w_dev w) = false ->
  Forall (fun st => reading_percent st = -1) bad ->
  forall s : SignalState,
    invalid_strength_counter s + Z.of_nat (length bad) <= 3 ->
    strength (signal_readings w bad s) = strength s
    /\ invalid_strength_counter (signal_readings w bad s)
       = invalid_strength_counter s + Z.of_nat (length bad).
Proof.
  intros Hw Ha Ht. induction 1 as [| st bad Hst Hbad IH]; intros s Hc.
  - simpl. split; [reflexivity | lia].
  - simpl length in Hc. unfold signal_readings. simpl fold_left.
    destruct (update_signal_strength_failed st w s Hw Ha Ht Hst) as (A & _).
    cbv zeta in A. destruct A as (A1 & A2); [lia |].
    fold (signal_readings w bad (nm_device_update_signal_strength st w s)).
    destruct (IH (nm_device_update_signal_strength st w s)) as (B1 & B2); [lia |].
    rewrite B1, B2, A1, A2. simpl length. split; [reflexivity | lia].
Qed.

Lemma to_gint8_small (z : Z) : -128 <= z <= 127 -> to_gint8 z = z.
Proof.
  intros H. unfold to_gint8. rewrite Z.mod_small by lia. lia.
Qed.

(** X20. On the active wireless card a valid reading is reported at once:
    nm_device_get_signal_strength returns it as a gint8, that is, as it is
    for a reading between -128 and 127. After it, up to three readings in
    a row that fail leave the reported strength as it was; the fourth
    failure in a row makes it -1. *)
Theorem signal_strength_smoothing (w : World) (s : SignalState) (good : SignalObs)
    (bad : list (option SignalObs)) :
  nm_device_is_wireless (w_dev w) = true ->
  is_active_device (w_data w) = true ->
  test_device (w_dev w) = false ->
  s_percent good <> -1 ->
  Forall (fun st => reading_percent st = -1) bad ->
  let s1 := nm_device_update_signal_strength (Some good) w s in
  nm_device_get_signal_strength w s1 = to_gint8 (s_percent good)
  /\ ((length bad <= 3)%nat ->
      nm_device_get_signal_strength w (signal_readings w bad s1)
      = to_gint8 (s_percent good))
  /\ (length bad = 4%nat ->
      nm_device_get_signal_strength w (signal_readings w bad s1) = -1)
  /\ (-128 <= s_percent good <= 127 -> to_gint8 (s_percent good) = s_percent good).
Proof.
  intros Hw Ha Ht Hg Hbad s1.
  assert (G : strength s1 = s_percent good /\ invalid_strength_counter s1 = 0).
  { subst s1. unfold nm_device_update_signal_strength.
    rewrite Hw, Ha, Ht. simpl negb. cbv iota zeta.
    rewrite (proj2 (Z.eqb_neq _ _) Hg). simpl. auto. }
  destruct G as (G1 & G2).
  unfold nm_device_get_signal_strength. rewrite Hw. simpl negb. cbv iota.
  split; [now rewrite G1 |]. split; [| split; [| apply to_gint8_small]].
  - intros Hl.
    destruct (signal_readings_failed w bad Hw Ha Ht Hbad s1) as (A & _); [lia |].
    now rewrite A, G1.
  - intros Hl.
    destruct (exists_last (l := bad)) as (front & (st & Hsplit)).
    { intros ->. discriminate. }
    subst bad. apply Forall_app in Hbad as (Hfront & Hst).
    apply Forall_inv in Hst.
    rewrite length_app in Hl. simpl in Hl.
    destruct (signal_readings_failed w front Hw Ha Ht Hfront s1) as (A1 & A2); [lia |].
    unfold signal_readings. rewrite fold_left_app. simpl fold_left.
    fold (signal_readings w front s1).
    destruct (update_signal_strength_failed st w (signal_readings w front s1)
                Hw Ha Ht Hst) as (_ & B).
    cbv zeta in B. destruct B as (B1 & _); [lia |]. rewrite B1. reflexivity.
Qed.

Lemma signal_strength_smoothing_witness :
  let s := {| strength := -1; noise := 0; max_quality := 0;
              invalid_strength_counter := 2 |} in
  let good := {| s_max_qual_level := 92; s_noise := 161; s_percent := 64 |} in
  let w := sample_keyed_world NETWORK_MODE_INFRA in
  (nm_device_is_wireless (w_dev w) = true
   /\ is_active_device (w_data w) = true
   /\ test_device (w_dev w) = false)
  /\ nm_device_get_signal_strength w
       (signal_readings w [None; None; None]
          (nm_device_update_signal_strength (Some good) w s)) = 64
  /\ nm_device_get_signal_strength w
       (signal_readings w [None; None; None; None]
          (nm_device_update_signal_strength (Some good) w s)) = -1.
Proof.
  intros s good w.
  assert (Hw : nm_device_is_wireless (w_dev w) = true) by reflexivity.
  assert (Ha : is_active_device (w_data w) = true) by reflexivity.
  assert (Ht : test_device (w_dev w) = false) by reflexivity.
  assert (Hg : s_percent good <> -1) by (simpl; lia).
  split; [auto |]. split.
  - assert (Hb : Forall (fun st => reading_percent st = -1) [None; None; None : option SignalObs])
      by (repeat constructor).
    destruct (signal_strength_smoothing w s good _ Hw Ha Ht Hg Hb) as (_ & A & _ & R).
    eapply eq_trans; [apply A; simpl; lia | apply R; simpl; lia].
  - assert (Hb : Forall (fun st => reading_percent st = -1)
                   [None; None; None; None : option SignalObs])
      by (repeat constructor).
    destruct (signal_strength_smoothing w s good _ Hw Ha Ht Hg Hb) as (_ & _ & A & _).
    apply A. reflexivity.
Defined.

(** ** The link of a wired card *)

Lemma land_16_bits (v : Z) :
  (Z.land (v mod 2 ^ 16) 0x0016 =? 0x0004) = true
  <-> Z.testbit v 2 = true /\ Z.testbit v 1 = false /\ Z.testbit v 4 = false.
Proof.
  rewrite Z.eqb_eq. split.
  - intros E.
    assert (B : forall n, 0 <= n < 16 ->
              Z.testbit v n && Z.testbit 22 n = Z.testbit 4 n).
    { intros n Hn. rewrite <- E, Z.land_spec, Z.mod_pow2_bits_low by lia. reflexivity. }
    pose proof (B 2 ltac:(lia)) as B2. pose proof (B 1 ltac:(lia)) as B1.
    pose proof (B 4 ltac:(lia)) as B4.
    change (Z.testbit 22 2) with true in B2. change (Z.testbit 4 2) with true in B2.
    change (Z.testbit 22 1) with true in B1. change (Z.testbit 4 1) with false in B1.
    change (Z.testbit 22 4) with true in B4. change (Z.testbit 4 4) with false in B4.
    rewrite andb_true_r in B1, B2, B4. auto.
  - intros (B2 & B1 & B4). apply Z.bits_inj'. intros n Hn.
    rewrite Z.land_spec.
    assert (C : n = 0 \/ n = 1 \/ n = 2 \/ n = 3 \/ n = 4 \/ 5 <= n) by lia.
    destruct C as [-> | [-> | [-> | [-> | [-> | C]]]]].
    + change (Z.testbit 22 0) with false. now rewrite andb_false_r.
    + rewrite Z.mod_pow2_bits_low, B1 by lia. reflexivity.
    + rewrite Z.mod_pow2_bits_low, B2 by lia. reflexivity.
    + change (Z.testbit 22 3) with false. now rewrite andb_false_r.
    + rewrite Z.mod_pow2_bits_low, B4 by lia. reflexivity.
    + rewrite (Z.bits_above_log2 22 n), (Z.bits_above_log2 4 n);
        [now rewrite andb_false_r | lia | simpl; lia | lia | simpl; lia].
Qed.

(** X21. mii_get_link reports a link exactly when the socket opens, the
    PHY address can be asked for under one of the two request numbers, and
    the second read of the status register succeeds with the link bit
    (0x0004) set and the jabber (0x0002) and remote fault (0x0010) bits
    clear. What the first read gives does not matter; a second read that
    fails means no link. *)
Theorem mii_link_bits (sock_ok phy_new phy_old : bool) (read1 read2 : option Z) :
  mii_get_link sock_ok phy_new phy_old read1 read2 = true
  <-> sock_ok = true
      /\ (phy_new = true \/ phy_old = true)
      /\ exists v : Z,
           read2 = Some v
           /\ Z.testbit v 2 = true /\ Z.testbit v 1 = false /\ Z.testbit v 4 = false.
Proof.
  unfold mii_get_link. cbv zeta. split.
  - destruct sock_ok; cbn [negb]; [| discriminate].
    destruct phy_new, phy_old; cbn [negb andb]; try discriminate;
      (destruct read2 as [v |]; unfold mdio_read;
       [ intros E; apply land_16_bits in E;
         split; [reflexivity |]; split; [auto |]; exists v; split; [reflexivity | exact E]
       | intros E; vm_compute in E; discriminate E ]).
  - intros (-> & Hphy & v & -> & Hbits). cbn [negb].
    assert (P : negb phy_new && negb phy_old = false).
    { destruct Hphy as [-> | ->]; [reflexivity | now rewrite andb_false_r]. }
    rewrite P. unfold mdio_read. now apply land_16_bits.
Qed.

(** ** The end of the activation worker *)

(** X22. When the activation proper has returned, the worker always
    leaves the device with both the activating flag and the cancel request
    cleared. It schedules the finish handler only for an activation that
    succeeded and was not cancelled, so a failure is never reported that
    way; and it stays to look after the DHCP lease only after such a
    success on a device that uses DHCP and has a DHCP interface. *)
Theorem worker_finish_report (success has_dhcp_iface : bool) (w : World) :
  let r := nm_device_activation_worker_finish success has_dhcp_iface w in
  let reported := success && negb (quit_activation (w_dev w)) in
  activating (w_dev (snd r)) = false
  /\ quit_activation (w_dev (snd r)) = false
  /\ w_trace (snd r) = w_trace w ++ (if reported then [EvScheduleFinish true] else [])
  /\ fst r = reported && nm_device_config_get_use_dhcp (w_dev w) && has_dhcp_iface.
Proof.
  unfold nm_device_activation_worker_finish, nm_device_activation_handle_cancel,
    nm_device_activation_schedule_finish,
    nm_device_config_get_use_dhcp.
  destruct (quit_activation (w_dev w)) eqn:Q.
  - simpl. rewrite andb_false_r, app_nil_r. auto.
  - destruct success; simpl.
    + destruct (use_dhcp (w_dev w)), has_dhcp_iface; simpl; auto.
    + rewrite app_nil_r. auto.
Qed.

(** ** Creating an ad-hoc network *)

Lemma in_trace_appends (P : Event -> bool) (e : Event) (w w' : World) :
  appends_only P w w' -> In e (w_trace w) -> In e (w_trace w').
Proof. intros (new & T & _) H. rewrite T. apply in_or_app. now left. Qed.

Lemma in_trace_configure_ip (only_autoip : bool) (ip : IpObs) (e : Event) (w : World) :
  In e (w_trace w) ->
  In e (w_trace (snd (nm_device_activation_configure_ip only_autoip ip w))).
Proof.
  intros H. destruct (configure_ip_spec only_autoip ip w) as (_ & rest & T & _).
  cbv zeta in T. rewrite T. apply in_or_app. now left.
Qed.

Lemma strike_out_entry (h : list NMAccessPoint) (table : list Q) (r : nat) (f : Q) :
  In f (adhoc_strike_out h table r) ->
  Qeq_bool f 0 = false ->
  In f table /\ Qeq_bool (nm_ap_get_freq h r) f = false.
Proof.
  unfold adhoc_strike_out. intros Hin Hf.
  destruct (Qeq_bool (nm_ap_get_freq h r) 0) eqn:E.
  - split; [exact Hin |].
    destruct (Qeq_bool (nm_ap_get_freq h r) f) eqn:E2; [| reflexivity].
    apply Qeq_bool_sym in E2.
    pose proof (Qeq_bool_trans _ _ _ E2 E) as E3. congruence.
  - apply list_elem_of_In, list_elem_of_fmap in Hin as (g & Hg & Hin).
    apply list_elem_of_In in Hin.
    destruct (Qeq_bool g (nm_ap_get_freq h r)) eqn:E2.
    + subst f. discriminate.
    + subst f. split; [exact Hin |]. now rewrite Qeq_bool_comm.
Qed.

Lemma strike_out_all_entry (h : list NMAccessPoint) (aps : list nat) (f : Q) :
  forall table : list Q,
    In f (fold_left (adhoc_strike_out h) aps table) ->
    Qeq_bool f 0 = false ->
    In f table /\ forall r : nat, In r aps -> Qeq_bool (nm_ap_get_freq h r) f = false.
Proof.
  induction aps as [| r0 aps IH]; intros table Hin Hf; simpl in Hin.
  - split; [exact Hin | intros r []].
  - destruct (IH _ Hin Hf) as (Hin' & Hrest).
    destruct (strike_out_entry h table r0 f Hin' Hf) as (Hin0 & Hr0).
    split; [exact Hin0 |].
    intros r [<- | Hr]; [exact Hr0 | now apply Hrest].
Qed.

Lemma first_free_entry (channel : Q -> Z) (table : list Q) (f : Q) :
  adhoc_first_free channel table = f ->
  Qeq_bool f 0 = false ->
  In f table /\ 0 < channel f < 15.
Proof.
  unfold adhoc_first_free. intros Hf Hnz.
  destruct (find _ table) as [g |] eqn:E; simpl in Hf; subst f.
  - apply find_some in E as (Hin & Hp).
    apply andb_true_iff in Hp as (Hp & H15). apply andb_true_iff in Hp as (_ & H0).
    split; [exact Hin | lia].
  - discriminate.
Qed.

Lemma set_freq_essid (h : list NMAccessPoint) (ap : nat) (f : Q) :
  nm_ap_get_essid (nm_ap_set_freq ap f h) ap = nm_ap_get_essid h ap.
Proof.
  unfold nm_ap_get_essid, nm_ap_set_freq, deref.
  rewrite list_lookup_alter_eq. now destruct (h !! ap).
Qed.

Lemma set_freq_user_created (h : list NMAccessPoint) (ap : nat) (f : Q) :
  nm_ap_get_user_created (nm_ap_set_freq ap f h) ap = nm_ap_get_user_created h ap.
Proof.
  unfold nm_ap_get_user_created, nm_ap_set_freq, deref.
  rewrite list_lookup_alter_eq. now destruct (h !! ap).
Qed.

Lemma set_freq_freq (h : list NMAccessPoint) (ap : nat) (f : Q) :
  is_Some (h !! ap) -> nm_ap_get_freq (nm_ap_set_freq ap f h) ap = f.
Proof.
  unfold nm_ap_get_freq, nm_ap_set_freq, deref. intros [a Ha].
  now rewrite list_lookup_alter_eq, Ha.
Qed.

Lemma in_trace_set_frequency (f : Q) (w : World) :
  real_wireless_card w = true ->
  In (EvSetFrequency f) (w_trace (nm_device_set_frequency f w)).
Proof.
  unfold real_wireless_card, nm_device_set_frequency. intros H.
  apply andb_true_iff in H as (H & Hs). apply andb_true_iff in H as (Hw & Ht).
  apply negb_true_iff in Ht, Hs. rewrite Hw, Ht, Hs. simpl.
  apply in_or_app. right. now left.
Qed.

Section AdHocFacts.

Variable nm_ap_get_enc_key_hashed : NMAccessPoint -> option string.
Variable iw_freq_to_channel : Q -> Z.
Variable iw_channel_to_freq : Z -> option Q.
Variable random : Z.

Lemma set_wireless_config_sends_frequency (ap : nat) (auth : NMDeviceAuthMethod)
    (card : CardObs) (w : World) :
  real_wireless_card w = true ->
  is_Some (nm_ap_get_essid (w_heap w) ap) ->
  nm_ap_get_user_created (w_heap w) ap = true ->
  In (EvSetFrequency (nm_ap_get_freq (w_heap w) ap))
     (w_trace (snd (nm_device_set_wireless_config nm_ap_get_enc_key_hashed ap auth card w))).
Proof.
  intros Hreal [essid He] Hu.
  assert (Hw : nm_device_is_wireless (w_dev w) = true).
  { unfold real_wireless_card in Hreal.
    apply andb_true_iff in Hreal as (Hreal & _). now apply andb_true_iff in Hreal as (? & _). }
  unfold nm_device_set_wireless_config. rewrite Hw, He, Hu. cbv zeta. cbn [negb snd orb].
  set (e := EvSetFrequency (nm_ap_get_freq (w_heap w) ap)).
  assert (K : forall (b : bool) (g : World -> World) (x : World),
            (forall y, appends_only (fun _ => true) y (g y)) ->
            In e (w_trace x) -> In e (w_trace (if b then g x else x))).
  { intros b g x Hg Hx. destruct b; [| exact Hx].
    eapply in_trace_appends; [apply Hg | exact Hx]. }
  eapply in_trace_appends;
    [apply (appends_update_link_active (fun _ => true)); reflexivity |].
  apply K.
  { intros y. eapply appends_only_weaken; [| apply appends_set_bitrate]. auto. }
  eapply in_trace_appends;
    [apply (appends_association_pause (fun _ => true)); reflexivity |].
  eapply in_trace_appends;
    [eapply appends_only_weaken; [| apply appends_set_essid]; auto |].
  apply K.
  { intros y. eapply appends_only_weaken; [| apply appends_set_enc_key]. auto. }
  eapply in_trace_appends;
    [eapply appends_only_weaken; [| apply appends_set_enc_key]; auto |].
  apply in_trace_set_frequency.
  eapply eq_trans; [apply keeps_card_real_wireless | exact Hreal].
  eapply keeps_card_trans; [| apply keeps_card_set_bitrate].
  eapply keeps_card_trans; [| apply keeps_card_set_mode].
  eapply keeps_card_trans; [| apply keeps_card_set_essid].
  eapply keeps_card_trans; [| apply keeps_card_set_mode].
  eapply keeps_card_trans; [| apply keeps_card_emit].
  eapply keeps_card_trans; [| apply keeps_card_set_up_down].
  eapply keeps_card_trans; [| apply keeps_card_emit].
  apply keeps_card_set_up_down.
Qed.

(** X23. When the table of the card's frequencies still holds a free
    802.11b channel, nm_device_activate_wireless_adhoc takes a frequency
    of that table whose channel lies between 1 and 14 and which no access
    point of the device's list uses, and writes it into the access point
    to create. For a user-created access point with an ESSID, a real
    wireless card is asked to tune to that very frequency. *)
Theorem adhoc_uses_free_channel (card_freqs : list Q) (ap : nat) (o : Obs) (w : World)
    (f : Q) :
  adhoc_first_free iw_freq_to_channel
    (fold_left (adhoc_strike_out (w_heap w)) (nm_device_ap_list_get w) card_freqs) = f ->
  Qeq_bool f 0 = false ->
  is_Some (w_heap w !! ap) ->
  let r := nm_device_activate_wireless_adhoc nm_ap_get_enc_key_hashed
             iw_freq_to_channel iw_channel_to_freq random card_freqs ap o w in
  In f card_freqs
  /\ 0 < iw_freq_to_channel f < 15
  /\ (forall r' : nat,
        In r' (nm_device_ap_list_get w) -> Qeq_bool (nm_ap_get_freq (w_heap w) r') f = false)
  /\ nm_ap_get_freq (w_heap (snd r)) ap = f
  /\ (real_wireless_card w = true ->
      is_Some (nm_ap_get_essid (w_heap w) ap) ->
      nm_ap_get_user_created (w_heap w) ap = true ->
      In (EvSetFrequency f) (w_trace (snd r))).
Proof.
  intros Hf Hnz Hap r.
  destruct (first_free_entry _ _ _ Hf Hnz) as (Hin & Hch).
  destruct (strike_out_all_entry _ _ _ _ Hin Hnz) as (Hcard & Hfree).
  split; [exact Hcard |]. split; [exact Hch |]. split; [exact Hfree |].
  assert (Huse : adhoc_freq_to_use iw_freq_to_channel iw_channel_to_freq random card_freqs w
                 = f).
  { unfold adhoc_freq_to_use. cbv zeta. rewrite Hf, Hnz. reflexivity. }
  subst r. unfold nm_device_activate_wireless_adhoc. cbv zeta.
  rewrite Huse, Hnz. cbn [negb].
  set (w1 := with_heap (nm_ap_set_freq ap f) w).
  assert (Hh1 : w_heap w1 = nm_ap_set_freq ap f (w_heap w)) by reflexivity.
  pose proof (keeps_card_set_wireless_config nm_ap_get_enc_key_hashed ap
                (if nm_ap_get_encrypted (w_heap w) ap
                 then NM_DEVICE_AUTH_METHOD_SHARED_KEY else NM_DEVICE_AUTH_METHOD_NONE)
                (obs_card o) w1) as K1.
  pose proof (fun Hr He Hu =>
                set_wireless_config_sends_frequency ap
                  (if nm_ap_get_encrypted (w_heap w) ap
                   then NM_DEVICE_AUTH_METHOD_SHARED_KEY else NM_DEVICE_AUTH_METHOD_NONE)
                  (obs_card o) w1 Hr He Hu) as S1.
  rewrite Hh1, set_freq_essid, set_freq_user_created, set_freq_freq in S1 by exact Hap.
  destruct (nm_device_set_wireless_config _ ap _ (obs_card o) w1) as [success w2].
  cbn [snd] in K1, S1.
  assert (Hfreq1 : nm_ap_get_freq (w_heap w1) ap = f).
  { rewrite Hh1. now apply set_freq_freq. }
  assert (Hreal1 : real_wireless_card w1 = real_wireless_card w) by reflexivity.
  destruct success.
  - pose proof (keeps_card_configure_ip true (obs_ip o) w2) as K2.
    split.
    + destruct K1 as (_ & _ & _ & H1 & _). destruct K2 as (_ & _ & _ & H2 & _).
      now rewrite H2, H1.
    + intros Hr He Hu. apply in_trace_configure_ip. apply S1; [| exact He | exact Hu].
      now rewrite Hreal1.
  - cbn [snd]. split.
    + destruct K1 as (_ & _ & _ & H1 & _). now rewrite H1.
    + intros Hr He Hu. apply S1; [| exact He | exact Hu]. now rewrite Hreal1.
Qed.

End AdHocFacts.

Lemma adhoc_uses_free_channel_witness :
  let w := sample_adhoc_world in
  let card_freqs := [2412 # 1000; 5180 # 1000; 2437 # 1000; 2462 # 1000]%Q in
  let r := nm_device_activate_wireless_adhoc ap_enc_key_source sample_channel
             (fun _ => None) 7 card_freqs 1%nat obs_no_link w in
  (adhoc_first_free sample_channel
     (fold_left (adhoc_strike_out (w_heap w)) (nm_device_ap_list_get w) card_freqs)
   = (2437 # 1000)%Q
   /\ Qeq_bool (2437 # 1000) 0 = false
   /\ is_Some (w_heap w !! 1%nat)
   /\ real_wireless_card w = true
   /\ is_Some (nm_ap_get_essid (w_heap w) 1%nat)
   /\ nm_ap_get_user_created (w_heap w) 1%nat = true)
  /\ nm_ap_get_freq (w_heap (snd r)) 1%nat = (2437 # 1000)%Q
  /\ In (EvSetFrequency (2437 # 1000)) (w_trace (snd r)).
Proof.
  intros w card_freqs r.
  assert (H1 : adhoc_first_free sample_channel
                 (fold_left (adhoc_strike_out (w_heap w)) (nm_device_ap_list_get w)
                    card_freqs) = (2437 # 1000)%Q) by reflexivity.
  assert (H2 : Qeq_bool (2437 # 1000) 0 = false) by reflexivity.
  assert (H3 : is_Some (w_heap w !! 1%nat)) by (eexists; reflexivity).
  assert (H4 : real_wireless_card w = true) by reflexivity.
  assert (H5 : is_Some (nm_ap_get_essid (w_heap w) 1%nat)) by (eexists; reflexivity).
  assert (H6 : nm_ap_get_user_created (w_heap w) 1%nat = true) by reflexivity.
  destruct (adhoc_uses_free_channel ap_enc_key_source sample_channel (fun _ => None) 7
              card_freqs 1%nat obs_no_link w _ H1 H2 H3) as (_ & _ & _ & A & B).
  split; [auto 10 |]. split; [exact A | exact (B H4 H5 H6)].
Defined.

(** * Does a network exist? (C6) *)



Lemma set_enc_key_kernel k a (w : World) :
  w_kernel (nm_device_set_enc_key k a w) = w_kernel w.
Proof. unfold nm_device_set_enc_key. repeat case_match; reflexivity. Qed.




Section ProbingResults.

Variable f1 f2 f3 : string -> string.
Variable network : string.
Variable key : option string.
Variable key_type : NMEncKeyType.
Variable wrq : list byte.



End ProbingResults.

Section ProbingRounds.

Variable f1 f2 f3 : string -> string.
Variable network : string.
Variable key : option string.
Variable key_type : NMEncKeyType.
Variable wrq : list byte.
Variable card : nat -> CardObs.




End ProbingRounds.

